(** * website_scaner: a shallow embedding of [scanner.py]

    The development follows the layout of the source file: first the
    pieces of the Python runtime the scanner relies on (text, [re],
    dictionaries, number formatting), then the network environment and
    the effect monad in which the methods of [WebsiteScanner] run, then
    the methods themselves, and finally the properties.

    Text.  A Python [str] is modelled by [string], in one of two ways.
    The URL, the header lines and the output of [nslookup] are kept
    character by character, the characters being the code points below
    256 (every HTTP header value is of that form, [http.client] decodes
    header lines as ISO-8859-1).  The body of a page, which the scanner
    decodes from UTF-8 and which may hold any character, is kept as the
    UTF-8 encoding of the decoded text: the patterns the detectors look
    for are ASCII, an ASCII byte of the encoding is always a character
    of its own, and the few characters outside ASCII that
    [re.IGNORECASE] lets an ASCII letter match are told by their
    encoding. *)

From Stdlib Require Import String Ascii List ZArith NArith Lia Bool.
From Stdlib Require Import DecimalString.
Import ListNotations.
Open Scope string_scope.

(* ================================================================== *)
(** ** Python text *)

Module PyStr.

Definition dquote : ascii := Ascii.ascii_of_nat 34.
Definition squote : ascii := Ascii.ascii_of_nat 39.

Definition code (c : ascii) : N := N_of_ascii c.

Definition between (lo hi : N) (c : ascii) : bool :=
  (N.leb lo (code c) && N.leb (code c) hi)%bool.

(** [str.lower] on one character: A-Z, and the Latin-1 capitals
    0xC0-0xDE without the multiplication sign 0xD7. *)
Definition lower_char (c : ascii) : ascii :=
  if between 65 90 c then ascii_of_N (code c + 32)
  else if (between 192 222 c && negb (N.eqb (code c) 215))%bool
       then ascii_of_N (code c + 32)
       else c.

Fixpoint lower (s : string) : string :=
  match s with
  | EmptyString => EmptyString
  | String c t => String (lower_char c) (lower t)
  end.

(** [s.startswith(p)] *)
Definition startswith (s p : string) : bool := String.prefix p s.

(** [needle in hay] *)
Fixpoint contains (needle hay : string) : bool :=
  (String.prefix needle hay ||
   match hay with
   | EmptyString => false
   | String _ t => contains needle t
   end)%bool.

(** [s.split(sep)] for a one-character separator: never empty. *)
Fixpoint split_on (sep : ascii) (s : string) : list string :=
  match s with
  | EmptyString => [EmptyString]
  | String c t =>
      if Ascii.eqb c sep then EmptyString :: split_on sep t
      else match split_on sep t with
           | h :: r => String c h :: r
           | [] => [String c EmptyString]
           end
  end.

(** [str.isspace] on one character. *)
Definition is_space (c : ascii) : bool :=
  (between 9 13 c || between 28 32 c
   || N.eqb (code c) 133 || N.eqb (code c) 160)%bool.

(** [s.split()]: the maximal runs of non-blank characters. *)
Fixpoint split_ws_aux (cur : option string) (s : string) : list string :=
  match s with
  | EmptyString => match cur with Some w => [w] | None => [] end
  | String c t =>
      if is_space c
      then match cur with
           | Some w => w :: split_ws_aux None t
           | None => split_ws_aux None t
           end
      else match cur with
           | Some w => split_ws_aux (Some (w ++ String c EmptyString)) t
           | None => split_ws_aux (Some (String c EmptyString)) t
           end
  end.

Definition split_ws (s : string) : list string := split_ws_aux None s.

(** [s.rstrip(c)] for a one-character set. *)
Fixpoint rstrip_char (c : ascii) (s : string) : string :=
  match s with
  | EmptyString => EmptyString
  | String a t =>
      match rstrip_char c t with
      | EmptyString => if Ascii.eqb a c then EmptyString
                       else String a EmptyString
      | t' => String a t'
      end
  end.

(** [sep.join(parts)] *)
Definition join (sep : string) (parts : list string) : string :=
  String.concat sep parts.

Definition is_ascii_digit (c : ascii) : bool := between 48 57 c.

(** [str.isdigit] on one character: the decimal digits and the
    superscripts two, three and one (0xB2, 0xB3, 0xB9). *)
Definition is_digit_char (c : ascii) : bool :=
  (is_ascii_digit c || N.eqb (code c) 178 || N.eqb (code c) 179
   || N.eqb (code c) 185)%bool.

Fixpoint all_chars (p : ascii -> bool) (s : string) : bool :=
  match s with
  | EmptyString => true
  | String c t => (p c && all_chars p t)%bool
  end.

(** [s.isdigit()]: non-empty and made of digit characters. *)
Definition isdigit (s : string) : bool :=
  match s with
  | EmptyString => false
  | _ => all_chars is_digit_char s
  end.

Fixpoint digits_value (acc : Z) (s : string) : Z :=
  match s with
  | EmptyString => acc
  | String c t => digits_value (10 * acc + (Z.of_N (code c) - 48)) t
  end.

(** [str(n)] for an integer. *)
Definition str_of_Z (z : Z) : string :=
  NilZero.string_of_int (Z.to_int z).

(** The lower case of an ASCII letter; any other character, and any
    byte of the encoding of a character outside ASCII, is left alone. *)
Definition lower_ascii_char (c : ascii) : ascii :=
  if between 65 90 c then ascii_of_N (code c + 32) else c.

Definition upper_ascii_char (c : ascii) : ascii :=
  if between 97 122 c then ascii_of_N (code c - 32) else c.

(** A text with its ASCII letters in lower case. *)
Fixpoint lower_ascii (s : string) : string :=
  match s with
  | EmptyString => EmptyString
  | String c t => String (lower_ascii_char c) (lower_ascii t)
  end.

Definition backslash : ascii := Ascii.ascii_of_nat 92.

Definition hex_digit (n : N) : ascii :=
  if N.ltb n 10 then ascii_of_N (48 + n) else ascii_of_N (87 + n).

(** [str.isprintable] on one character. *)
Definition is_printable (c : ascii) : bool :=
  (between 32 126 c
   || (between 161 255 c && negb (N.eqb (code c) 173)))%bool.

(** One character of [repr(s)] between the quotes [q]. *)
Definition repr_char (q c : ascii) : string :=
  if (Ascii.eqb c q || Ascii.eqb c backslash)%bool
  then String backslash (String c EmptyString)
  else if N.eqb (code c) 9 then String backslash "t"
  else if N.eqb (code c) 10 then String backslash "n"
  else if N.eqb (code c) 13 then String backslash "r"
  else if is_printable c then String c EmptyString
  else String backslash
         (String "x"
            (String (hex_digit (code c / 16))
               (String (hex_digit (code c mod 16)) EmptyString))).

(** [repr(s)]: single quotes, unless [s] holds one and no double
    quote. *)
Definition repr (s : string) : string :=
  let has c := existsb (Ascii.eqb c) (list_ascii_of_string s) in
  let q := if (has squote && negb (has dquote))%bool then dquote else squote in
  String q
    (String.concat EmptyString (map (repr_char q) (list_ascii_of_string s))
     ++ String q EmptyString).

End PyStr.

(* ================================================================== *)
(** ** The fragment of [re] used by the detectors *)

Module Re.
Import PyStr.

(** Patterns: literal characters, a bracketed character set,
    concatenation and alternation.  The scanner's patterns use nothing
    else (every [.] and [(] in them is escaped), and all their
    characters are ASCII. *)
Inductive regex : Type :=
| Eps
| Chr (c : ascii)
| Cls (cs : list ascii)
| Cat (r1 r2 : regex)
| Alt (r1 r2 : regex).

(** A literal word. *)
Fixpoint lit (s : string) : regex :=
  match s with
  | EmptyString => Eps
  | String c t => Cat (Chr c) (lit t)
  end.

(** [a|b|c] *)
Fixpoint alts (ws : list string) : regex :=
  match ws with
  | [] => Cls []
  | [w] => lit w
  | w :: rest => Alt (lit w) (alts rest)
  end.

(** [s] without its prefix [p]. *)
Fixpoint strip_prefix (p s : string) : option string :=
  match p with
  | EmptyString => Some s
  | String c p' =>
      match s with
      | String a s' => if Ascii.eqb c a then strip_prefix p' s' else None
      | EmptyString => None
      end
  end.

Definition is_letter (c : ascii) : bool :=
  (between 65 90 c || between 97 122 c)%bool.

(** The text made of the given bytes. *)
Definition bytes (codes : list N) : string :=
  string_of_list_ascii (map ascii_of_N codes).

(** The characters outside ASCII that [re.IGNORECASE] lets a letter
    match, as they stand in a text in UTF-8: the dotted capital I
    (U+0130) and the dotless i (U+0131) for [i], the long s (U+017F)
    for [s] and the Kelvin sign (U+212A) for [k]; no other letter has
    any. *)
Definition other_spellings (letter : ascii) : list string :=
  if Ascii.eqb letter "i" then [bytes [196; 176]%N; bytes [196; 177]%N]
  else if Ascii.eqb letter "s" then [bytes [197; 191]%N]
  else if Ascii.eqb letter "k" then [bytes [226; 132; 170]%N]
  else [].

(** What a character of a pattern matches in the text: itself; under
    [re.IGNORECASE] when [icase] is set, a letter matches its two cases
    and its other spellings.  The characters of the scanner's patterns
    are ASCII. *)
Definition spellings (icase : bool) (c : ascii) : list string :=
  if (icase && is_letter c)%bool
  then String (lower_ascii_char c) EmptyString
       :: String (upper_ascii_char c) EmptyString
       :: other_spellings (lower_ascii_char c)
  else [String c EmptyString].

(** What is left of [s] after each of the texts [vs] that starts it. *)
Definition after_any (vs : list string) (s : string) : list string :=
  flat_map (fun v => match strip_prefix v s with
                     | Some rest => [rest]
                     | None => []
                     end) vs.

(** All the ways [r] matches at the start of [s], as the list of what
    is left of [s] after each. *)
Fixpoint rmatch (icase : bool) (r : regex) (s : string) : list string :=
  match r with
  | Eps => [s]
  | Chr c => after_any (spellings icase c) s
  | Cls cs => after_any (flat_map (spellings icase) cs) s
  | Cat r1 r2 => flat_map (rmatch icase r2) (rmatch icase r1 s)
  | Alt r1 r2 => rmatch icase r1 s ++ rmatch icase r2 s
  end.

Definition matches_here (icase : bool) (r : regex) (s : string) : bool :=
  match rmatch icase r s with [] => false | _ => true end.

(** [bool(re.search(r, s, flags))]: a match at some position. *)
Fixpoint search (icase : bool) (r : regex) (s : string) : bool :=
  (matches_here icase r s ||
   match s with
   | EmptyString => false
   | String _ t => search icase r t
   end)%bool.

End Re.

(* ================================================================== *)
(** ** Python values, dictionaries and exceptions *)

Module Py.

(** The values that reach the report or come back from [getpeercert]. *)
#[warnings="-register-all"] Inductive value : Type :=
| VNone
| VBool (b : bool)
| VInt (z : Z)
| VStr (s : string)
| VList (xs : list value)
| VTuple (xs : list value)
| VDict (kvs : list (string * value)).

(** An exception object: its class and [str(e)]. *)
Record exn : Type := Exn { exn_type : string; exn_msg : string }.

Inductive result (A : Type) : Type :=
| Ok (a : A)
| Raise (e : exn).
Arguments Ok {A} a.
Arguments Raise {A} e.

(** A [dict] with string keys, in insertion order. *)
Definition dict (A : Type) : Type := list (string * A).

Fixpoint dict_get {A} (k : string) (d : dict A) : option A :=
  match d with
  | [] => None
  | (k', v) :: rest => if String.eqb k k' then Some v else dict_get k rest
  end.

(** [d.get(k, default)] *)
Definition dict_get_default {A} (k : string) (default : A) (d : dict A) : A :=
  match dict_get k d with Some v => v | None => default end.

(** [k in d] *)
Definition dict_has {A} (k : string) (d : dict A) : bool :=
  match dict_get k d with Some _ => true | None => false end.

(** [d[k] = v] *)
Fixpoint dict_set {A} (k : string) (v : A) (d : dict A) : dict A :=
  match d with
  | [] => [(k, v)]
  | (k', v') :: rest =>
      if String.eqb k k' then (k, v) :: rest
      else (k', v') :: dict_set k v rest
  end.

Definition dict_keys {A} (d : dict A) : list string := map fst d.

Definition type_name (v : value) : string :=
  match v with
  | VNone => "NoneType"
  | VBool _ => "bool"
  | VInt _ => "int"
  | VStr _ => "str"
  | VList _ => "list"
  | VTuple _ => "tuple"
  | VDict _ => "dict"
  end.

Definition no_attribute (v : value) (attr : string) : exn :=
  Exn "AttributeError"
      ("'" ++ type_name v ++ "' object has no attribute '" ++ attr ++ "'").

(** [v.get(k, default)]: only a dictionary has the method. *)
Definition value_get (v : value) (k : string) (default : value)
  : result value :=
  match v with
  | VDict d => Ok (dict_get_default k default d)
  | _ => Raise (no_attribute v "get")
  end.

(** [v[0]] *)
Definition value_first (v : value) : result value :=
  match v with
  | VList (x :: _) => Ok x
  | VList [] => Raise (Exn "IndexError" "list index out of range")
  | VTuple (x :: _) => Ok x
  | VTuple [] => Raise (Exn "IndexError" "tuple index out of range")
  | VStr (String c _) => Ok (VStr (String c EmptyString))
  | VStr EmptyString => Raise (Exn "IndexError" "string index out of range")
  | VDict _ => Raise (Exn "KeyError" "0")
  | _ => Raise (Exn "TypeError"
                    ("'" ++ type_name v ++ "' object is not subscriptable"))
  end.

(** The keys of a report section, [None] when the value is no
    dictionary. *)
Definition keys_of (v : value) : option (list string) :=
  match v with
  | VDict d => Some (dict_keys d)
  | _ => None
  end.

(** [v[k]] on a report, as an option. *)
Definition field (k : string) (v : value) : option value :=
  match v with
  | VDict d => dict_get k d
  | _ => None
  end.

End Py.

(* ================================================================== *)
(** ** Floating point as the scanner uses it

    A finite binary64 number is kept as the exact dyadic
    [mant * 2 ^ expo]; the two operations the scanner performs on floats,
    the true division of integers and the ['.2f'] format, are both
    correctly rounded functions of exact values, which is what is
    written out here. *)

Module PyFloat.
Import Py.

Record float : Type := Float { mant : Z; expo : Z }.

(** Nearest integer to [num / den] ([den > 0]), ties to even. *)
Definition round_half_even (num den : Z) : Z :=
  let q := (num / den)%Z in
  let r := (num mod den)%Z in
  if (2 * r <? den)%Z then q
  else if (den <? 2 * r)%Z then (q + 1)%Z
  else if Z.even q then q else (q + 1)%Z.

(** [floor (log2 (a / b))] for positive [a], [b]. *)
Definition quotient_log2 (a b : Z) : Z :=
  let d := (Z.log2 a - Z.log2 b)%Z in
  let ge := if (0 <=? d)%Z then (b * 2 ^ d <=? a)%Z
            else (b <=? a * 2 ^ (- d))%Z in
  if ge then d else (d - 1)%Z.

(** [a / b] on integers [a >= 0], [b > 0]: the binary64 number nearest
    to the quotient, [OverflowError] beyond the range. *)
Definition truediv (a b : Z) : result float :=
  if (a =? 0)%Z then Ok (Float 0 0)
  else
    let e := Z.max (quotient_log2 a b - 52) (-1074) in
    let m := if (0 <=? e)%Z then round_half_even a (b * 2 ^ e)
             else round_half_even (a * 2 ^ (- e)) b in
    if (0 <=? e)%Z && (2 ^ 1024 <=? m * 2 ^ e)%Z
    then Raise (Exn "OverflowError"
                    "integer division result too large for a float")
    else Ok (Float m e).

(** [n] in decimal with at least two digits. *)
Definition two_digits (n : Z) : string :=
  if (n <? 10)%Z then "0" ++ PyStr.str_of_Z n else PyStr.str_of_Z n.

(** [k] hundredths written with two decimals. *)
Definition hundredths (k : Z) : string :=
  PyStr.str_of_Z (k / 100) ++ "." ++ two_digits (k mod 100).

(** [format(x, '.2f')]: the hundredths nearest to the exact value,
    ties to even. *)
Definition format_2f (x : float) : string :=
  let a := Z.abs (mant x) in
  let k := if (0 <=? expo x)%Z then (a * 100 * 2 ^ expo x)%Z
           else round_half_even (a * 100) (2 ^ (- expo x)) in
  (if (mant x <? 0)%Z then "-" else "") ++ hundredths k.

End PyFloat.

(* ================================================================== *)
(** ** The environment of a scan and the effect monad

    Everything the scanner asks of the outside world goes through one of
    four calls.  The environment answers a call from its position in the
    sequence of calls made so far, so that it may answer the same request
    differently each time; an answer is a value or a raised exception. *)

Module Net.
Import Py PyFloat PyStr.

(** What [urllib.request.urlopen] returns: the status ([None] from the
    handlers of [file:] and [data:] URLs), the header lines in the order
    received, and what [read().decode('utf-8', errors='ignore')] gives,
    in UTF-8 (reading may still fail). *)
Record Response : Type := {
  getcode : option Z;
  headers : list (string * string);
  read : result string }.

(** The attributes of [urllib.parse.urlparse(url)] the scanner reads;
    [port] is a property that raises [ValueError] on a malformed port. *)
Record ParseResult : Type := {
  scheme : string;
  netloc : string;
  port : result (option Z) }.

Inductive call : Type :=
| Urlopen (url : string)
| Gethostbyname (host : string)
| Nslookup (host : string)
| TlsConnect (host : string) (port : Z).

Record Env : Type := {
  (** [urllib.parse.urlparse] *)
  urlparse : string -> result ParseResult;
  (** [urllib.request.urlopen(url, timeout=10)] *)
  urlopen : nat -> string -> result Response;
  (** [socket.gethostbyname(host)] *)
  gethostbyname : nat -> string -> result string;
  (** [subprocess.run(['nslookup', '-type=ns', host], ...).stdout] *)
  nslookup : nat -> string -> result string;
  (** connection, handshake and [getpeercert()] *)
  getpeercert : nat -> string -> Z -> result value;
  (** [(time.time() - start_time) * 1000] once the call numbered by the
      argument has returned *)
  elapsed_ms : nat -> float;
  (** [datetime.now().isoformat()] *)
  now_isoformat : string }.

(** A computation: from the calls made so far to a result and the calls
    made after it. *)
Definition M (A : Type) : Type := list call -> result A * list call.

Definition ret {A} (a : A) : M A := fun tr => (Ok a, tr).

Definition bind {A B} (m : M A) (k : A -> M B) : M B :=
  fun tr =>
    match m tr with
    | (Ok a, tr') => k a tr'
    | (Raise e, tr') => (Raise e, tr')
    end.

(** A pure step that may raise. *)
Definition lift {A} (r : result A) : M A := fun tr => (r, tr).

(** [try: body  except Exception as e: handler e] *)
Definition try_except {A} (body : M A) (handler : exn -> M A) : M A :=
  fun tr =>
    match body tr with
    | (Ok a, tr') => (Ok a, tr')
    | (Raise e, tr') => handler e tr'
    end.

(** One call: the environment answers, the call is recorded. *)
Definition perform {A} (c : call) (answer : nat -> result A) : M A :=
  fun tr => (answer (List.length tr), (tr ++ [c])%list).

(** The position of the call about to be made. *)
Definition position : M nat := fun tr => (Ok (List.length tr), tr).

Definition run {A} (m : M A) : result A * list call := m [].

(** *** [response.headers] (an [email.message.Message]) *)

(** [msg.get(name)]: the value of the first line whose name equals
    [name] up to case. *)
Definition msg_get (name : string) (hs : list (string * string))
  : option string :=
  match find (fun kv => String.eqb (lower (fst kv)) (lower name)) hs with
  | Some kv => Some (snd kv)
  | None => None
  end.

(** [msg.get(name, default)] *)
Definition msg_get_default (name default : string)
  (hs : list (string * string)) : string :=
  match msg_get name hs with Some v => v | None => default end.

(** [name in msg] *)
Definition msg_contains (name : string) (hs : list (string * string)) : bool :=
  existsb (fun kv => String.eqb (lower (fst kv)) (lower name)) hs.

(** [dict(msg)]: for every line, in order, the name as received is bound
    to [msg[name]], the value of the first line of that name up to
    case. *)
Definition dict_of_message (hs : list (string * string)) : dict string :=
  fold_left
    (fun d kv => dict_set (fst kv) (msg_get_default (fst kv) (snd kv) hs) d)
    hs [].

End Net.

Declare Scope monad_scope.
Delimit Scope monad_scope with monad.
Notation "x <- m ;; k" := (Net.bind m (fun x => k))
  (at level 61, m at next level, right associativity) : monad_scope.

(* ================================================================== *)
(** ** [class WebsiteScanner] *)

Module Scanner.
Import Py PyFloat PyStr Re Net.
Local Open Scope monad_scope.

(** The attributes set by [__init__]; [self.results] starts empty and is
    filled by [scan]. *)
Record WebsiteScanner : Type := {
  url : string;
  domain : string }.

Definition unknown : value := VStr "Unknown".

(** [response.getcode()] as it enters the report. *)
Definition status_value (code : option Z) : value :=
  match code with
  | Some n => VInt n
  | None => VNone
  end.

(** *** The detectors (pure functions of headers and content) *)

(** [detect_web_server] *)
Definition detect_web_server (headers : dict string) : string :=
  let server := dict_get_default "Server" "Unknown" headers in
  if String.eqb server "Unknown" then "Unknown"
  else hd EmptyString (split_on "/" server).

(** The four content patterns of [detect_programming_language], in the
    order of the [if]/[elif] chain: an extension followed by a double or
    a single quote. *)
Definition language_patterns : list (string * regex) :=
  [ ("PHP", Cat (lit ".php") (Cls [dquote; squote]));
    ("ASP.NET", Cat (lit ".aspx") (Cls [dquote; squote]));
    ("Java", Cat (lit ".jsp") (Cls [dquote; squote]));
    ("Python", Cat (lit ".py") (Cls [dquote; squote])) ].

(** The first label of [table] whose pattern is found in [content]. *)
Fixpoint first_match (icase : bool) (table : list (string * regex))
  (content : string) : option string :=
  match table with
  | [] => None
  | (label, pattern) :: rest =>
      if search icase pattern content then Some label
      else first_match icase rest content
  end.

(** [detect_programming_language] *)
Definition detect_programming_language (headers : dict string)
  (content : string) : string :=
  let powered_by := dict_get_default "X-Powered-By" "" headers in
  if contains "PHP" powered_by then "PHP"
  else if contains "ASP.NET" powered_by then "ASP.NET"
  else match first_match false language_patterns content with
       | Some language => language
       | None => "Unknown"
       end.

Definition cms_patterns : list (string * regex) :=
  [ ("WordPress", alts ["wp-content"; "wp-includes"; "wordpress"]);
    ("Drupal", alts ["drupal"; "sites/default"]);
    ("Joomla", alts ["joomla"; "option=com_"]);
    ("Magento", alts ["magento"; "mage/js"]);
    ("Shopify", alts ["shopify"; "cdn.shopify"]) ].

(** [detect_cms] *)
Definition detect_cms (content : string) : string :=
  match first_match true cms_patterns content with
  | Some cms => cms
  | None => "Custom/Unknown"
  end.

Definition framework_patterns : list (string * regex) :=
  [ ("React", alts ["react"; "reactjs"]);
    ("Vue.js", alts ["vue.js"; "vuejs"]);
    ("Angular", alts ["angular"; "ng-"]);
    ("jQuery", alts ["jquery"]) ].

(** The list [frameworks] at the end of the loop of
    [detect_js_frameworks]. *)
Definition matched_frameworks (content : string) : list string :=
  map fst
    (filter (fun entry => search true (snd entry) content)
       framework_patterns).

(** [detect_js_frameworks] *)
Definition detect_js_frameworks (content : string) : string :=
  match matched_frameworks content with
  | [] => "Unknown"
  | frameworks => join ", " frameworks
  end.

Definition analytics_patterns : list (string * regex) :=
  [ ("Google Analytics", alts ["google-analytics"; "gtag"; "ga("]);
    ("Google Tag Manager", alts ["googletagmanager"]);
    ("Facebook Pixel", alts ["facebook.net/tr"; "fbq("]);
    ("Hotjar", alts ["hotjar"]) ].

(** [detect_analytics] *)
Definition detect_analytics (content : string) : string :=
  match first_match true analytics_patterns content with
  | Some service => service
  | None => "None detected"
  end.

(** *** Pure parts of the probing methods *)

(** [parsed_url.port or (443 if parsed_url.scheme == 'https' else 80)] *)
Definition port_or_default (p : option Z) (scheme : string) : Z :=
  let default := if String.eqb scheme "https" then 443%Z else 80%Z in
  match p with
  | Some n => if (n =? 0)%Z then default else n
  | None => default
  end.

(** [get_location_info]: the address is not looked at. *)
Definition get_location_info (ip : string) : dict string :=
  [ ("country", "Unknown"); ("city", "Unknown"); ("isp", "Unknown") ].

(** [line.split()[-1]] *)
Definition last_word (line : string) : result string :=
  match rev (split_ws line) with
  | w :: _ => Ok w
  | [] => Raise (Exn "IndexError" "list index out of range")
  end.

(** The loop of [get_name_servers] over the lines of the output. *)
Fixpoint collect_nameservers (lines : list string) (nameservers : list string)
  : result (list string) :=
  match lines with
  | [] => Ok nameservers
  | line :: rest =>
      if contains "nameserver" (lower line)
      then match last_word line with
           | Ok w =>
               collect_nameservers rest
                 (nameservers ++ [rstrip_char "." w])%list
           | Raise e => Raise e
           end
      else collect_nameservers rest nameservers
  end.

Definition security_header_names : list string :=
  [ "Strict-Transport-Security";
    "Content-Security-Policy";
    "X-Frame-Options";
    "X-Content-Type-Options";
    "X-XSS-Protection";
    "Referrer-Policy" ].

(** The loop of [get_security_headers] over the allow-list. *)
Definition select_security_headers (headers : dict string) : dict string :=
  fold_left
    (fun security_headers header_name =>
       match dict_get header_name headers with
       | Some v => dict_set header_name v security_headers
       | None => security_headers
       end)
    security_header_names [].

Definition cache_headers : list string :=
  [ "Cache-Control"; "Expires"; "ETag"; "Last-Modified" ].

(** [int(s)] for a string [s] that [str.isdigit] accepts: the decimal
    value when every character is an ASCII digit and there are at most
    4300 of them ([sys.get_int_max_str_digits()]), [ValueError]
    otherwise; the text of the error on another digit character shows
    the first 200 characters of [repr(s)]. *)
Definition int_of_digits (s : string) : result Z :=
  if all_chars is_ascii_digit s
  then if Nat.ltb 4300 (String.length s)
       then Raise (Exn "ValueError"
                       ("Exceeds the limit (4300 digits) for integer string "
                          ++ "conversion: value has "
                          ++ str_of_Z (Z.of_nat (String.length s))
                          ++ " digits; use sys.set_int_max_str_digits() "
                          ++ "to increase the limit"))
       else Ok (digits_value 0 s)
  else Raise (Exn "ValueError"
                  ("invalid literal for int() with base 10: "
                     ++ String.substring 0 200 (repr s))).

(** The ['page_size'] entry of [get_performance_info]. *)
Definition page_size (content_length : string) : result string :=
  if negb (String.eqb content_length "Unknown") && isdigit content_length
  then match int_of_digits content_length with
       | Ok n => match truediv n 1024 with
                 | Ok kb => Ok (format_2f kb ++ " KB")
                 | Raise e => Raise e
                 end
       | Raise e => Raise e
       end
  else Ok "Unknown".

Definition strings (d : dict string) : value :=
  VDict (map (fun kv => (fst kv, VStr (snd kv))) d).

(** *** The probing methods *)

Section Methods.

Variable env : Env.
Variable self : WebsiteScanner.

Definition do_urlopen : M Response :=
  perform (Urlopen (url self)) (fun i => urlopen env i (url self)).

(** [get_basic_info] *)
Definition get_basic_info : M value :=
  parsed_url <- lift (urlparse env (url self)) ;;
  status_code <- try_except
                   (response <- do_urlopen ;;
                    ret (status_value (getcode response)))
                   (fun _ => ret unknown) ;;
  p <- lift (port parsed_url) ;;
  ret (VDict [ ("url", VStr (url self));
               ("domain", VStr (domain self));
               ("status_code", status_code);
               ("protocol", VStr (scheme parsed_url));
               ("port", VInt (port_or_default p (scheme parsed_url))) ]).

(** [get_server_info] *)
Definition get_server_info : M value :=
  ip_address <- try_except
                  (perform (Gethostbyname (domain self))
                     (fun i => gethostbyname env i (domain self)))
                  (fun _ => ret "Unknown") ;;
  server <- try_except
              (response <- do_urlopen ;;
               ret (msg_get_default "Server" "Unknown" (headers response)))
              (fun _ => ret "Unknown") ;;
  let location_info := get_location_info ip_address in
  ret (VDict [ ("ip_address", VStr ip_address);
               ("server", VStr server);
               ("location",
                 VStr (dict_get_default "country" "Unknown" location_info));
               ("city",
                 VStr (dict_get_default "city" "Unknown" location_info));
               ("isp",
                 VStr (dict_get_default "isp" "Unknown" location_info)) ]).

(** [get_name_servers] *)
Definition get_name_servers : M string :=
  try_except
    (stdout <- perform (Nslookup (domain self))
                 (fun i => nslookup env i (domain self)) ;;
     nameservers <- lift (collect_nameservers (split_on "010" stdout) []) ;;
     ret (match nameservers with
          | [] => "Unknown"
          | _ => join ", " nameservers
          end))
    (fun _ => ret "Unknown").

(** [get_domain_info] *)
Definition get_domain_info : M value :=
  name_servers <- get_name_servers ;;
  ret (VDict [ ("registrar", unknown);
               ("creation_date", unknown);
               ("expiry_date", unknown);
               ("name_servers", VStr name_servers);
               ("dnssec", unknown) ]).

(** [cert.get(key, [{}])[0].get('commonName', 'Unknown')] *)
Definition common_name (cert : value) (key : string) : result value :=
  match value_get cert key (VList [VDict []]) with
  | Ok names =>
      match value_first names with
      | Ok first => value_get first "commonName" unknown
      | Raise e => Raise e
      end
  | Raise e => Raise e
  end.

(** [get_ssl_info] *)
Definition get_ssl_info : M value :=
  if negb (startswith (url self) "https")
  then ret (VDict [ ("enabled", VBool false);
                    ("message", VStr "SSL not enabled") ])
  else
    try_except
      (cert <- perform (TlsConnect (domain self) 443)
                 (fun i => getpeercert env i (domain self) 443) ;;
       issuer <- lift (common_name cert "issuer") ;;
       valid_from <- lift (value_get cert "notBefore" unknown) ;;
       valid_to <- lift (value_get cert "notAfter" unknown) ;;
       subject <- lift (common_name cert "subject") ;;
       ret (VDict [ ("enabled", VBool true);
                    ("issuer", issuer);
                    ("valid_from", valid_from);
                    ("valid_to", valid_to);
                    ("subject", subject) ]))
      (fun e => ret (VDict [ ("enabled", VBool false);
                             ("message",
                               VStr ("SSL error: " ++ exn_msg e)) ])).

(** [get_security_headers] *)
Definition get_security_headers : M (dict string) :=
  try_except
    (response <- do_urlopen ;;
     let headers := dict_of_message (headers response) in
     ret (select_security_headers headers))
    (fun _ => ret []).

(** [get_security_info] *)
Definition get_security_info : M value :=
  ssl_info <- get_ssl_info ;;
  security_headers <- get_security_headers ;;
  ret (VDict [ ("ssl_certificate", ssl_info);
               ("security_headers", strings security_headers);
               ("hsts_enabled",
                 VBool (dict_has "Strict-Transport-Security"
                          security_headers));
               ("content_security_policy",
                 VBool (dict_has "Content-Security-Policy"
                          security_headers)) ]).

(** [check_compression] *)
Definition check_compression : M string :=
  try_except
    (response <- do_urlopen ;;
     ret (if msg_contains "Content-Encoding" (headers response)
          then "Enabled" else "Disabled"))
    (fun _ => ret "Unknown").

(** [check_caching] *)
Definition check_caching : M string :=
  try_except
    (response <- do_urlopen ;;
     ret (if existsb (fun header => msg_contains header (headers response))
               cache_headers
          then "Enabled" else "Disabled"))
    (fun _ => ret "Unknown").

(** [get_performance_info]; [None] stands for the ['Unknown'] that
    [response_time] holds after a failed request. *)
Definition get_performance_info : M value :=
  timing <- try_except
              (i <- position ;;
               response <- do_urlopen ;;
               ret (Some (elapsed_ms env i),
                    msg_get_default "Content-Length" "Unknown"
                      (headers response)))
              (fun _ => ret (None, "Unknown")) ;;
  let response_time := fst timing in
  let content_length := snd timing in
  compression <- check_compression ;;
  caching <- check_caching ;;
  size <- lift (page_size content_length) ;;
  ret (VDict [ ("response_time",
                 VStr (match response_time with
                       | Some t => format_2f t ++ "ms"
                       | None => "Unknown"
                       end));
               ("compression", VStr compression);
               ("caching", VStr caching);
               ("page_size", VStr size) ]).

(** [get_technology_info] *)
Definition get_technology_info : M value :=
  fetched <- try_except
               (response <- do_urlopen ;;
                content <- lift (read response) ;;
                ret (content, dict_of_message (headers response)))
               (fun _ => ret (EmptyString, [])) ;;
  let content := fst fetched in
  let headers := snd fetched in
  ret (VDict [ ("web_server", VStr (detect_web_server headers));
               ("programming_language",
                 VStr (detect_programming_language headers content));
               ("cms", VStr (detect_cms content));
               ("javascript_frameworks",
                 VStr (detect_js_frameworks content));
               ("analytics", VStr (detect_analytics content)) ]).

(** [scan] *)
Definition scan : M value :=
  try_except
    (basic_info <- get_basic_info ;;
     let results := dict_set "basic_info" basic_info [] in
     server_info <- get_server_info ;;
     let results := dict_set "server_info" server_info results in
     domain_info <- get_domain_info ;;
     let results := dict_set "domain_info" domain_info results in
     security_info <- get_security_info ;;
     let results := dict_set "security_info" security_info results in
     performance_info <- get_performance_info ;;
     let results := dict_set "performance_info" performance_info results in
     technology_info <- get_technology_info ;;
     let results := dict_set "technology_info" technology_info results in
     ret (VDict [ ("success", VBool true);
                  ("data", VDict results);
                  ("scan_time", VStr (now_isoformat env)) ]))
    (fun e => ret (VDict [ ("success", VBool false);
                           ("error", VStr (exn_msg e)) ])).

End Methods.

(** [WebsiteScanner(url)]: [urlparse] may raise. *)
Definition init (env : Env) (u : string) : result WebsiteScanner :=
  match urlparse env u with
  | Ok parsed => Ok {| url := u; domain := netloc parsed |}
  | Raise e => Raise e
  end.

(** What a run of the program leaves behind: what it printed on the
    standard output, its exit status and the calls it made.  The text
    printed by [print(json.dumps(result, indent=2))] is kept as the value
    that is serialised. *)
Inductive printed : Type :=
| Usage
| JsonDocument (v : value).

Record Outcome : Type := {
  stdout : list printed;
  exit_status : Z;
  calls : list call }.

(** [main], from [sys.argv]; an exception that nothing catches ends the
    interpreter with status 1 and a traceback on the standard error. *)
Definition main (env : Env) (argv : list string) : Outcome :=
  match argv with
  | [_; u] =>
      match init env u with
      | Ok scanner =>
          match run (scan env scanner) with
          | (Ok result, tr) =>
              {| stdout := [JsonDocument result];
                 exit_status := 0; calls := tr |}
          | (Raise _, tr) =>
              {| stdout := []; exit_status := 1; calls := tr |}
          end
      | Raise _ => {| stdout := []; exit_status := 1; calls := [] |}
      end
  | _ => {| stdout := [Usage]; exit_status := 1; calls := [] |}
  end.

End Scanner.

(* ================================================================== *)
(** ** A concrete [urlparse]

    [urllib.parse.urlsplit] and the [port] property of its result, for
    a URL whose characters are code points below 256 (the NFKC check
    the library runs on a network location outside ASCII refuses none of
    them), with the validation of a bracketed host by [ipaddress].  The
    properties below hold for every environment; this parser serves the
    concrete ones. *)

Module UrlLib.
Import Py PyStr Net.

Definition is_alpha (c : ascii) : bool :=
  (between 65 90 c || between 97 122 c)%bool.

(** [scheme_chars] *)
Definition is_scheme_char (c : ascii) : bool :=
  (is_alpha c || is_ascii_digit c
   || Ascii.eqb c "+" || Ascii.eqb c "-" || Ascii.eqb c ".")%bool.

Definition is_hex_digit (c : ascii) : bool :=
  (is_ascii_digit c || between 65 70 c || between 97 102 c)%bool.

Definition is_empty (s : string) : bool := String.eqb s EmptyString.

(** [url.lstrip(_WHATWG_C0_CONTROL_OR_SPACE)] *)
Fixpoint lstrip_c0 (s : string) : string :=
  match s with
  | String c t => if N.leb (code c) 32 then lstrip_c0 t else s
  | EmptyString => EmptyString
  end.

(** Removal of tab, carriage return and line feed. *)
Fixpoint remove_unsafe (s : string) : string :=
  match s with
  | String c t =>
      if (N.eqb (code c) 9 || N.eqb (code c) 13 || N.eqb (code c) 10)%bool
      then remove_unsafe t
      else String c (remove_unsafe t)
  | EmptyString => EmptyString
  end.

(** The longest prefix whose characters satisfy [p], and the rest. *)
Fixpoint span (p : ascii -> bool) (s : string) : string * string :=
  match s with
  | String c t =>
      if p c then let (a, b) := span p t in (String c a, b)
      else (EmptyString, s)
  | EmptyString => (EmptyString, EmptyString)
  end.

(** [s.partition(c)]: what stands before the first [c], whether there
    is one, and what follows it. *)
Definition partition (c : ascii) (s : string) : string * bool * string :=
  let (before, rest) := span (fun a => negb (Ascii.eqb a c)) s in
  match rest with
  | String _ after => (before, true, after)
  | EmptyString => (before, false, EmptyString)
  end.

(** [s.partition(c)[2]] *)
Definition after_first (c : ascii) (s : string) : string :=
  snd (partition c s).

(** [s.rpartition(c)[2]] *)
Fixpoint after_last (c : ascii) (s : string) : string :=
  match s with
  | String a t =>
      if existsb (Ascii.eqb c) (list_ascii_of_string t) then after_last c t
      else if Ascii.eqb a c then t else s
  | EmptyString => EmptyString
  end.

Definition has_char (c : ascii) (s : string) : bool :=
  existsb (Ascii.eqb c) (list_ascii_of_string s).

(** The scheme and what follows its colon. *)
Definition split_scheme (url : string) : string * string :=
  let (before, rest) := span (fun a => negb (Ascii.eqb a ":")) url in
  match rest, before with
  | String _ after, String c0 _ =>
      if (is_alpha c0 && all_chars is_scheme_char before)%bool
      then (lower before, after)
      else (EmptyString, url)
  | _, _ => (EmptyString, url)
  end.

(** The network location: what stands between a leading [//] and the
    first of [/], [?], [#]. *)
Definition split_netloc (rest : string) : string :=
  match rest with
  | String "/" (String "/" r) =>
      fst (span (fun a => negb (Ascii.eqb a "/" || Ascii.eqb a "?"
                                || Ascii.eqb a "#")%bool) r)
  | _ => EmptyString
  end.

(** *** [ipaddress] on the host between brackets *)

(** [IPv4Address._parse_octet] accepts [o]. *)
Definition octet_ok (o : string) : bool :=
  (negb (is_empty o) && all_chars is_ascii_digit o
   && Nat.leb (String.length o) 3
   && (String.eqb o "0" || negb (String.prefix "0" o))
   && (digits_value 0 o <=? 255)%Z)%bool.

(** [IPv4Address(s)] returns. *)
Definition is_ipv4 (s : string) : bool :=
  (negb (has_char "/" s) && negb (is_empty s)
   && Nat.eqb (List.length (split_on "." s)) 4
   && forallb octet_ok (split_on "." s))%bool.

(** [IPv6Address._parse_hextet] accepts [h]. *)
Definition hextet_ok (h : string) : bool :=
  (negb (is_empty h) && all_chars is_hex_digit h
   && Nat.leb (String.length h) 4)%bool.

(** The positions of the empty texts of a list. *)
Fixpoint empty_positions (i : nat) (parts : list string) : list nat :=
  match parts with
  | [] => []
  | part :: rest =>
      if is_empty part then i :: empty_positions (S i) rest
      else empty_positions (S i) rest
  end.

(** [IPv6Address._ip_int_from_string(addr)] returns.  A dotted last
    part is checked as an IPv4 address and stands for two groups. *)
Definition ipv6_groups_ok (addr : string) : bool :=
  let parts0 := split_on ":" addr in
  let tail := List.last parts0 EmptyString in
  let dotted := has_char "." tail in
  let parts := if dotted then (removelast parts0 ++ ["0"; "0"])%list
               else parts0 in
  let n := List.length parts in
  (negb (is_empty addr) && Nat.leb 3 (List.length parts0)
   && (if dotted then is_ipv4 tail else true)
   && Nat.leb n 9
   && match empty_positions 1 (firstn (n - 2) (tl parts)) with
      | [] => Nat.eqb n 8 && forallb hextet_ok parts
      | [skip_index] =>
          let first_empty := is_empty (hd EmptyString parts) in
          let last_empty := is_empty (List.last parts EmptyString) in
          let parts_hi := if first_empty then skip_index - 1
                          else skip_index in
          let parts_lo := if last_empty then n - skip_index - 2
                          else n - skip_index - 1 in
          (negb first_empty || Nat.eqb parts_hi 0)
          && (negb last_empty || Nat.eqb parts_lo 0)
          && Nat.leb (parts_hi + parts_lo) 7
          && forallb hextet_ok (firstn parts_hi parts)
          && forallb hextet_ok (skipn (n - parts_lo) parts)
      | _ => false
      end)%bool.

(** [IPv6Address(s)] returns: no slash, a scope after [%] that is not
    empty and holds no [%], and groups that read. *)
Definition is_ipv6 (s : string) : bool :=
  let '(addr, has_scope, scope) := partition "%" s in
  (negb (has_char "/" s)
   && (negb has_scope || (negb (is_empty scope) && negb (has_char "%" scope)))
   && ipv6_groups_ok addr)%bool.

(** [re.match(r"\Av[a-fA-F0-9]+\..+\Z", h)] *)
Definition is_ipvfuture (h : string) : bool :=
  match h with
  | String "v" t =>
      match span is_hex_digit t with
      | (String _ _, String "." (String a more)) =>
          all_chars (fun c => negb (N.eqb (code c) 10)) (String a more)
      | _ => false
      end
  | _ => false
  end.

(** [_check_bracketed_host] *)
Definition check_bracketed_host (hostname : string) : result unit :=
  if String.prefix "v" hostname
  then if is_ipvfuture hostname then Ok tt
       else Raise (Exn "ValueError" "IPvFuture address is invalid")
  else if is_ipv4 hostname
       then Raise (Exn "ValueError" "An IPv4 address cannot be in brackets")
       else if is_ipv6 hostname then Ok tt
            else Raise (Exn "ValueError"
                            (repr hostname
                               ++ " does not appear to be an IPv4 or IPv6 "
                               ++ "address")).

(** [_check_bracketed_netloc] *)
Definition check_bracketed_netloc (netloc : string) : result unit :=
  let hostname_and_port := after_last "@" netloc in
  let '(before_bracket, have_open_br, bracketed) :=
    partition "[" hostname_and_port in
  if have_open_br
  then if negb (is_empty before_bracket)
       then Raise (Exn "ValueError" "Invalid IPv6 URL")
       else let '(hostname, _, port) := partition "]" bracketed in
            if (negb (is_empty port) && negb (String.prefix ":" port))%bool
            then Raise (Exn "ValueError" "Invalid IPv6 URL")
            else check_bracketed_host hostname
  else check_bracketed_host (fst (fst (partition ":" hostname_and_port))).

(** *** The port *)

(** [_hostinfo[1]]: the text of the port, empty when there is none. *)
Definition port_text (netloc : string) : string :=
  let hostinfo := after_last "@" netloc in
  if has_char "[" hostinfo
  then after_first ":" (after_first "]" (after_first "[" hostinfo))
  else after_first ":" hostinfo.

(** The [port] property. *)
Definition port_of (netloc : string) : result (option Z) :=
  let p := port_text netloc in
  match p with
  | EmptyString => Ok None
  | _ =>
      if all_chars is_ascii_digit p
      then match Scanner.int_of_digits p with
           | Ok n => if (n <=? 65535)%Z then Ok (Some n)
                     else Raise (Exn "ValueError" "Port out of range 0-65535")
           | Raise e => Raise e
           end
      else Raise (Exn "ValueError"
                      ("Port could not be cast to integer value as "
                         ++ repr p))
  end.

Definition urlparse (url : string) : result ParseResult :=
  let (scheme, rest) := split_scheme (remove_unsafe (lstrip_c0 url)) in
  let netloc := split_netloc rest in
  let parsed := {| Net.scheme := scheme; Net.netloc := netloc;
                   Net.port := port_of netloc |} in
  if xorb (has_char "[" netloc) (has_char "]" netloc)
  then Raise (Exn "ValueError" "Invalid IPv6 URL")
  else if has_char "[" netloc
       then match check_bracketed_netloc netloc with
            | Ok _ => Ok parsed
            | Raise e => Raise e
            end
       else Ok parsed.

End UrlLib.

(* ================================================================== *)
(** ** Vocabulary of the properties *)

Module Spec.
Import Py PyFloat PyStr Re Net Scanner.

(** [w] occurs in [s]. *)
Definition substring (w s : string) : Prop :=
  exists pre post, s = pre ++ w ++ post.

(** [v] spells the word [w] of a pattern: it is made of one spelling of
    each character of [w] in turn.  Without [re.IGNORECASE] a character
    has one spelling, itself; with it a letter has its two cases and the
    spellings of [other_spellings]. *)
Fixpoint spelt (icase : bool) (w v : string) : Prop :=
  match w with
  | EmptyString => v = EmptyString
  | String c w' =>
      exists x v',
        In x (spellings icase c) /\ v = x ++ v' /\ spelt icase w' v'
  end.

(** [w] occurs in [s] up to the case of letters, as [re.IGNORECASE] has
    it. *)
Definition substring_ci (w s : string) : Prop :=
  exists pre v post, s = pre ++ v ++ post /\ spelt true w v.

(** [ext] occurs in [s] followed at once by a double or single quote. *)
Definition quoted_ext (ext s : string) : Prop :=
  exists pre q post,
    s = pre ++ ext ++ String q post /\ (q = dquote \/ q = squote).

(** The 256 bytes. *)
Definition every_byte : list ascii := map ascii_of_nat (seq 0 256).

(** One of the words occurs in [s] up to case. *)
Definition found_ci (ws : list string) (s : string) : Prop :=
  exists w, In w ws /\ substring_ci w s.

(** The words of each framework pattern, in catalog order. *)
Definition framework_words : list (string * list string) :=
  [ ("React", ["react"; "reactjs"]);
    ("Vue.js", ["vue.js"; "vuejs"]);
    ("Angular", ["angular"; "ng-"]);
    ("jQuery", ["jquery"]) ].

Definition is_urlopen (c : call) : bool :=
  match c with Urlopen _ => true | _ => false end.

(** The HTTP requests among the calls of a run. *)
Definition http_requests (tr : list call) : list call :=
  filter is_urlopen tr.

(** Every network call raises. *)
Definition network_down (env : Env) : Prop :=
  (forall i u, exists e, urlopen env i u = Raise e) /\
  (forall i h, exists e, gethostbyname env i h = Raise e) /\
  (forall i h, exists e, nslookup env i h = Raise e) /\
  (forall i h p, exists e, getpeercert env i h p = Raise e).

(** The environment in which the call at position [k] raises [e] and
    every other call is answered as in [env]. *)
Definition fail_call (k : nat) (e : exn) (env : Env) : Env :=
  {| urlparse := urlparse env;
     urlopen := fun i u => if Nat.eqb i k then Raise e else urlopen env i u;
     gethostbyname :=
       fun i h => if Nat.eqb i k then Raise e else gethostbyname env i h;
     nslookup := fun i h => if Nat.eqb i k then Raise e else nslookup env i h;
     getpeercert :=
       fun i h p => if Nat.eqb i k then Raise e else getpeercert env i h p;
     elapsed_ms := elapsed_ms env;
     now_isoformat := now_isoformat env |}.

(** The report of a scan that went through, around its categories. *)
Definition success_report (env : Env) (data : dict value) : value :=
  VDict [ ("success", VBool true);
          ("data", VDict data);
          ("scan_time", VStr (now_isoformat env)) ].

(** The report of a scan that an exception ended. *)
Definition failure_report (e : exn) : value :=
  VDict [ ("success", VBool false); ("error", VStr (exn_msg e)) ].

(** Two environments answer the call at position [i] alike. *)
Definition agree_at (i : nat) (env env' : Env) : Prop :=
  (forall u, urlopen env i u = urlopen env' i u) /\
  (forall h, gethostbyname env i h = gethostbyname env' i h) /\
  (forall h, nslookup env i h = nslookup env' i h) /\
  (forall h p, getpeercert env i h p = getpeercert env' i h p).

(** [env'] is [env] but for the call at position [k], which raises. *)
Definition fails_only_at (k : nat) (env env' : Env) : Prop :=
  urlparse env' = urlparse env /\
  elapsed_ms env' = elapsed_ms env /\
  now_isoformat env' = now_isoformat env /\
  (forall i, i <> k -> agree_at i env env') /\
  (forall u, exists e, urlopen env' k u = Raise e).

(** What a category [m] keeps from [env] to [env'] when the call at
    position [k] is not one of its own: its value; and in any case it
    still returns, after the same calls. *)
Definition survives (k : nat) (env env' : Env) (m : Env -> M value) : Prop :=
  forall tr v tr1,
    m env tr = (Ok v, tr1) ->
    exists v',
      m env' tr = (Ok v', tr1) /\
      (k < List.length tr \/ List.length tr1 <= k -> v' = v) /\
      List.length tr <= List.length tr1.

(** The categories when nothing could be learnt from the network. *)
Definition unknown_data (self : WebsiteScanner) (parsed : ParseResult)
  (p : option Z) (ssl_message : string) : dict value :=
  [ ("basic_info",
      VDict [ ("url", VStr (url self));
              ("domain", VStr (domain self));
              ("status_code", VStr "Unknown");
              ("protocol", VStr (scheme parsed));
              ("port", VInt (port_or_default p (scheme parsed))) ]);
    ("server_info",
      VDict [ ("ip_address", VStr "Unknown");
              ("server", VStr "Unknown");
              ("location", VStr "Unknown");
              ("city", VStr "Unknown");
              ("isp", VStr "Unknown") ]);
    ("domain_info",
      VDict [ ("registrar", VStr "Unknown");
              ("creation_date", VStr "Unknown");
              ("expiry_date", VStr "Unknown");
              ("name_servers", VStr "Unknown");
              ("dnssec", VStr "Unknown") ]);
    ("security_info",
      VDict [ ("ssl_certificate",
                VDict [ ("enabled", VBool false);
                        ("message", VStr ssl_message) ]);
              ("security_headers", VDict []);
              ("hsts_enabled", VBool false);
              ("content_security_policy", VBool false) ]);
    ("performance_info",
      VDict [ ("response_time", VStr "Unknown");
              ("compression", VStr "Unknown");
              ("caching", VStr "Unknown");
              ("page_size", VStr "Unknown") ]);
    ("technology_info",
      VDict [ ("web_server", VStr "Unknown");
              ("programming_language", VStr "Unknown");
              ("cms", VStr "Custom/Unknown");
              ("javascript_frameworks", VStr "Unknown");
              ("analytics", VStr "None detected") ]) ].

(** The calls of a scan none of whose categories raised. *)
Definition scan_calls (self : WebsiteScanner) : list call :=
  [ Urlopen (url self);
    Gethostbyname (domain self); Urlopen (url self);
    Nslookup (domain self) ]
  ++ (if startswith (url self) "https"
      then [TlsConnect (domain self) 443] else [])
  ++ [ Urlopen (url self);
       Urlopen (url self); Urlopen (url self); Urlopen (url self);
       Urlopen (url self) ].


Definition ssl_keys_disabled : list string := ["enabled"; "message"].

Definition ssl_keys_enabled : list string :=
  ["enabled"; "issuer"; "valid_from"; "valid_to"; "subject"].






(** [v[k1][k2]...] *)
Fixpoint path (ks : list string) (v : value) : option value :=
  match ks with
  | [] => Some v
  | k :: rest => match field k v with
                 | Some x => path rest x
                 | None => None
                 end
  end.


(** The words of each CMS pattern, in the order of the table. *)
Definition cms_words : list (string * list string) :=
  [ ("WordPress", ["wp-content"; "wp-includes"; "wordpress"]);
    ("Drupal", ["drupal"; "sites/default"]);
    ("Joomla", ["joomla"; "option=com_"]);
    ("Magento", ["magento"; "mage/js"]);
    ("Shopify", ["shopify"; "cdn.shopify"]) ].

(** The words of each analytics pattern, in the order of the table. *)
Definition analytics_words : list (string * list string) :=
  [ ("Google Analytics", ["google-analytics"; "gtag"; "ga("]);
    ("Google Tag Manager", ["googletagmanager"]);
    ("Facebook Pixel", ["facebook.net/tr"; "fbq("]);
    ("Hotjar", ["hotjar"]) ].

(** [label] is the first entry of the table one of whose words occurs
    in [s] up to case. *)
Definition first_found (table : list (string * list string)) (s : string)
  (label : string) : Prop :=
  exists before words after,
    table = (before ++ (label, words) :: after)%list /\
    found_ci words s /\
    forall l ws, In (l, ws) before -> ~ found_ci ws s.

(** Some header line is named [name] up to case. *)
Definition named_ci (name : string) (hs : list (string * string)) : Prop :=
  exists n v, In (n, v) hs /\ lower n = lower name.

(** Some header line is named [name] letter for letter. *)
Definition named_exactly (name : string) (hs : list (string * string))
  : Prop :=
  In name (map fst hs).

(** [s] ends with the character [c]. *)
Definition ends_with (c : ascii) (s : string) : Prop :=
  exists pre, s = pre ++ String c EmptyString.

(** The test of [get_name_servers] on a line of output. *)
Definition mentions_nameserver (line : string) : bool :=
  contains "nameserver" (lower line).

(** What [get_name_servers] keeps of such a line: its last word without
    trailing dots. *)
Definition listed_name (line : string) : string :=
  rstrip_char "." (List.last (split_ws line) EmptyString).


(** The hosts and the port a scan may contact for the URL [u] with the
    network location [host]. *)
Definition expected_call (u host : string) (c : call) : Prop :=
  c = Urlopen u \/ c = Gethostbyname host \/ c = Nslookup host \/
  c = TlsConnect host 443.

End Spec.

(* ================================================================== *)
(** ** Concrete environments *)

Module Examples.
Import Py PyFloat PyStr Net Scanner.

Definition unreachable : exn :=
  Exn "URLError" "<urlopen error [Errno 101] Network is unreachable>".

(** No call gets through. *)
Definition env_down : Env :=
  {| urlparse := UrlLib.urlparse;
     urlopen := fun _ _ => Raise unreachable;
     gethostbyname :=
       fun _ _ => Raise (Exn "gaierror" "[Errno -2] Name or service not known");
     nslookup :=
       fun _ _ => Raise (Exn "TimeoutExpired" "timed out after 10 seconds");
     getpeercert :=
       fun _ _ _ => Raise (Exn "OSError" "[Errno 101] Network is unreachable");
     elapsed_ms := fun _ => Float 0 0;
     now_isoformat := "2024-01-01T00:00:00" |}.

(** A server that answers every request with [response] and every
    handshake with [cert]. *)
Definition env_serving (response : Response) (cert : result value) : Env :=
  {| urlparse := UrlLib.urlparse;
     urlopen := fun _ _ => Ok response;
     gethostbyname := fun _ _ => Ok "93.184.216.34";
     nslookup :=
       fun _ _ => Ok "example.com nameserver = a.iana-servers.net.";
     getpeercert := fun _ _ _ => cert;
     elapsed_ms := fun _ => Float 125 0;
     now_isoformat := "2024-01-01T00:00:00" |}.

Definition page : Response :=
  {| getcode := Some 200%Z;
     headers := [ ("Server", "nginx/1.18");
                  ("Content-Length", "2048");
                  ("X-Frame-Options", "DENY") ];
     read := Ok "<script src=/wp-content/react.js></script> jquery" |}.

(** The same page from a server that writes header names in lower
    case. *)
Definition page_lowercase : Response :=
  {| getcode := Some 200%Z;
     headers := [ ("server", "nginx/1.18");
                  ("strict-transport-security", "max-age=31536000");
                  ("content-encoding", "gzip") ];
     read := Ok "<html></html>" |}.

(** A page whose length is announced with a superscript digit. *)
Definition page_superscript : Response :=
  {| getcode := Some 200%Z;
     headers := [ ("Content-Length", String (ascii_of_N 178) EmptyString) ];
     read := Ok "<html></html>" |}.

(** A certificate dictionary without any entry.  No handshake of
    [ssl.create_default_context()] ends with it: it only serves to run
    [get_ssl_info] past its reads. *)
Definition cert_empty : value := VDict [].

(** A certificate laid out as [get_ssl_info] reads it, each name a list
    whose first item is a dictionary; the [ssl] module lays names out
    otherwise, see [cert_ssl_layout]. *)
Definition cert_plain : value :=
  VDict [ ("issuer", VList [VDict [("commonName", VStr "Example CA")]]);
          ("subject", VList [VDict [("commonName", VStr "example.com")]]);
          ("notBefore", VStr "Jan  1 00:00:00 2024 GMT");
          ("notAfter", VStr "Jan  1 00:00:00 2025 GMT") ].

(** A certificate laid out as the [ssl] module documents it: each name
    is a tuple of relative distinguished names, themselves tuples of
    pairs. *)
Definition cert_ssl_layout : value :=
  VDict [ ("issuer",
            VTuple [ VTuple [VTuple [VStr "countryName"; VStr "US"]];
                     VTuple [VTuple [VStr "commonName"; VStr "Example CA"]] ]);
          ("subject",
            VTuple [ VTuple [VTuple [VStr "commonName";
                                     VStr "example.com"]] ]);
          ("notBefore", VStr "Jan  1 00:00:00 2024 GMT");
          ("notAfter", VStr "Jan  1 00:00:00 2025 GMT") ].

Definition example_com : WebsiteScanner :=
  {| url := "https://example.com"; domain := "example.com" |}.

Definition httpsx_example_com : WebsiteScanner :=
  {| url := "httpsx://example.com"; domain := "example.com" |}.

Definition http_example_com : WebsiteScanner :=
  {| url := "http://example.com"; domain := "example.com" |}.

(** A host name given without a scheme: [urlparse] finds neither scheme
    nor network location in it. *)
Definition httpstat_us : WebsiteScanner :=
  {| url := "httpstat.us"; domain := "" |}.

(** A scanner for an HTTPS site on another port, as [__init__] builds
    it: the domain is the whole network location. *)
Definition example_com_8443 : WebsiteScanner :=
  {| url := "https://example.com:8443/"; domain := "example.com:8443" |}.

(** The long s (U+017F) and the dotted capital I (U+0130) in UTF-8. *)
Definition long_s : string := Re.bytes [197; 191]%N.

Definition dotted_capital_i : string := Re.bytes [196; 176]%N.

(** A page announced with a length of a value that is long but
    decimal: 4301 digits. *)
Definition page_long_length : Response :=
  {| getcode := Some 200%Z;
     headers := [ ("Content-Length",
                    string_of_list_ascii (repeat "0"%char 4297) ++ "2048") ];
     read := Ok "<html></html>" |}.

(** A response whose body cannot be read to its end. *)
Definition page_unreadable : Response :=
  {| getcode := Some 200%Z;
     headers := [ ("Server", "nginx/1.18") ];
     read := Raise (Exn "IncompleteRead"
                        "IncompleteRead(512 bytes read, 1536 more expected)")
  |}.

(** A scanner for a URL whose port is out of range. *)
Definition example_com_99999 : WebsiteScanner :=
  {| url := "http://example.com:99999"; domain := "example.com:99999" |}.

End Examples.

(* ================================================================== *)
(** * Properties *)

Import Py PyFloat PyStr Re Net Scanner Spec.

(** ** Text and patterns *)

Section TextFacts.

Lemma prefix_iff (w s : string) :
  String.prefix w s = true <-> exists post, s = w ++ post.
Proof.
  revert s; induction w as [|c w IH]; intros s.
  - split; [intros _; now exists s | intros _; now destruct s].
  - destruct s as [|a s]; simpl.
    + split; [discriminate | intros [post H]; discriminate].
    + destruct (Ascii.ascii_dec c a) as [->|Hca].
      * rewrite IH. split; intros [post H]; exists post.
        -- now rewrite H.
        -- now inversion H.
      * split; [discriminate | intros [post H]; inversion H; congruence].
Qed.

Lemma contains_iff (w s : string) : contains w s = true <-> substring w s.
Proof.
  unfold substring. induction s as [|a s IH].
  - cbn [contains]. rewrite orb_false_r, prefix_iff. split.
    + intros [post H]. now exists "", post.
    + intros (pre & post & H). destruct pre; [now exists post | discriminate].
  - cbn [contains]. rewrite orb_true_iff, prefix_iff, IH. split.
    + intros [[post H] | (pre & post & H)].
      * now exists "", post.
      * exists (String a pre), post. simpl. now rewrite H.
    + intros (pre & post & H). destruct pre as [|b pre].
      * left. now exists post.
      * right. simpl in H. inversion H. now exists pre, post.
Qed.

End TextFacts.

Section PatternFacts.

Variable icase : bool.

Lemma append_assoc (a b c : string) : (a ++ b) ++ c = a ++ b ++ c.
Proof. induction a as [|x a IH]; simpl; [reflexivity | now rewrite IH]. Qed.

Lemma append_nil_r (a : string) : a ++ "" = a.
Proof. induction a as [|x a IH]; simpl; [reflexivity | now rewrite IH]. Qed.

Lemma strip_prefix_iff (p s rest : string) :
  strip_prefix p s = Some rest <-> s = p ++ rest.
Proof.
  revert s; induction p as [|c p IH]; intros s; simpl.
  - split; [intros H; now inversion H | now intros ->].
  - destruct s as [|a s]; [split; discriminate|].
    destruct (Ascii.eqb_spec c a) as [->|Hca].
    + rewrite IH. split; [now intros -> | intros H; now inversion H].
    + split; [discriminate | intros H; inversion H; congruence].
Qed.

Lemma after_any_iff (vs : list string) (s rest : string) :
  In rest (after_any vs s) <-> exists v, In v vs /\ s = v ++ rest.
Proof.
  unfold after_any. rewrite in_flat_map. split.
  - intros (v & Hv & H). exists v. split; [exact Hv|].
    destruct (strip_prefix v s) as [t|] eqn:E; [|contradiction].
    destruct H as [<- | []]. now apply strip_prefix_iff.
  - intros (v & Hv & H). exists v. split; [exact Hv|].
    apply strip_prefix_iff in H. rewrite H. now left.
Qed.

(** What is left after a literal word. *)
Lemma rmatch_lit (w s rest : string) :
  In rest (rmatch icase (lit w) s) <->
  exists v, s = v ++ rest /\ spelt icase w v.
Proof.
  revert s; induction w as [|c w IH]; intros s.
  - simpl. split.
    + intros [<- | []]. now exists "".
    + intros (v & -> & ->). now left.
  - cbn [lit rmatch spelt]. rewrite in_flat_map. split.
    + intros (mid & Hmid & Hrest). apply after_any_iff in Hmid.
      destruct Hmid as (x & Hx & ->). apply IH in Hrest.
      destruct Hrest as (v & -> & Hv). exists (x ++ v).
      split; [now rewrite append_assoc|]. now exists x, v.
    + intros (v & -> & x & v' & Hx & -> & Hv). exists (v' ++ rest). split.
      * apply after_any_iff. exists x. split; [exact Hx|].
        apply append_assoc.
      * apply IH. now exists v'.
Qed.

(** Without [re.IGNORECASE] a word is spelt in one way. *)
Lemma spelt_exactly (w v : string) : spelt false w v <-> v = w.
Proof.
  revert v; induction w as [|c w IH]; intros v; simpl.
  - reflexivity.
  - split.
    + intros (x & v' & [<- | []] & -> & Hv). apply IH in Hv. now subst.
    + intros ->. exists (String c ""), w. split; [now left|].
      split; [reflexivity | now apply IH].
Qed.

Lemma rmatch_alts (ws : list string) (s rest : string) :
  In rest (rmatch icase (alts ws) s) <->
  exists w, In w ws /\ In rest (rmatch icase (lit w) s).
Proof.
  induction ws as [|w ws IH].
  - simpl. split; [intros [] | intros (w & [] & _)].
  - destruct ws as [|w' ws].
    + simpl alts. split.
      * intros H. exists w. split; [now left | assumption].
      * intros (w0 & [<- | []] & H). assumption.
    + change (alts (w :: w' :: ws)) with (Alt (lit w) (alts (w' :: ws))).
      simpl rmatch. rewrite in_app_iff, IH. split.
      * intros [H | (w0 & Hin & H)].
        -- exists w. split; [now left | assumption].
        -- exists w0. split; [now right | assumption].
      * intros (w0 & [<- | Hin] & H); [now left|].
        right. now exists w0.
Qed.

Lemma matches_here_iff (r : regex) (s : string) :
  matches_here icase r s = true <-> exists rest, In rest (rmatch icase r s).
Proof.
  unfold matches_here. destruct (rmatch icase r s) as [|x l].
  - split; [discriminate | intros [rest []]].
  - split; [intros _; exists x; now left | reflexivity].
Qed.

Lemma search_iff (r : regex) (s : string) :
  search icase r s = true <->
  exists pre suf, s = pre ++ suf /\ matches_here icase r suf = true.
Proof.
  induction s as [|a s IH].
  - simpl. rewrite orb_false_r. split.
    + intros H. now exists "", "".
    + intros (pre & suf & H & Hm). destruct pre; [|discriminate].
      simpl in H. now subst suf.
  - simpl search. rewrite orb_true_iff, IH. split.
    + intros [H | (pre & suf & -> & H)].
      * now exists "", (String a s).
      * now exists (String a pre), suf.
    + intros (pre & suf & H & Hm). destruct pre as [|b pre].
      * left. simpl in H. now subst suf.
      * right. inversion H. now exists pre, suf.
Qed.

End PatternFacts.

(** A text that the matcher runs through spells the word. *)
Lemma spelt_by_run (w v : string) :
  existsb (String.eqb "") (rmatch true (lit w) v) = true -> spelt true w v.
Proof.
  intros H. apply existsb_exists in H. destruct H as (rest & Hin & E).
  apply String.eqb_eq in E. subst rest. apply rmatch_lit in Hin.
  destruct Hin as (v0 & Hv & Hs). rewrite append_nil_r in Hv. now subst v0.
Qed.

(** [re.search] of an alternation of words with [re.IGNORECASE]. *)
Lemma search_alts_found (ws : list string) (s : string) :
  search true (alts ws) s = true <-> found_ci ws s.
Proof.
  rewrite search_iff. unfold found_ci, substring_ci. split.
  - intros (pre & suf & -> & Hm). apply matches_here_iff in Hm.
    destruct Hm as [rest Hm]. apply rmatch_alts in Hm.
    destruct Hm as (w & Hin & Hm). apply rmatch_lit in Hm.
    destruct Hm as (v & -> & Hv). exists w. split; [assumption|].
    now exists pre, v, rest.
  - intros (w & Hin & pre & v & post & -> & Hv).
    exists pre, (v ++ post). split; [reflexivity|].
    apply matches_here_iff. exists post. apply rmatch_alts.
    exists w. split; [assumption|]. apply rmatch_lit. now exists v.
Qed.

(** [re.search] of an extension followed by a quote character. *)
Lemma search_quoted_ext (ext s : string) :
  search false (Cat (lit ext) (Cls [dquote; squote])) s = true <->
  quoted_ext ext s.
Proof.
  rewrite search_iff. unfold quoted_ext. split.
  - intros (pre & suf & -> & Hm). apply matches_here_iff in Hm.
    destruct Hm as [rest Hm]. cbn [rmatch] in Hm. apply in_flat_map in Hm.
    destruct Hm as (mid & Hmid & Hrest). apply rmatch_lit in Hmid.
    destruct Hmid as (v & -> & Hv). apply spelt_exactly in Hv. subst v.
    apply after_any_iff in Hrest. destruct Hrest as (q & Hq & ->).
    destruct Hq as [<- | [<- | []]].
    + exists pre, dquote, rest. auto.
    + exists pre, squote, rest. auto.
  - intros (pre & q & post & -> & Hq).
    exists pre, (ext ++ String q post). split; [reflexivity|].
    apply matches_here_iff. exists post. cbn [rmatch]. apply in_flat_map.
    exists (String q post). split.
    + apply rmatch_lit. exists ext. split; [reflexivity|].
      now apply spelt_exactly.
    + apply after_any_iff. exists (String q ""). split; [|reflexivity].
      destruct Hq as [-> | ->]; [now left | right; now left].
Qed.

(** ** The case of ASCII letters does not matter under [re.IGNORECASE] *)

Section CaseFolding.

Lemma every_byte_complete (a : ascii) : In a every_byte.
Proof.
  unfold every_byte. rewrite <- (ascii_nat_embedding a). apply in_map.
  apply in_seq. pose proof (nat_ascii_bounded a). lia.
Qed.

Lemma for_every_byte (p : ascii -> bool) :
  forallb p every_byte = true -> forall a, p a = true.
Proof.
  intros H a. rewrite forallb_forall in H. apply H, every_byte_complete.
Qed.

(** The characters that share the lower case of a letter are its two
    cases. *)
Lemma lower_ascii_char_letter (c a : ascii) :
  is_letter c = true ->
  lower_ascii_char a = lower_ascii_char c ->
  a = lower_ascii_char c \/ a = upper_ascii_char c.
Proof.
  assert (H : forallb (fun c =>
                forallb (fun a =>
                  implb (is_letter c
                         && Ascii.eqb (lower_ascii_char a) (lower_ascii_char c))
                    (Ascii.eqb a (lower_ascii_char c)
                     || Ascii.eqb a (upper_ascii_char c)))
                  every_byte) every_byte = true) by (vm_compute; reflexivity).
  intros Hc Ha. pose proof (for_every_byte _ (for_every_byte _ H c) a) as G.
  cbv beta in G. rewrite Hc, Ha, Ascii.eqb_refl in G. cbn [andb implb] in G.
  apply orb_true_iff in G. destruct G as [G | G]; apply Ascii.eqb_eq in G; auto.
Qed.

(** A character that is no letter shares its lower case with no
    other. *)
Lemma lower_ascii_char_other (c a : ascii) :
  is_letter c = false -> lower_ascii_char a = lower_ascii_char c -> a = c.
Proof.
  assert (H : forallb (fun c =>
                forallb (fun a =>
                  implb (negb (is_letter c)
                         && Ascii.eqb (lower_ascii_char a) (lower_ascii_char c))
                    (Ascii.eqb a c))
                  every_byte) every_byte = true) by (vm_compute; reflexivity).
  intros Hc Ha. pose proof (for_every_byte _ (for_every_byte _ H c) a) as G.
  cbv beta in G. rewrite Hc, Ha, Ascii.eqb_refl in G. cbn [negb andb implb] in G.
  now apply Ascii.eqb_eq in G.
Qed.

Lemma lower_ascii_char_cases (c : ascii) :
  is_letter c = true ->
  lower_ascii_char (lower_ascii_char c) = lower_ascii_char c /\
  lower_ascii_char (upper_ascii_char c) = lower_ascii_char c.
Proof.
  assert (H : forallb (fun c =>
                implb (is_letter c)
                  (Ascii.eqb (lower_ascii_char (lower_ascii_char c))
                     (lower_ascii_char c)
                   && Ascii.eqb (lower_ascii_char (upper_ascii_char c))
                        (lower_ascii_char c)))
                every_byte = true) by (vm_compute; reflexivity).
  intros Hc. pose proof (for_every_byte _ H c) as G. cbv beta in G.
  rewrite Hc in G. cbn [implb] in G. apply andb_true_iff in G.
  destruct G as [G1 G2]. apply Ascii.eqb_eq in G1, G2. auto.
Qed.

Lemma lower_ascii_other (x x' : string) :
  all_chars (fun c => negb (is_letter c)) x = true ->
  lower_ascii x' = lower_ascii x -> x' = x.
Proof.
  revert x'; induction x as [|c x IH]; intros x' Hx H.
  - now destruct x'.
  - destruct x' as [|a x']; [discriminate H|].
    cbn [all_chars] in Hx. apply andb_true_iff in Hx. destruct Hx as [Hc Hx].
    apply negb_true_iff in Hc. inversion H as [[Ha Ht]].
    f_equal; [now apply lower_ascii_char_other | now apply IH].
Qed.

Lemma lower_ascii_app (a b : string) :
  lower_ascii (a ++ b) = lower_ascii a ++ lower_ascii b.
Proof. induction a as [|c a IH]; simpl; [reflexivity | now rewrite IH]. Qed.

Lemma lower_ascii_split (s a b : string) :
  lower_ascii s = lower_ascii (a ++ b) ->
  exists a' b',
    s = a' ++ b' /\ lower_ascii a' = lower_ascii a /\
    lower_ascii b' = lower_ascii b.
Proof.
  revert s; induction a as [|c a IH]; intros s H.
  - now exists "", s.
  - destruct s as [|x s]; [discriminate H|]. simpl in H.
    inversion H as [[Hx Hs]]. destruct (IH s Hs) as (a' & b' & -> & Ha & Hb).
    exists (String x a'), b'. simpl. now rewrite Hx, Ha.
Qed.

Lemma other_spellings_no_letter (c : ascii) (x : string) :
  In x (other_spellings c) ->
  all_chars (fun a => negb (is_letter a)) x = true.
Proof.
  unfold other_spellings.
  destruct (Ascii.eqb c "i"); [intros [<- | [<- | []]]; reflexivity|].
  destruct (Ascii.eqb c "s"); [intros [<- | []]; reflexivity|].
  destruct (Ascii.eqb c "k"); [intros [<- | []]; reflexivity|].
  intros [].
Qed.

(** The spellings of a character are closed under a change of case. *)
Lemma spellings_case (c : ascii) (x x' : string) :
  In x (spellings true c) ->
  lower_ascii x' = lower_ascii x -> In x' (spellings true c).
Proof.
  unfold spellings. cbn [andb]. destruct (is_letter c) eqn:Hc.
  - destruct (lower_ascii_char_cases c Hc) as [Hl Hu].
    intros [<- | [<- | Hx]] H.
    + destruct x' as [|a [|b x']]; try discriminate H.
      inversion H as [Ha]. rewrite Hl in Ha.
      destruct (lower_ascii_char_letter c a Hc Ha) as [-> | ->];
        [now left | right; now left].
    + destruct x' as [|a [|b x']]; try discriminate H.
      inversion H as [Ha]. rewrite Hu in Ha.
      destruct (lower_ascii_char_letter c a Hc Ha) as [-> | ->];
        [now left | right; now left].
    + right; right.
      rewrite (lower_ascii_other x x' (other_spellings_no_letter _ x Hx) H).
      exact Hx.
  - intros [<- | []] H. left. symmetry. apply lower_ascii_other; [|exact H].
    cbn [all_chars]. now rewrite Hc.
Qed.

Lemma spelt_case (w v v' : string) :
  spelt true w v -> lower_ascii v' = lower_ascii v -> spelt true w v'.
Proof.
  revert v v'; induction w as [|c w IH]; intros v v' Hv H.
  - simpl in Hv. subst v. now destruct v'.
  - cbn [spelt] in Hv. destruct Hv as (x & v1 & Hx & -> & Hv1).
    destruct (lower_ascii_split v' x v1 H) as (x' & v1' & -> & Hx' & Hv1').
    cbn [spelt]. exists x', v1'. split; [|split; [reflexivity|]].
    + exact (spellings_case c x x' Hx Hx').
    + exact (IH v1 v1' Hv1 Hv1').
Qed.

Lemma found_ci_case (ws : list string) (s1 s2 : string) :
  lower_ascii s1 = lower_ascii s2 -> found_ci ws s1 -> found_ci ws s2.
Proof.
  intros H (w & Hin & pre & v & post & -> & Hv). exists w.
  split; [exact Hin|]. symmetry in H.
  destruct (lower_ascii_split s2 pre (v ++ post) H) as (pre' & r & -> & _ & Hr).
  destruct (lower_ascii_split r v post Hr) as (v' & post' & -> & Hv' & _).
  exists pre', v', post'. split; [reflexivity|].
  exact (spelt_case w v v' Hv Hv').
Qed.

Lemma search_case (ws : list string) (s1 s2 : string) :
  lower_ascii s1 = lower_ascii s2 ->
  search true (alts ws) s1 = search true (alts ws) s2.
Proof.
  intros H. pose proof (search_alts_found ws s1) as H1.
  pose proof (search_alts_found ws s2) as H2.
  pose proof (found_ci_case ws s1 s2 H) as F12.
  pose proof (found_ci_case ws s2 s1 (eq_sym H)) as F21.
  destruct (search true (alts ws) s1), (search true (alts ws) s2);
    try reflexivity.
  - assert (true = true) as E by reflexivity. apply H1, F12, H2 in E.
    discriminate E.
  - assert (true = true) as E by reflexivity. apply H2, F21, H1 in E.
    discriminate E.
Qed.

Lemma first_match_case (table : list (string * list string))
  (s1 s2 : string) :
  lower_ascii s1 = lower_ascii s2 ->
  first_match true (map (fun lw => (fst lw, alts (snd lw))) table) s1 =
  first_match true (map (fun lw => (fst lw, alts (snd lw))) table) s2.
Proof.
  intros H. induction table as [|[label ws] table IH]; simpl.
  - reflexivity.
  - now rewrite (search_case ws s1 s2 H), IH.
Qed.

Lemma matched_frameworks_case (s1 s2 : string) :
  lower_ascii s1 = lower_ascii s2 ->
  matched_frameworks s1 = matched_frameworks s2.
Proof.
  intros H. unfold matched_frameworks. f_equal.
  change framework_patterns
    with (map (fun lw : string * list string => (fst lw, alts (snd lw)))
            framework_words).
  induction framework_words as [|[label ws] table IH]; simpl.
  - reflexivity.
  - rewrite (search_case ws s1 s2 H), IH. reflexivity.
Qed.

End CaseFolding.

(** ** The detectors *)

Section Detectors.

(** C6.  Language detection looks at [X-Powered-By] first: a value that
    contains [PHP] gives PHP, otherwise one that contains [ASP.NET] gives
    ASP.NET, whatever the body; otherwise the body is searched for
    [.php], [.aspx], [.jsp], [.py] followed by a quote, in this order,
    the first found deciding; the answer is [Unknown] exactly when none
    of the six signals is there. *)
Theorem detect_programming_language_priority
  (headers : dict string) (content : string) :
  let powered_by := dict_get_default "X-Powered-By" "" headers in
  let language := detect_programming_language headers content in
  (substring "PHP" powered_by -> language = "PHP") /\
  (~ substring "PHP" powered_by -> substring "ASP.NET" powered_by ->
   language = "ASP.NET") /\
  (~ substring "PHP" powered_by -> ~ substring "ASP.NET" powered_by ->
   (quoted_ext ".php" content -> language = "PHP") /\
   (~ quoted_ext ".php" content -> quoted_ext ".aspx" content ->
    language = "ASP.NET") /\
   (~ quoted_ext ".php" content -> ~ quoted_ext ".aspx" content ->
    quoted_ext ".jsp" content -> language = "Java") /\
   (~ quoted_ext ".php" content -> ~ quoted_ext ".aspx" content ->
    ~ quoted_ext ".jsp" content -> quoted_ext ".py" content ->
    language = "Python")) /\
  (language = "Unknown" <->
   ~ substring "PHP" powered_by /\ ~ substring "ASP.NET" powered_by /\
   ~ quoted_ext ".php" content /\ ~ quoted_ext ".aspx" content /\
   ~ quoted_ext ".jsp" content /\ ~ quoted_ext ".py" content).
Proof.
  intros powered_by language. subst language.
  unfold detect_programming_language, language_patterns.
  fold powered_by. cbn [first_match].
  pose proof (contains_iff "PHP" powered_by) as H1.
  pose proof (contains_iff "ASP.NET" powered_by) as H2.
  pose proof (search_quoted_ext ".php" content) as H3.
  pose proof (search_quoted_ext ".aspx" content) as H4.
  pose proof (search_quoted_ext ".jsp" content) as H5.
  pose proof (search_quoted_ext ".py" content) as H6.
  destruct (contains "PHP" powered_by);
    destruct (contains "ASP.NET" powered_by);
    destruct (search false (Cat (lit ".php") (Cls [dquote; squote])) content);
    destruct (search false (Cat (lit ".aspx") (Cls [dquote; squote])) content);
    destruct (search false (Cat (lit ".jsp") (Cls [dquote; squote])) content);
    destruct (search false (Cat (lit ".py") (Cls [dquote; squote])) content);
    intuition (try discriminate; try reflexivity).
Qed.

Lemma detect_programming_language_priority_witness :
  detect_programming_language [("X-Powered-By", "PHP/8.1")] "" = "PHP" /\
  detect_programming_language [] ("index.jsp" ++ String squote "") = "Java".
Proof.
  split.
  - apply (proj1 (detect_programming_language_priority
                    [("X-Powered-By", "PHP/8.1")] "")).
    exists "", "/8.1". reflexivity.
  - apply (detect_programming_language_priority
             [] ("index.jsp" ++ String squote "")).
    + intros H. apply contains_iff in H. discriminate H.
    + intros H. apply contains_iff in H. discriminate H.
    + intros H. apply search_quoted_ext in H. discriminate H.
    + intros H. apply search_quoted_ext in H. discriminate H.
    + exists "index", squote, "". split; [reflexivity | now right].
Defined.

(** The labels that [detect_js_frameworks] joins, for each way the four
    patterns may come out. *)
Lemma matched_frameworks_cases (content : string) :
  matched_frameworks content =
  ((if search true (alts ["react"; "reactjs"]) content
    then ["React"] else [])
   ++ (if search true (alts ["vue.js"; "vuejs"]) content
       then ["Vue.js"] else [])
   ++ (if search true (alts ["angular"; "ng-"]) content
       then ["Angular"] else [])
   ++ (if search true (alts ["jquery"]) content
       then ["jQuery"] else []))%list.
Proof.
  unfold matched_frameworks, framework_patterns.
  cbn [filter snd].
  destruct (search true (alts ["react"; "reactjs"]) content);
    destruct (search true (alts ["vue.js"; "vuejs"]) content);
    destruct (search true (alts ["angular"; "ng-"]) content);
    destruct (search true (alts ["jquery"]) content); reflexivity.
Qed.

(** C7.  Framework detection keeps every label whose pattern is found,
    each pattern being tried on its own and without regard to case, as
    [re.IGNORECASE] has it on any text (the long s counts for an s, the
    Kelvin sign for a k, the dotted capital and the dotless i for an i):
    a label is kept exactly when one of its words occurs; the labels
    kept come in catalog order; a body with both "react" and "jquery"
    gives an answer that starts with React and ends with jQuery; and the
    answer is [Unknown] exactly when no pattern is found. *)
Theorem detect_js_frameworks_accumulates (content : string) :
  let matched := matched_frameworks content in
  let answer := detect_js_frameworks content in
  (forall label words,
      In (label, words) framework_words ->
      (In label matched <-> found_ci words content)) /\
  (exists keep,
      matched = filter keep ["React"; "Vue.js"; "Angular"; "jQuery"]) /\
  (matched <> [] -> answer = join ", " matched) /\
  (substring_ci "react" content -> substring_ci "jquery" content ->
   In "React" matched /\ In "jQuery" matched /\
   exists between, answer = "React" ++ between ++ "jQuery") /\
  (answer = "Unknown" <->
   forall label words,
     In (label, words) framework_words -> ~ found_ci words content).
Proof.
  intros matched answer. subst matched answer.
  unfold detect_js_frameworks. rewrite matched_frameworks_cases.
  pose proof (search_alts_found ["react"; "reactjs"] content) as Hr.
  pose proof (search_alts_found ["vue.js"; "vuejs"] content) as Hv.
  pose proof (search_alts_found ["angular"; "ng-"] content) as Ha.
  pose proof (search_alts_found ["jquery"] content) as Hj.
  assert (Hreact : substring_ci "react" content ->
                   found_ci ["react"; "reactjs"] content).
  { intros H. exists "react". split; [now left | exact H]. }
  assert (Hjquery : substring_ci "jquery" content ->
                    found_ci ["jquery"] content).
  { intros H. exists "jquery". split; [now left | exact H]. }
  assert (Hall : forall P : string -> list string -> Prop,
             (forall label words,
                 In (label, words) framework_words -> P label words) <->
             P "React" ["react"; "reactjs"] /\
             P "Vue.js" ["vue.js"; "vuejs"] /\
             P "Angular" ["angular"; "ng-"] /\
             P "jQuery" ["jquery"]).
  { intros P. unfold framework_words. split.
    - intros H. repeat split; apply H; simpl; auto.
    - intros (H1 & H2 & H3 & H4) label words Hin. simpl in Hin.
      destruct Hin as [E | [E | [E | [E | []]]]]; inversion E; subst;
        assumption. }
  rewrite (Hall (fun label words => In label _ <-> found_ci words content)).
  rewrite (Hall (fun label words => ~ found_ci words content)).
  destruct (search true (alts ["react"; "reactjs"]) content);
    destruct (search true (alts ["vue.js"; "vuejs"]) content);
    destruct (search true (alts ["angular"; "ng-"]) content);
    destruct (search true (alts ["jquery"]) content);
    cbn [app join String.concat];
    (split; [ | split; [ | split; [ | split ] ] ]).
  all: try match goal with
           | |- exists keep, ?m = filter keep _ =>
               exists (fun label => existsb (String.eqb label) m);
               reflexivity
           | |- _ <> _ -> _ => intros Hne; solve [reflexivity | now elim Hne]
           end.
  all: try match goal with
           | |- substring_ci _ _ -> substring_ci _ _ -> _ =>
               intros Hre Hjq; apply Hreact in Hre; apply Hjquery in Hjq;
               apply Hr in Hre; apply Hj in Hjq;
               try discriminate Hre; try discriminate Hjq;
               split; [simpl; tauto | split; [simpl; tauto |]];
               first [ exists ", "; reflexivity
                     | exists ", Vue.js, "; reflexivity
                     | exists ", Angular, "; reflexivity
                     | exists ", Vue.js, Angular, "; reflexivity ]
           end.
  all: simpl In; intuition (try discriminate; try congruence).
Qed.

Lemma detect_js_frameworks_accumulates_witness :
  In "React" (matched_frameworks "React and JQUERY") /\
  In "jQuery" (matched_frameworks "React and JQUERY") /\
  exists between,
    detect_js_frameworks "React and JQUERY" = "React" ++ between ++ "jQuery".
Proof.
  apply (proj1 (proj2 (proj2 (proj2
           (detect_js_frameworks_accumulates "React and JQUERY"))))).
  - exists "", "React", " and JQUERY".
    split; [reflexivity | now apply spelt_by_run].
  - exists "React and ", "JQUERY", "".
    split; [reflexivity | now apply spelt_by_run].
Defined.

(** The long s is an s to [re.IGNORECASE]: a body that writes [vue.js]
    with it is answered Vue.js, and one that writes [wordpress] with it
    WordPress; the dotted capital I is an i, and [sites/default] written
    with it is answered Drupal. *)
Example detectors_on_other_spellings :
  detect_js_frameworks ("vue.j" ++ Examples.long_s) = "Vue.js" /\
  detect_cms ("wordpre" ++ Examples.long_s ++ Examples.long_s)
    = "WordPress" /\
  detect_cms ("s" ++ Examples.dotted_capital_i ++ "tes/default") = "Drupal" /\
  detect_analytics ("google-analytic" ++ Examples.long_s)
    = "Google Analytics".
Proof. repeat split. Qed.

(** C10.  The body patterns of language detection are matched as
    written, those of CMS, framework and analytics detection without
    regard to case: a body that holds [.PHP] and a double quote in
    capitals, and no other signal, is answered [Unknown] (its lower-case
    form is answered PHP), while two bodies that differ in the case of
    ASCII letters only get the same CMS, frameworks and analytics, and
    [wp-content] in any case gives WordPress. *)
Theorem body_language_case_sensitive_others_not :
  (exists body,
      substring (".PHP" ++ String dquote "") body /\
      detect_programming_language [] body = "Unknown" /\
      detect_programming_language [] (lower_ascii body) = "PHP") /\
  (forall b1 b2,
      lower_ascii b1 = lower_ascii b2 ->
      detect_cms b1 = detect_cms b2 /\
      detect_js_frameworks b1 = detect_js_frameworks b2 /\
      detect_analytics b1 = detect_analytics b2) /\
  (forall body,
      substring_ci "wp-content" body -> detect_cms body = "WordPress") /\
  detect_cms "WP-CONTENT" = "WordPress".
Proof.
  split; [|split; [|split]].
  - exists ("index.PHP" ++ String dquote ""). split; [|split].
    + now exists "index", "".
    + reflexivity.
    + reflexivity.
  - intros b1 b2 H. unfold detect_cms, detect_js_frameworks, detect_analytics.
    change cms_patterns
      with (map (fun lw : string * list string => (fst lw, alts (snd lw)))
              cms_words).
    change analytics_patterns
      with (map (fun lw : string * list string => (fst lw, alts (snd lw)))
              analytics_words).
    now rewrite (first_match_case cms_words b1 b2 H),
      (first_match_case analytics_words b1 b2 H),
      (matched_frameworks_case b1 b2 H).
  - intros body H. unfold detect_cms, cms_patterns. cbn [first_match].
    replace (search true (alts ["wp-content"; "wp-includes"; "wordpress"])
               body) with true; [reflexivity|].
    symmetry. apply search_alts_found. exists "wp-content".
    split; [now left | exact H].
  - reflexivity.
Qed.

Lemma body_language_case_sensitive_others_not_witness :
  detect_cms "<link href=/WP-Content/x.css>" =
  detect_cms "<link href=/wp-content/x.css>" /\
  detect_cms "<link href=/WP-Content/x.css>" = "WordPress".
Proof.
  split.
  - apply (proj1 (proj2 body_language_case_sensitive_others_not)).
    reflexivity.
  - apply (proj1 (proj2 (proj2 body_language_case_sensitive_others_not))).
    exists "<link href=/", "WP-Content", "/x.css>".
    split; [reflexivity | now apply spelt_by_run].
Defined.

End Detectors.

(* ================================================================== *)
(** ** The probing methods, one at a time *)

(** Unfolds the monad so that the answers of the environment show. *)
Ltac run_monad :=
  unfold do_urlopen;
  unfold bind, try_except, perform, lift, ret, position;
  cbn beta iota.

Ltac run_monad_in H :=
  unfold do_urlopen in H;
  unfold bind, try_except, perform, lift, ret, position in H;
  cbn beta iota in H.

Lemma length_snoc {A} (l : list A) (a : A) :
  List.length (l ++ [a]) = S (List.length l).
Proof. rewrite length_app. simpl. lia. Qed.

Lemma snoc_snoc {A} (l : list A) (a b : A) :
  ((l ++ [a]) ++ [b] = l ++ [a; b])%list.
Proof. now rewrite <- app_assoc. Qed.

Section Dictionaries.

Context {A : Type}.

Lemma dict_has_keys (k : string) (d : dict A) :
  dict_has k d = true <-> In k (dict_keys d).
Proof.
  unfold dict_has, dict_keys. induction d as [|[k' v] d IH]; simpl.
  - split; [discriminate | contradiction].
  - destruct (String.eqb_spec k k') as [->|Hk].
    + split; auto.
    + rewrite IH. split; [auto | intros [E|H]; congruence].
Qed.

Lemma dict_get_set (k : string) (v : A) (d : dict A) (k' : string) :
  dict_get k' (dict_set k v d) = if String.eqb k' k then Some v else dict_get k' d.
Proof.
  induction d as [|[k0 v0] d IH]; simpl.
  - reflexivity.
  - destruct (String.eqb_spec k k0) as [->|Hk]; simpl.
    + now destruct (String.eqb k' k0).
    + rewrite IH. destruct (String.eqb_spec k' k0) as [->|Hk0].
      * destruct (String.eqb_spec k0 k); congruence.
      * reflexivity.
Qed.

End Dictionaries.


Section SecurityProbes.

Variable env : Env.
Variable self : WebsiteScanner.

(** [get_security_headers] makes one request and never raises. *)
Lemma get_security_headers_total (tr : list call) :
  exists hs,
    get_security_headers env self tr = (Ok hs, (tr ++ [Urlopen (url self)])%list).
Proof.
  unfold get_security_headers. run_monad.
  destruct (urlopen env (List.length tr) (url self)); eexists; reflexivity.
Qed.

(** [get_ssl_info] never raises; it makes one call when the URL starts
    with [https] and none otherwise, and answers with one of two sets of
    keys. *)
Lemma get_ssl_info_total (tr : list call) :
  exists ssl,
    get_ssl_info env self tr =
      (Ok ssl,
       (tr ++ if startswith (url self) "https"
              then [TlsConnect (domain self) 443] else [])%list) /\
    (keys_of ssl = Some ssl_keys_disabled \/
     keys_of ssl = Some ssl_keys_enabled).
Proof.
  unfold get_ssl_info. destruct (startswith (url self) "https"); cbn [negb].
  - run_monad.
    destruct (getpeercert env (List.length tr) (domain self) 443) as [cert|e];
      [|eexists; split; [reflexivity | now left]].
    destruct (common_name cert "issuer");
      [|eexists; split; [reflexivity | now left]].
    destruct (value_get cert "notBefore" unknown);
      [|eexists; split; [reflexivity | now left]].
    destruct (value_get cert "notAfter" unknown);
      [|eexists; split; [reflexivity | now left]].
    destruct (common_name cert "subject");
      eexists; (split; [reflexivity | auto]).
  - unfold ret. rewrite app_nil_r. eexists. split; [reflexivity | now left].
Qed.

(** What the TLS probe does by the text of the URL.  When the URL does
    not start with [https] the probe answers [enabled = False] with the
    message [SSL not enabled] and makes no call; when it does and the
    connection or the handshake raises, the probe answers [enabled =
    False] with the message of the error after [SSL error: ]; and in no
    case does the probe raise. *)
Theorem get_ssl_info_degrades (tr : list call) :
  (startswith (url self) "https" = false ->
   get_ssl_info env self tr =
     (Ok (VDict [ ("enabled", VBool false);
                  ("message", VStr "SSL not enabled") ]), tr)) /\
  (startswith (url self) "https" = true ->
   forall e,
     getpeercert env (List.length tr) (domain self) 443 = Raise e ->
     get_ssl_info env self tr =
       (Ok (VDict [ ("enabled", VBool false);
                    ("message", VStr ("SSL error: " ++ exn_msg e)) ]),
        (tr ++ [TlsConnect (domain self) 443])%list)) /\
  (exists ssl tr', get_ssl_info env self tr = (Ok ssl, tr')).
Proof.
  split; [|split].
  - intros H. unfold get_ssl_info. now rewrite H.
  - intros H e He. unfold get_ssl_info. rewrite H. cbn [negb]. run_monad.
    now rewrite He.
  - destruct (get_ssl_info_total tr) as (ssl & H & _). eauto.
Qed.

(** C9.  In the security section the two flags say whether the
    [security_headers] mapping of the same section has the key. *)
Theorem security_flags_consistent (tr : list call) :
  exists ssl hs hsts csp tr',
    get_security_info env self tr =
      (Ok (VDict [ ("ssl_certificate", ssl);
                   ("security_headers", VDict hs);
                   ("hsts_enabled", VBool hsts);
                   ("content_security_policy", VBool csp) ]), tr') /\
    (hsts = true <-> In "Strict-Transport-Security" (dict_keys hs)) /\
    (csp = true <-> In "Content-Security-Policy" (dict_keys hs)).
Proof.
  unfold get_security_info.
  destruct (get_ssl_info_total tr) as (ssl & Hssl & _).
  set (tr1 := (tr ++ _)%list) in Hssl.
  destruct (get_security_headers_total tr1) as (sh & Hsh).
  unfold bind at 1. rewrite Hssl. unfold bind at 1. rewrite Hsh. unfold ret.
  exists ssl, (map (fun kv => (fst kv, VStr (snd kv))) sh),
    (dict_has "Strict-Transport-Security" sh),
    (dict_has "Content-Security-Policy" sh), (tr1 ++ [Urlopen (url self)])%list.
  split; [reflexivity|].
  assert (Hk : dict_keys (map (fun kv => (fst kv, VStr (snd kv))) sh)
               = dict_keys sh).
  { unfold dict_keys. now rewrite map_map. }
  rewrite Hk. split; apply dict_has_keys.
Qed.

End SecurityProbes.

Lemma get_ssl_info_degrades_witness :
  get_ssl_info Examples.env_down Examples.http_example_com [] =
    (Ok (VDict [ ("enabled", VBool false);
                 ("message", VStr "SSL not enabled") ]), []) /\
  get_ssl_info Examples.env_down Examples.example_com [] =
    (Ok (VDict [ ("enabled", VBool false);
                 ("message",
                   VStr "SSL error: [Errno 101] Network is unreachable") ]),
     [TlsConnect "example.com" 443]).
Proof.
  split.
  - apply (proj1 (get_ssl_info_degrades
                    Examples.env_down Examples.http_example_com [])).
    reflexivity.
  - apply (proj1 (proj2 (get_ssl_info_degrades
                           Examples.env_down Examples.example_com []))
             eq_refl
             (Exn "OSError" "[Errno 101] Network is unreachable")).
    reflexivity.
Defined.

(** C5, at two targets whose scheme is not [https].  The URL
    [httpsx://example.com] has the scheme [httpsx], and [httpstat.us],
    a host name typed without a scheme, has none; for both the scanner
    opens a TLS connection to port 443, because the text of the URL
    starts with [https], where [get_basic_info] would compare the parsed
    scheme with [https]. *)
Theorem tls_probe_runs_on_httpsx_scheme :
  (exists parsed,
      UrlLib.urlparse "httpsx://example.com" = Ok parsed /\
      scheme parsed = "httpsx" /\
      String.eqb (scheme parsed) "https" = false) /\
  init Examples.env_down "httpsx://example.com"
    = Ok Examples.httpsx_example_com /\
  run (get_ssl_info Examples.env_down Examples.httpsx_example_com) =
    (Ok (VDict [ ("enabled", VBool false);
                 ("message",
                   VStr "SSL error: [Errno 101] Network is unreachable") ]),
     [TlsConnect "example.com" 443]) /\
  (exists parsed,
      UrlLib.urlparse "httpstat.us" = Ok parsed /\
      scheme parsed = "" /\
      netloc parsed = "") /\
  init Examples.env_down "httpstat.us" = Ok Examples.httpstat_us /\
  snd (run (get_ssl_info Examples.env_down Examples.httpstat_us)) =
    [TlsConnect "" 443].
Proof.
  split; [|split; [|split; [|split; [|split]]]].
  - eexists. split; [reflexivity|]. split; reflexivity.
  - reflexivity.
  - reflexivity.
  - eexists. split; [reflexivity|]. split; reflexivity.
  - reflexivity.
  - reflexivity.
Qed.

(** A certificate in the layout of the [ssl] module makes the probe
    fail on [.get] of a tuple; the error is caught like the others. *)
Example get_ssl_info_ssl_layout :
  fst (run (get_ssl_info
              (Examples.env_serving Examples.page
                 (Ok Examples.cert_ssl_layout))
              Examples.example_com)) =
  Ok (VDict [ ("enabled", VBool false);
              ("message",
                VStr "SSL error: 'tuple' object has no attribute 'get'") ]).
Proof. reflexivity. Qed.

(** ** Security headers *)

Section SecurityHeaders.

Variable headers : dict string.

Lemma select_loop_get (names : list string) (acc : dict string)
  (name : string) :
  dict_get name
    (fold_left
       (fun security_headers header_name =>
          match dict_get header_name headers with
          | Some v => dict_set header_name v security_headers
          | None => security_headers
          end) names acc) =
  match (if existsb (String.eqb name) names
         then dict_get name headers else None) with
  | Some v => Some v
  | None => dict_get name acc
  end.
Proof.
  revert acc. induction names as [|n names IH]; intros acc.
  - reflexivity.
  - cbn [fold_left existsb]. rewrite IH.
    destruct (String.eqb_spec name n) as [->|Hn]; cbn [orb].
    + destruct (dict_get n headers) as [v|] eqn:Hv.
      * destruct (existsb (String.eqb n) names);
          [reflexivity | now rewrite dict_get_set, String.eqb_refl].
      * now destruct (existsb (String.eqb n) names).
    + destruct (existsb (String.eqb name) names);
        destruct (dict_get name headers); try reflexivity;
        destruct (dict_get n headers); try reflexivity;
        rewrite dict_get_set;
        now destruct (String.eqb_spec name n).
Qed.

(** What [get_security_headers] keeps of a dictionary of headers: the
    entries whose key is, letter for letter, one of the six names. *)
Lemma select_security_headers_get (name : string) :
  dict_get name (select_security_headers headers) =
  if existsb (String.eqb name) security_header_names
  then dict_get name headers else None.
Proof.
  unfold select_security_headers. rewrite select_loop_get.
  now destruct (if existsb (String.eqb name) security_header_names
                then dict_get name headers else None).
Qed.

(** No name outside the allow-list is recorded. *)
Lemma select_security_headers_allow_list (name : string) :
  In name (dict_keys (select_security_headers headers)) ->
  In name security_header_names.
Proof.
  intros H. apply dict_has_keys in H. unfold dict_has in H.
  rewrite select_security_headers_get in H.
  destruct (existsb (String.eqb name) security_header_names) eqn:E;
    [|discriminate H].
  apply existsb_exists in E. destruct E as (n & Hn & E).
  apply String.eqb_eq in E. now subst n.
Qed.

End SecurityHeaders.

(** C4, at a response whose header names are in lower case.  The
    response carries [strict-transport-security], which [msg.get] finds
    under the canonical spelling, yet [get_security_headers] records
    nothing, while [check_compression] on the same response finds
    [content-encoding] under [Content-Encoding]. *)
Theorem lowercase_security_header_dropped :
  msg_get "Strict-Transport-Security" (headers Examples.page_lowercase)
    = Some "max-age=31536000" /\
  run (get_security_headers
         (Examples.env_serving Examples.page_lowercase
            (Raise Examples.unreachable))
         Examples.example_com)
    = (Ok [], [Urlopen "https://example.com"]) /\
  run (check_compression
         (Examples.env_serving Examples.page_lowercase
            (Raise Examples.unreachable))
         Examples.example_com)
    = (Ok "Enabled", [Urlopen "https://example.com"]).
Proof. repeat split. Qed.

(** ** Page size *)

Section Rounding.

Local Open Scope Z_scope.

Lemma round_half_even_scale (c num den : Z) :
  0 < c -> 0 < den ->
  round_half_even (c * num) (c * den) = round_half_even num den.
Proof.
  intros Hc Hd. unfold round_half_even.
  rewrite Z.div_mul_cancel_l by lia.
  rewrite Z.mul_mod_distr_l by lia.
  replace (2 * (c * (num mod den)) <? c * den)
    with (2 * (num mod den) <? den).
  2:{ destruct (Z.ltb_spec (2 * (num mod den)) den);
      destruct (Z.ltb_spec (2 * (c * (num mod den))) (c * den));
      try reflexivity; nia. }
  replace (c * den <? 2 * (c * (num mod den)))
    with (den <? 2 * (num mod den)).
  2:{ destruct (Z.ltb_spec den (2 * (num mod den)));
      destruct (Z.ltb_spec (c * den) (2 * (c * (num mod den))));
      try reflexivity; nia. }
  reflexivity.
Qed.

Lemma round_half_even_exact (q den : Z) :
  0 < den -> round_half_even (q * den) den = q.
Proof.
  intros Hd. unfold round_half_even.
  rewrite Z.div_mul by lia. rewrite Z.mod_mul by lia.
  destruct (Z.ltb_spec (2 * 0) den); [reflexivity | lia].
Qed.

Lemma quotient_log2_le (a b : Z) :
  quotient_log2 a b <= Z.log2 a - Z.log2 b.
Proof.
  unfold quotient_log2.
  destruct (0 <=? Z.log2 a - Z.log2 b);
    match goal with |- context [if ?c then _ else _] => destruct c end; lia.
Qed.

(** Below [2 ^ 53] the quotient by 1024 is a binary64 number, and its
    ['.2f'] rendering is the rounding of the exact quotient. *)
Lemma format_truediv_1024 (n : Z) :
  0 <= n < 2 ^ 53 ->
  exists x, truediv n 1024 = Ok x /\
            format_2f x = hundredths (round_half_even (100 * n) 1024).
Proof.
  intros Hn. unfold truediv.
  destruct (Z.eqb_spec n 0) as [->|Hn0].
  - eexists. split; reflexivity.
  - set (e := Z.max (quotient_log2 n 1024 - 52) (-1074)).
    assert (He : e <= -10).
    { pose proof (quotient_log2_le n 1024) as Hq.
      assert (Z.log2 n < 53) by (apply Z.log2_lt_pow2; lia).
      change (Z.log2 1024) with 10 in Hq. unfold e. lia. }
    destruct (Z.leb_spec 0 e) as [Hpos|_]; [lia|]. cbn [andb].
    eexists. split; [reflexivity|].
    unfold format_2f. cbn [mant expo].
    destruct (Z.leb_spec 0 e) as [Hpos|_]; [lia|].
    set (j := - e - 10).
    assert (Hpow : 2 ^ (- e) = 2 ^ j * 1024).
    { replace (- e) with (j + 10) by (unfold j; lia).
      rewrite Z.pow_add_r by (unfold j; lia). reflexivity. }
    assert (Hj : 0 < 2 ^ j) by (apply Z.pow_pos_nonneg; unfold j; lia).
    rewrite Hpow.
    replace (n * (2 ^ j * 1024)) with ((n * 2 ^ j) * 1024) by ring.
    rewrite round_half_even_exact by lia.
    assert (Hm : 0 <= n * 2 ^ j) by nia.
    rewrite Z.abs_eq by exact Hm.
    destruct (Z.ltb_spec (n * 2 ^ j) 0) as [Hneg|_]; [lia|].
    replace (n * 2 ^ j * 100) with (2 ^ j * (100 * n)) by ring.
    rewrite round_half_even_scale by lia. reflexivity.
Qed.

End Rounding.

Lemma ascii_digits_isdigit (s : string) :
  all_chars is_ascii_digit s = true -> all_chars is_digit_char s = true.
Proof.
  induction s as [|c s IH]; [reflexivity|]. cbn [all_chars].
  rewrite !andb_true_iff. intros [Hc Hs]. split; [|now apply IH].
  unfold is_digit_char. now rewrite Hc.
Qed.

(** [page_size] on a string of at most 4300 decimal digits worth less
    than [2 ^ 53]. *)
Lemma page_size_of_digits (s : string) :
  s <> "" -> all_chars is_ascii_digit s = true ->
  String.length s <= 4300 ->
  (digits_value 0 s < 2 ^ 53)%Z ->
  page_size s =
    Ok (hundredths (round_half_even (100 * digits_value 0 s) 1024) ++ " KB").
Proof.
  intros Hne Hd Hlen Hlt. unfold page_size.
  assert (Hu : String.eqb s "Unknown" = false).
  { apply String.eqb_neq. intros ->. discriminate Hd. }
  assert (Hi : isdigit s = true).
  { unfold isdigit. destruct s; [congruence|]. now apply ascii_digits_isdigit. }
  rewrite Hu, Hi. cbn [negb andb]. unfold int_of_digits. rewrite Hd.
  replace (Nat.ltb 4300 (String.length s)) with false
    by (symmetry; apply Nat.ltb_ge; exact Hlen).
  assert (Hge : (0 <= digits_value 0 s)%Z).
  { assert (G : forall t acc, all_chars is_ascii_digit t = true ->
                             (0 <= acc -> 0 <= digits_value acc t)%Z).
    { induction t as [|c t IH]; intros acc Ht Hacc; [exact Hacc|].
      cbn [all_chars] in Ht. apply andb_true_iff in Ht. destruct Ht as [Hc Ht].
      cbn [digits_value]. apply IH; [exact Ht|].
      unfold is_ascii_digit, between in Hc. apply andb_true_iff in Hc.
      destruct Hc as [Hc _]. apply N.leb_le in Hc. lia. }
    apply G; [exact Hd | lia]. }
  destruct (format_truediv_1024 (digits_value 0 s)) as (x & Hx & Hf);
    [lia|].
  now rewrite Hx, Hf.
Qed.

Section Performance.

Variable env : Env.
Variable self : WebsiteScanner.

Lemma check_compression_total (tr : list call) :
  exists s,
    check_compression env self tr = (Ok s, (tr ++ [Urlopen (url self)])%list).
Proof.
  unfold check_compression. run_monad.
  destruct (urlopen env (List.length tr) (url self)); eexists; reflexivity.
Qed.

Lemma check_caching_total (tr : list call) :
  exists s,
    check_caching env self tr = (Ok s, (tr ++ [Urlopen (url self)])%list).
Proof.
  unfold check_caching. run_monad.
  destruct (urlopen env (List.length tr) (url self)); eexists; reflexivity.
Qed.

(** The value of [content_length] after the [try] of
    [get_performance_info]. *)
Lemma get_performance_info_eq (tr : list call) :
  exists response_time compression caching,
    get_performance_info env self tr =
      (match page_size
               match urlopen env (List.length tr) (url self) with
               | Ok response =>
                   msg_get_default "Content-Length" "Unknown"
                     (headers response)
               | Raise _ => "Unknown"
               end
       with
       | Ok size =>
           Ok (VDict [ ("response_time", VStr response_time);
                       ("compression", VStr compression);
                       ("caching", VStr caching);
                       ("page_size", VStr size) ])
       | Raise e => Raise e
       end,
       (tr ++ [Urlopen (url self); Urlopen (url self); Urlopen (url self)])
         %list).
Proof.
  unfold get_performance_info.
  set (tr1 := (tr ++ [Urlopen (url self)])%list).
  destruct (check_compression_total tr1) as (comp & Hcomp).
  destruct (check_caching_total (tr1 ++ [Urlopen (url self)])%list)
    as (cach & Hcach).
  assert (Htr : (((tr1 ++ [Urlopen (url self)]) ++ [Urlopen (url self)])
                 = tr ++ [Urlopen (url self); Urlopen (url self);
                          Urlopen (url self)])%list).
  { unfold tr1. now rewrite <- !app_assoc. }
  unfold bind at 1. unfold try_except at 1. unfold bind at 1.
  unfold position at 1. cbn beta iota. unfold bind at 1.
  unfold do_urlopen at 1, perform at 1. cbn beta iota. fold tr1.
  destruct (urlopen env (List.length tr) (url self)) as [response|e];
    unfold ret at 1; cbn beta iota; cbn [fst snd];
    unfold bind at 1; rewrite Hcomp; unfold bind at 1; rewrite Hcach;
    unfold bind at 1, lift at 1; rewrite Htr.
  - exists (format_2f (elapsed_ms env (List.length tr)) ++ "ms"), comp, cach.
    destruct (page_size _); reflexivity.
  - exists "Unknown", comp, cach. reflexivity.
Qed.

(** The page size comes from the [Content-Length] header of the
    response to the request of [get_performance_info]: the header
    [2048] gives [2.00 KB]; an absent header, or one that [isdigit]
    rejects, gives [Unknown]; and a header of at most 4300 decimal
    digits worth less than [2 ^ 53] gives the value divided by 1024 and
    rounded to two decimals. *)
Lemma page_size_from_content_length (tr : list call) (response : Response) :
  urlopen env (List.length tr) (url self) = Ok response ->
  (msg_get "Content-Length" (headers response) = Some "2048" ->
   exists report tr',
     get_performance_info env self tr = (Ok report, tr') /\
     field "page_size" report = Some (VStr "2.00 KB")) /\
  (msg_get "Content-Length" (headers response) = None \/
   (exists s, msg_get "Content-Length" (headers response) = Some s /\
              isdigit s = false) ->
   exists report tr',
     get_performance_info env self tr = (Ok report, tr') /\
     field "page_size" report = Some (VStr "Unknown")) /\
  (forall s,
      msg_get "Content-Length" (headers response) = Some s ->
      s <> "" -> all_chars is_ascii_digit s = true ->
      String.length s <= 4300 ->
      (digits_value 0 s < 2 ^ 53)%Z ->
      exists report tr',
        get_performance_info env self tr = (Ok report, tr') /\
        field "page_size" report =
          Some (VStr (hundredths
                        (round_half_even (100 * digits_value 0 s) 1024)
                      ++ " KB"))).
Proof.
  intros Hresp.
  destruct (get_performance_info_eq tr) as (rt & comp & cach & Heq).
  rewrite Hresp in Heq. unfold msg_get_default in Heq.
  split; [|split].
  - intros H. rewrite H in Heq. do 2 eexists. split; [exact Heq|].
    reflexivity.
  - intros [H | (s & H & Hs)]; rewrite H in Heq.
    + do 2 eexists. split; [exact Heq | reflexivity].
    + unfold page_size in Heq. rewrite Hs, andb_false_r in Heq.
      do 2 eexists. split; [exact Heq | reflexivity].
  - intros s H Hne Hd Hlen Hlt. rewrite H in Heq.
    rewrite (page_size_of_digits s Hne Hd Hlen Hlt) in Heq.
    do 2 eexists. split; [exact Heq | reflexivity].
Qed.

End Performance.

Lemma page_size_from_content_length_witness :
  exists report tr',
    get_performance_info
      (Examples.env_serving Examples.page (Raise Examples.unreachable))
      Examples.example_com [] = (Ok report, tr') /\
    field "page_size" report = Some (VStr "2.00 KB").
Proof.
  apply (proj1 (page_size_from_content_length
                  (Examples.env_serving Examples.page
                     (Raise Examples.unreachable))
                  Examples.example_com [] Examples.page eq_refl)).
  reflexivity.
Defined.

(** Ties go to the even hundredth: 128 bytes are 0.125 KB. *)
Example page_size_128 : page_size "128" = Ok "0.12 KB".
Proof. reflexivity. Qed.

(** C8, at a response whose [Content-Length] is the superscript two.
    The value is no number, and yet [isdigit] accepts it: [int] raises
    [ValueError] in [get_performance_info], outside the [try] of that
    method, and the scan of [https://example.com], every request of
    which was answered, ends with [success: False] where a page size
    [Unknown] is expected of a length that is no number.  A value that
    [isdigit] rejects, [abc], is answered [Unknown]. *)
Theorem scan_aborts_on_superscript_length :
  let env := Examples.env_serving Examples.page_superscript
               (Raise Examples.unreachable) in
  let superscript_two := String (ascii_of_N 178) "" in
  let error := "invalid literal for int() with base 10: '"
               ++ superscript_two ++ "'" in
  msg_get "Content-Length" (headers Examples.page_superscript)
    = Some superscript_two /\
  all_chars is_ascii_digit superscript_two = false /\
  isdigit superscript_two = true /\
  page_size superscript_two = Raise (Exn "ValueError" error) /\
  fst (get_performance_info env Examples.example_com [])
    = Raise (Exn "ValueError" error) /\
  fst (run (scan env Examples.example_com)) =
    Ok (VDict [ ("success", VBool false); ("error", VStr error) ]) /\
  page_size "abc" = Ok "Unknown".
Proof. repeat split. Qed.

(** A length of 4301 decimal digits is refused by [int] too, although
    its value is 2048. *)
Example scan_aborts_on_long_length :
  exists error,
    fst (run (scan (Examples.env_serving Examples.page_long_length
                      (Raise Examples.unreachable))
                Examples.example_com)) =
    Ok (VDict [ ("success", VBool false); ("error", VStr error) ]) /\
    String.prefix "Exceeds the limit (4300 digits)" error = true.
Proof. eexists. split; [vm_compute; reflexivity | reflexivity]. Qed.

(* ================================================================== *)
(** ** The scan as a whole *)

Section Categories.

Variable env : Env.
Variable self : WebsiteScanner.

Lemma get_basic_info_eq (tr : list call) (parsed : ParseResult) :
  urlparse env (url self) = Ok parsed ->
  get_basic_info env self tr =
    (match port parsed with
     | Ok p =>
         Ok (VDict [ ("url", VStr (url self));
                     ("domain", VStr (domain self));
                     ("status_code",
                       match urlopen env (List.length tr) (url self) with
                       | Ok response => status_value (getcode response)
                       | Raise _ => unknown
                       end);
                     ("protocol", VStr (scheme parsed));
                     ("port",
                       VInt (port_or_default p (scheme parsed))) ])
     | Raise e => Raise e
     end, (tr ++ [Urlopen (url self)])%list).
Proof.
  intros H. unfold get_basic_info. run_monad. rewrite H.
  destruct (urlopen env (List.length tr) (url self));
    destruct (port parsed); reflexivity.
Qed.

Lemma get_server_info_total (tr : list call) :
  exists ip server,
    get_server_info env self tr =
      (Ok (VDict [ ("ip_address", VStr ip);
                   ("server", VStr server);
                   ("location", VStr "Unknown");
                   ("city", VStr "Unknown");
                   ("isp", VStr "Unknown") ]),
       (tr ++ [Gethostbyname (domain self); Urlopen (url self)])%list).
Proof.
  unfold get_server_info. run_monad.
  destruct (gethostbyname env (List.length tr) (domain self));
    destruct (urlopen env _ (url self));
    rewrite snoc_snoc; do 2 eexists; reflexivity.
Qed.

Lemma get_name_servers_total (tr : list call) :
  exists ns,
    get_name_servers env self tr =
      (Ok ns, (tr ++ [Nslookup (domain self)])%list).
Proof.
  unfold get_name_servers. run_monad.
  destruct (nslookup env (List.length tr) (domain self)) as [out|e];
    [|eexists; reflexivity].
  destruct (collect_nameservers _ _); eexists; reflexivity.
Qed.

Lemma get_domain_info_total (tr : list call) :
  exists ns,
    get_domain_info env self tr =
      (Ok (VDict [ ("registrar", unknown);
                   ("creation_date", unknown);
                   ("expiry_date", unknown);
                   ("name_servers", VStr ns);
                   ("dnssec", unknown) ]),
       (tr ++ [Nslookup (domain self)])%list).
Proof.
  unfold get_domain_info. destruct (get_name_servers_total tr) as (ns & H).
  unfold bind. rewrite H. now exists ns.
Qed.

Lemma get_security_headers_allow_list (tr : list call) :
  exists hs,
    get_security_headers env self tr =
      (Ok hs, (tr ++ [Urlopen (url self)])%list) /\
    forall k, In k (dict_keys hs) -> In k security_header_names.
Proof.
  unfold get_security_headers. run_monad.
  destruct (urlopen env (List.length tr) (url self)) as [response|e];
    eexists; (split; [reflexivity|]).
  - intros k. apply select_security_headers_allow_list.
  - intros k [].
Qed.

Lemma get_security_info_total (tr : list call) :
  exists ssl hs,
    get_security_info env self tr =
      (Ok (VDict [ ("ssl_certificate", ssl);
                   ("security_headers", strings hs);
                   ("hsts_enabled",
                     VBool (dict_has "Strict-Transport-Security" hs));
                   ("content_security_policy",
                     VBool (dict_has "Content-Security-Policy" hs)) ]),
       (tr ++ (if startswith (url self) "https"
               then [TlsConnect (domain self) 443] else [])
           ++ [Urlopen (url self)])%list) /\
    (keys_of ssl = Some ssl_keys_disabled \/
     keys_of ssl = Some ssl_keys_enabled) /\
    (forall k, In k (dict_keys hs) -> In k security_header_names).
Proof.
  unfold get_security_info.
  destruct (get_ssl_info_total env self tr) as (ssl & Hssl & Hkeys).
  set (tr1 := (tr ++ _)%list) in Hssl.
  destruct (get_security_headers_allow_list tr1) as (hs & Hhs & Hallow).
  unfold bind at 1. rewrite Hssl. unfold bind at 1. rewrite Hhs. unfold ret.
  exists ssl, hs. unfold tr1. rewrite <- app_assoc. auto.
Qed.

Lemma get_technology_info_total (tr : list call) :
  exists server language cms frameworks analytics,
    get_technology_info env self tr =
      (Ok (VDict [ ("web_server", VStr server);
                   ("programming_language", VStr language);
                   ("cms", VStr cms);
                   ("javascript_frameworks", VStr frameworks);
                   ("analytics", VStr analytics) ]),
       (tr ++ [Urlopen (url self)])%list).
Proof.
  unfold get_technology_info. run_monad.
  destruct (urlopen env (List.length tr) (url self)) as [response|e];
    [destruct (read response)|]; do 5 eexists; reflexivity.
Qed.

End Categories.

Section ScanShape.

Variable env : Env.
Variable self : WebsiteScanner.

(** A scan either ends on an exception, which it reports, or goes
    through its six categories, making the calls of [scan_calls]. *)
Lemma scan_cases :
  (exists e tr, run (scan env self) = (Ok (failure_report e), tr)) \/
  (exists parsed p status ip server ns ssl hs rt comp cach size
          ws lang cms js an,
      urlparse env (url self) = Ok parsed /\
      port parsed = Ok p /\
      run (scan env self) =
        (Ok (success_report env
               [ ("basic_info",
                   VDict [ ("url", VStr (url self));
                           ("domain", VStr (domain self));
                           ("status_code", status);
                           ("protocol", VStr (scheme parsed));
                           ("port",
                             VInt (port_or_default p (scheme parsed))) ]);
                 ("server_info",
                   VDict [ ("ip_address", VStr ip);
                           ("server", VStr server);
                           ("location", VStr "Unknown");
                           ("city", VStr "Unknown");
                           ("isp", VStr "Unknown") ]);
                 ("domain_info",
                   VDict [ ("registrar", unknown);
                           ("creation_date", unknown);
                           ("expiry_date", unknown);
                           ("name_servers", VStr ns);
                           ("dnssec", unknown) ]);
                 ("security_info",
                   VDict [ ("ssl_certificate", ssl);
                           ("security_headers", strings hs);
                           ("hsts_enabled",
                             VBool (dict_has "Strict-Transport-Security"
                                      hs));
                           ("content_security_policy",
                             VBool (dict_has "Content-Security-Policy"
                                      hs)) ]);
                 ("performance_info",
                   VDict [ ("response_time", VStr rt);
                           ("compression", VStr comp);
                           ("caching", VStr cach);
                           ("page_size", VStr size) ]);
                 ("technology_info",
                   VDict [ ("web_server", VStr ws);
                           ("programming_language", VStr lang);
                           ("cms", VStr cms);
                           ("javascript_frameworks", VStr js);
                           ("analytics", VStr an) ]) ]),
         scan_calls self) /\
      (keys_of ssl = Some ssl_keys_disabled \/
       keys_of ssl = Some ssl_keys_enabled) /\
      (forall k, In k (dict_keys hs) -> In k security_header_names)).
Proof.
  remember (run (scan env self)) as out eqn:E.
  unfold run, scan in E. unfold try_except at 1 in E. unfold bind at 1 in E.
  destruct (urlparse env (url self)) as [parsed|e0] eqn:Hparse.
  2:{ left. unfold get_basic_info in E. unfold bind at 1, lift at 1 in E.
      rewrite Hparse in E. unfold ret in E. now exists e0, []. }
  rewrite (get_basic_info_eq env self [] parsed Hparse) in E.
  destruct (port parsed) as [p|e1] eqn:Hport.
  2:{ left. unfold ret in E.
      now exists e1, ([] ++ [Urlopen (url self)])%list. }
  cbn zeta in E.
  unfold bind at 1 in E.
  match type of E with context [get_server_info env self ?t] =>
    destruct (get_server_info_total env self t) as (ip & server & Hs) end.
  rewrite Hs in E. unfold bind at 1 in E.
  match type of E with context [get_domain_info env self ?t] =>
    destruct (get_domain_info_total env self t) as (ns & Hd) end.
  rewrite Hd in E. unfold bind at 1 in E.
  match type of E with context [get_security_info env self ?t] =>
    destruct (get_security_info_total env self t)
      as (ssl & hs & Hsec & Hkeys & Hallow) end.
  rewrite Hsec in E. unfold bind at 1 in E.
  match type of E with context [get_performance_info env self ?t] =>
    destruct (get_performance_info_eq env self t)
      as (rt & comp & cach & Hp) end.
  rewrite Hp in E.
  match type of E with context [page_size ?c] =>
    destruct (page_size c) as [size|e2] end.
  2:{ left. unfold ret in E. eexists e2, _. exact E. }
  unfold bind at 1 in E.
  match type of E with context [get_technology_info env self ?t] =>
    destruct (get_technology_info_total env self t)
      as (ws & lang & cms & js & an & Ht) end.
  rewrite Ht in E. unfold ret in E. right.
  exists parsed, p. eexists. exists ip, server, ns, ssl, hs, rt, comp, cach,
    size, ws, lang, cms, js, an.
  split; [reflexivity|]. split; [exact Hport|]. split; [|auto].
  rewrite E. unfold scan_calls, success_report.
  rewrite <- !app_assoc. reflexivity.
Qed.

End ScanShape.

Section ReportShape.

Variable env : Env.
Variable self : WebsiteScanner.

Lemma http_requests_scan_calls :
  http_requests (scan_calls self) = repeat (Urlopen (url self)) 7.
Proof.
  unfold scan_calls, http_requests.
  destruct (startswith (url self) "https"); reflexivity.
Qed.

(** C1, as the code has it.  Every method that looks at the HTTP
    response makes its own request: [get_basic_info], [get_server_info],
    [get_security_headers], [check_compression], [check_caching] and
    [get_technology_info] one each, [get_performance_info] three (its
    own and those of the two checks), whatever was fetched before; and a
    scan that reports success has made the calls of [scan_calls], seven
    of which are requests for the URL. *)
Theorem every_consumer_fetches :
  (forall tr,
      (forall parsed,
          urlparse env (url self) = Ok parsed ->
          snd (get_basic_info env self tr) =
            (tr ++ [Urlopen (url self)])%list) /\
      snd (get_server_info env self tr) =
        (tr ++ [Gethostbyname (domain self); Urlopen (url self)])%list /\
      snd (get_security_headers env self tr) =
        (tr ++ [Urlopen (url self)])%list /\
      snd (check_compression env self tr) =
        (tr ++ [Urlopen (url self)])%list /\
      snd (check_caching env self tr) =
        (tr ++ [Urlopen (url self)])%list /\
      snd (get_performance_info env self tr) =
        (tr ++ [Urlopen (url self); Urlopen (url self);
                Urlopen (url self)])%list /\
      snd (get_technology_info env self tr) =
        (tr ++ [Urlopen (url self)])%list) /\
  (forall report tr,
      run (scan env self) = (Ok report, tr) ->
      field "success" report = Some (VBool true) ->
      tr = scan_calls self /\
      http_requests tr = repeat (Urlopen (url self)) 7).
Proof.
  split.
  - intros tr. split.
    { intros parsed Hp.
      now rewrite (get_basic_info_eq env self tr parsed Hp). }
    destruct (get_server_info_total env self tr) as (? & ? & ->).
    destruct (get_security_headers_total env self tr) as (? & ->).
    destruct (check_compression_total env self tr) as (? & ->).
    destruct (check_caching_total env self tr) as (? & ->).
    destruct (get_performance_info_eq env self tr) as (? & ? & ? & ->).
    destruct (get_technology_info_total env self tr)
      as (? & ? & ? & ? & ? & ->).
    repeat split.
  - intros report tr Hrun Hok.
    destruct (scan_cases env self) as [(e & tr' & H) | H].
    + rewrite H in Hrun. inversion Hrun; subst. discriminate Hok.
    + destruct H as (parsed & p & status & ip & server & ns & ssl & hs & rt
                     & comp & cach & size & ws & lang & cms & js & an
                     & _ & _ & H & _).
      rewrite H in Hrun. inversion Hrun; subst.
      split; [reflexivity | apply http_requests_scan_calls].
Qed.

End ReportShape.

Lemma every_consumer_fetches_witness :
  calls (main Examples.env_down ["scanner.py"; "https://example.com"])
    = scan_calls Examples.example_com /\
  http_requests
    (calls (main Examples.env_down ["scanner.py"; "https://example.com"]))
    = repeat (Urlopen "https://example.com") 7.
Proof.
  refine (proj2 (every_consumer_fetches Examples.env_down
                   Examples.example_com) _ _ _ _).
  - reflexivity.
  - reflexivity.
Defined.

(** On a server that answers, the scan of [https://example.com] makes
    seven requests for the page, not one. *)
Lemma scan_makes_seven_requests :
  http_requests
    (calls (main (Examples.env_serving Examples.page
                    (Raise Examples.unreachable))
              ["scanner.py"; "https://example.com"]))
    = repeat (Urlopen "https://example.com") 7 /\
  Nat.eqb
    (List.length
       (http_requests
          (calls (main (Examples.env_serving Examples.page
                          (Raise Examples.unreachable))
                    ["scanner.py"; "https://example.com"]))))
    1 = false.
Proof. split; reflexivity. Qed.

(* ================================================================== *)
(** ** When no call gets through *)

Section NetworkDown.

Variable env : Env.
Variable self : WebsiteScanner.
Hypothesis Hdown : network_down env.

Lemma down_server_info (tr : list call) :
  get_server_info env self tr =
    (Ok (VDict [ ("ip_address", VStr "Unknown");
                 ("server", VStr "Unknown");
                 ("location", VStr "Unknown");
                 ("city", VStr "Unknown");
                 ("isp", VStr "Unknown") ]),
     (tr ++ [Gethostbyname (domain self); Urlopen (url self)])%list).
Proof.
  destruct Hdown as (Hu & Hg & _ & _).
  unfold get_server_info. run_monad.
  destruct (Hg (List.length tr) (domain self)) as [e1 ->].
  destruct (Hu (List.length (tr ++ [Gethostbyname (domain self)]))
              (url self)) as [e2 ->].
  now rewrite snoc_snoc.
Qed.

Lemma down_domain_info (tr : list call) :
  get_domain_info env self tr =
    (Ok (VDict [ ("registrar", VStr "Unknown");
                 ("creation_date", VStr "Unknown");
                 ("expiry_date", VStr "Unknown");
                 ("name_servers", VStr "Unknown");
                 ("dnssec", VStr "Unknown") ]),
     (tr ++ [Nslookup (domain self)])%list).
Proof.
  destruct Hdown as (_ & _ & Hn & _).
  unfold get_domain_info, get_name_servers. run_monad.
  now destruct (Hn (List.length tr) (domain self)) as [e ->].
Qed.

Lemma down_security_info (tr : list call) :
  exists message,
    get_security_info env self tr =
      (Ok (VDict [ ("ssl_certificate",
                     VDict [ ("enabled", VBool false);
                             ("message", VStr message) ]);
                   ("security_headers", VDict []);
                   ("hsts_enabled", VBool false);
                   ("content_security_policy", VBool false) ]),
       (tr ++ (if startswith (url self) "https"
               then [TlsConnect (domain self) 443] else [])
           ++ [Urlopen (url self)])%list).
Proof.
  destruct Hdown as (Hu & _ & _ & Hc).
  unfold get_security_info, get_security_headers.
  destruct (startswith (url self) "https") eqn:Hs.
  - destruct (Hc (List.length tr) (domain self) 443%Z) as [e He].
    destruct (get_ssl_info_degrades env self tr) as (_ & Hssl & _).
    exists ("SSL error: " ++ exn_msg e).
    unfold bind at 1. rewrite (Hssl Hs e He). run_monad.
    destruct (Hu (List.length (tr ++ [TlsConnect (domain self) 443]))
                (url self)) as [e2 ->].
    now rewrite <- app_assoc.
  - destruct (get_ssl_info_degrades env self tr) as (Hssl & _ & _).
    exists "SSL not enabled".
    unfold bind at 1. rewrite (Hssl Hs). run_monad.
    now destruct (Hu (List.length tr) (url self)) as [e2 ->].
Qed.

Lemma down_performance_info (tr : list call) :
  get_performance_info env self tr =
    (Ok (VDict [ ("response_time", VStr "Unknown");
                 ("compression", VStr "Unknown");
                 ("caching", VStr "Unknown");
                 ("page_size", VStr "Unknown") ]),
     (tr ++ [Urlopen (url self); Urlopen (url self); Urlopen (url self)])
       %list).
Proof.
  destruct Hdown as (Hu & _ & _ & _).
  unfold get_performance_info, check_compression, check_caching. run_monad.
  destruct (Hu (List.length tr) (url self)) as [e1 ->].
  destruct (Hu (List.length (tr ++ [Urlopen (url self)])) (url self))
    as [e2 ->].
  destruct (Hu (List.length ((tr ++ [Urlopen (url self)])
                               ++ [Urlopen (url self)])) (url self))
    as [e3 ->].
  cbn [fst snd]. now rewrite <- !app_assoc.
Qed.

Lemma down_technology_info (tr : list call) :
  get_technology_info env self tr =
    (Ok (VDict [ ("web_server", VStr "Unknown");
                 ("programming_language", VStr "Unknown");
                 ("cms", VStr "Custom/Unknown");
                 ("javascript_frameworks", VStr "Unknown");
                 ("analytics", VStr "None detected") ]),
     (tr ++ [Urlopen (url self)])%list).
Proof.
  destruct Hdown as (Hu & _ & _ & _).
  unfold get_technology_info. run_monad.
  now destruct (Hu (List.length tr) (url self)) as [e1 ->].
Qed.

(** The whole scan when the URL parses and its port reads. *)
Lemma down_scan (parsed : ParseResult) (p : option Z) :
  urlparse env (url self) = Ok parsed ->
  port parsed = Ok p ->
  exists message,
    run (scan env self) =
      (Ok (success_report env (unknown_data self parsed p message)),
       scan_calls self).
Proof.
  intros Hparse Hport. destruct Hdown as (Hu & _).
  unfold run, scan. unfold try_except at 1. unfold bind at 1.
  rewrite (get_basic_info_eq env self [] parsed Hparse), Hport.
  destruct (Hu (List.length (@nil call)) (url self)) as [e0 ->].
  cbn zeta. unfold bind at 1. rewrite down_server_info.
  unfold bind at 1. rewrite down_domain_info.
  unfold bind at 1.
  match goal with |- context [get_security_info env self ?t] =>
    destruct (down_security_info t) as (message & ->) end.
  unfold bind at 1. rewrite down_performance_info.
  unfold bind at 1. rewrite down_technology_info.
  unfold ret. exists message. unfold scan_calls, success_report, unknown_data.
  rewrite <- !app_assoc. reflexivity.
Qed.

End NetworkDown.

(* ================================================================== *)
(** ** One failing call touches one category *)

Section ScanSteps.

Variable env : Env.
Variable self : WebsiteScanner.

(** A scan that reports success went through its six categories in
    turn, and conversely. *)
Lemma scan_success_inv (data : dict value) (tr : list call) :
  run (scan env self) = (Ok (success_report env data), tr) ->
  exists b s d sec p t tr1 tr2 tr3 tr4 tr5,
    get_basic_info env self [] = (Ok b, tr1) /\
    get_server_info env self tr1 = (Ok s, tr2) /\
    get_domain_info env self tr2 = (Ok d, tr3) /\
    get_security_info env self tr3 = (Ok sec, tr4) /\
    get_performance_info env self tr4 = (Ok p, tr5) /\
    get_technology_info env self tr5 = (Ok t, tr) /\
    data = [ ("basic_info", b); ("server_info", s); ("domain_info", d);
             ("security_info", sec); ("performance_info", p);
             ("technology_info", t) ].
Proof.
  unfold run, scan, try_except, bind, ret, success_report.
  destruct (get_basic_info env self []) as [[b|e] tr1] eqn:E1;
    [|intros H; inversion H].
  destruct (get_server_info env self tr1) as [[s|e] tr2] eqn:E2;
    [|intros H; inversion H].
  destruct (get_domain_info env self tr2) as [[d|e] tr3] eqn:E3;
    [|intros H; inversion H].
  destruct (get_security_info env self tr3) as [[sec|e] tr4] eqn:E4;
    [|intros H; inversion H].
  destruct (get_performance_info env self tr4) as [[p|e] tr5] eqn:E5;
    [|intros H; inversion H].
  destruct (get_technology_info env self tr5) as [[t|e] tr6] eqn:E6;
    [|intros H; inversion H].
  intros H. inversion H; subst.
  exists b, s, d, sec, p, t, tr1, tr2, tr3, tr4, tr5.
  repeat split; assumption || reflexivity.
Qed.

Lemma scan_success_intro (b s d sec p t : value)
  (tr1 tr2 tr3 tr4 tr5 tr6 : list call) :
  get_basic_info env self [] = (Ok b, tr1) ->
  get_server_info env self tr1 = (Ok s, tr2) ->
  get_domain_info env self tr2 = (Ok d, tr3) ->
  get_security_info env self tr3 = (Ok sec, tr4) ->
  get_performance_info env self tr4 = (Ok p, tr5) ->
  get_technology_info env self tr5 = (Ok t, tr6) ->
  run (scan env self) =
    (Ok (success_report env
           [ ("basic_info", b); ("server_info", s); ("domain_info", d);
             ("security_info", sec); ("performance_info", p);
             ("technology_info", t) ]), tr6).
Proof.
  intros H1 H2 H3 H4 H5 H6.
  unfold run, scan, try_except, bind, ret, success_report.
  now rewrite H1, H2, H3, H4, H5, H6.
Qed.

End ScanSteps.

Section Isolation.

Variables env env' : Env.
Variable self : WebsiteScanner.
Variable k : nat.
Hypothesis Honly : fails_only_at k env env'.

Abbreviation survives := (Spec.survives k env env').

Lemma survives_total (m : Env -> M value) (cs : list call) :
  (forall e tr, exists v, m e tr = (Ok v, (tr ++ cs)%list)) ->
  (forall tr,
      (forall i, List.length tr <= i < List.length tr + List.length cs ->
                 agree_at i env env') ->
      m env tr = m env' tr) ->
  survives m.
Proof.
  intros Htot Hloc tr v tr1 Hm. destruct Honly as (_ & _ & _ & Hag & _).
  destruct (Htot env tr) as [v0 H0]. rewrite H0 in Hm.
  inversion Hm; subst. destruct (Htot env' tr) as [v' H'].
  exists v'. rewrite length_app. split; [exact H'|]. split; [|lia].
  intros Hk. assert (E : m env tr = m env' tr).
  { apply Hloc. intros i Hi. apply Hag. lia. }
  rewrite H0, H' in E. now inversion E.
Qed.

Lemma local_security_headers (tr : list call) :
  agree_at (List.length tr) env env' ->
  get_security_headers env self tr = get_security_headers env' self tr.
Proof.
  intros (Hu & _). unfold get_security_headers. run_monad. now rewrite Hu.
Qed.

Lemma local_ssl_info (tr : list call) :
  agree_at (List.length tr) env env' ->
  get_ssl_info env self tr = get_ssl_info env' self tr.
Proof.
  intros (_ & _ & _ & Hc). unfold get_ssl_info.
  destruct (startswith (url self) "https"); cbn [negb]; [|reflexivity].
  run_monad. now rewrite Hc.
Qed.

Lemma local_compression (tr : list call) :
  agree_at (List.length tr) env env' ->
  check_compression env self tr = check_compression env' self tr.
Proof.
  intros (Hu & _). unfold check_compression. run_monad. now rewrite Hu.
Qed.

Lemma local_caching (tr : list call) :
  agree_at (List.length tr) env env' ->
  check_caching env self tr = check_caching env' self tr.
Proof.
  intros (Hu & _). unfold check_caching. run_monad. now rewrite Hu.
Qed.

Lemma survives_server_info : survives (fun e => get_server_info e self).
Proof.
  apply (survives_total _ [Gethostbyname (domain self); Urlopen (url self)]).
  - intros e tr. destruct (get_server_info_total e self tr) as (? & ? & H).
    eauto.
  - intros tr Ha. unfold get_server_info. run_monad.
    destruct (Ha (List.length tr)) as (_ & Hg & _); [simpl; lia|].
    destruct (Ha (S (List.length tr))) as (Hu & _); [simpl; lia|].
    rewrite Hg.
    destruct (gethostbyname env' (List.length tr) (domain self));
      cbn beta iota; rewrite length_snoc, Hu; reflexivity.
Qed.

Lemma survives_domain_info : survives (fun e => get_domain_info e self).
Proof.
  apply (survives_total _ [Nslookup (domain self)]).
  - intros e tr. destruct (get_domain_info_total e self tr) as (? & H).
    eauto.
  - intros tr Ha. unfold get_domain_info, get_name_servers. run_monad.
    destruct (Ha (List.length tr)) as (_ & _ & Hn & _); [simpl; lia|].
    now rewrite Hn.
Qed.

Lemma survives_security_info : survives (fun e => get_security_info e self).
Proof.
  apply (survives_total _
           ((if startswith (url self) "https"
             then [TlsConnect (domain self) 443] else [])
              ++ [Urlopen (url self)])%list).
  - intros e tr.
    destruct (get_security_info_total e self tr) as (? & ? & H & _).
    eauto.
  - intros tr Ha. unfold get_security_info, bind.
    destruct (get_ssl_info_total env self tr) as (ssl & Hssl & _).
    destruct (startswith (url self) "https") eqn:Hs.
    + rewrite <- (local_ssl_info tr) by (apply Ha; simpl; lia).
      rewrite Hssl.
      rewrite <- (local_security_headers _)
        by (rewrite length_snoc; apply Ha; simpl; lia).
      reflexivity.
    + assert (E : get_ssl_info env' self tr = get_ssl_info env self tr).
      { unfold get_ssl_info. now rewrite Hs. }
      rewrite E, Hssl, app_nil_r.
      rewrite <- (local_security_headers _) by (apply Ha; simpl; lia).
      reflexivity.
Qed.

Lemma survives_technology_info :
  survives (fun e => get_technology_info e self).
Proof.
  apply (survives_total _ [Urlopen (url self)]).
  - intros e tr.
    destruct (get_technology_info_total e self tr)
      as (? & ? & ? & ? & ? & H).
    eauto.
  - intros tr Ha. unfold get_technology_info. run_monad.
    destruct (Ha (List.length tr)) as (Hu & _); [simpl; lia|].
    now rewrite Hu.
Qed.

Lemma survives_basic_info : survives (fun e => get_basic_info e self).
Proof.
  intros tr v tr1 Hm.
  destruct Honly as (Hparse & _ & _ & Hag & _).
  destruct (urlparse env (url self)) as [parsed|e] eqn:Hp.
  2:{ unfold get_basic_info in Hm. run_monad_in Hm. rewrite Hp in Hm.
      discriminate Hm. }
  assert (Hp' : urlparse env' (url self) = Ok parsed) by now rewrite Hparse.
  rewrite (get_basic_info_eq env self tr parsed Hp) in Hm.
  rewrite (get_basic_info_eq env' self tr parsed Hp').
  destruct (port parsed) as [p|e]; [|discriminate Hm].
  inversion Hm; subst. eexists. split; [reflexivity|].
  rewrite length_snoc. split; [|lia].
  intros Hk. destruct (Hag (List.length tr)) as (Hu & _); [lia|].
  now rewrite Hu.
Qed.

Lemma local_performance_info (tr : list call) :
  (forall i, List.length tr <= i < List.length tr + 3 -> agree_at i env env') ->
  get_performance_info env self tr = get_performance_info env' self tr.
Proof.
  intros Ha. destruct Honly as (_ & Hel & _).
  unfold get_performance_info.
  unfold bind, try_except, position, ret, lift, do_urlopen, perform.
  destruct (Ha (List.length tr)) as (Hu & _); [lia|].
  rewrite Hu, Hel.
  assert (Hc : forall t, List.length t = S (List.length tr) ->
                         check_compression env self t
                         = check_compression env' self t).
  { intros t Ht. apply local_compression. rewrite Ht. apply Ha. lia. }
  assert (Hk : forall t, List.length t = S (S (List.length tr)) ->
                         check_caching env self t
                         = check_caching env' self t).
  { intros t Ht. apply local_caching. rewrite Ht. apply Ha. lia. }
  destruct (urlopen env' (List.length tr) (url self)); cbn beta iota;
    cbn [fst snd];
    rewrite Hc by apply length_snoc;
    destruct (check_compression_total env' self
                (tr ++ [Urlopen (url self)])%list) as (c1 & ->);
    rewrite Hk by (now rewrite !length_snoc);
    reflexivity.
Qed.

Lemma survives_performance_info :
  survives (fun e => get_performance_info e self).
Proof.
  intros tr v tr1 Hm.
  destruct Honly as (_ & Hel & _ & Hag & Hfail).
  destruct (get_performance_info_eq env self tr) as (rt & c1 & c2 & H).
  destruct (get_performance_info_eq env' self tr) as (rt' & c1' & c2' & H').
  rewrite H in Hm.
  assert (Hsize : exists size,
             page_size
               match urlopen env' (List.length tr) (url self) with
               | Ok response =>
                   msg_get_default "Content-Length" "Unknown"
                     (headers response)
               | Raise _ => "Unknown"
               end = Ok size).
  { destruct (Nat.eq_dec (List.length tr) k) as [E|E].
    - destruct (Hfail (url self)) as [e He]. rewrite E, He.
      now exists "Unknown".
    - destruct (Hag (List.length tr) E) as (Hu & _). rewrite <- Hu.
      destruct (page_size _) as [size|]; [now exists size | discriminate Hm]. }
  destruct Hsize as [size Hsize]. rewrite Hsize in H'.
  destruct (page_size _) as [size0|]; [|discriminate Hm].
  inversion Hm; subst. eexists. split; [exact H'|].
  rewrite length_app. simpl List.length. split; [|lia].
  intros Hk.
  assert (E : get_performance_info env self tr
              = get_performance_info env' self tr).
  { apply local_performance_info. intros i Hi. apply Hag. lia. }
  rewrite H, H' in E. now inversion E.
Qed.

(** A call that fails leaves the scan successful, with the same calls,
    and changes the value of one category at most. *)
Lemma scan_isolation (data : dict value) (tr : list call) :
  run (scan env self) = (Ok (success_report env data), tr) ->
  exists data',
    run (scan env' self) = (Ok (success_report env' data'), tr) /\
    exists c, forall c', c' <> c -> dict_get c' data' = dict_get c' data.
Proof.
  intros Hrun. apply scan_success_inv in Hrun.
  destruct Hrun as (b & s & d & sec & p & t & tr1 & tr2 & tr3 & tr4 & tr5
                    & H1 & H2 & H3 & H4 & H5 & H6 & ->).
  destruct (survives_basic_info _ _ _ H1) as (b' & H1' & Eb & L1).
  destruct (survives_server_info _ _ _ H2) as (s' & H2' & Es & L2).
  destruct (survives_domain_info _ _ _ H3) as (d' & H3' & Ed & L3).
  destruct (survives_security_info _ _ _ H4) as (sec' & H4' & Esec & L4).
  destruct (survives_performance_info _ _ _ H5) as (p' & H5' & Ep & L5).
  destruct (survives_technology_info _ _ _ H6) as (t' & H6' & Et & L6).
  eexists. split.
  { exact (scan_success_intro env' self _ _ _ _ _ _ _ _ _ _ _ _
             H1' H2' H3' H4' H5' H6'). }
  simpl List.length in *.
  destruct (Nat.lt_ge_cases k (List.length tr1)) as [K1|K1].
  { exists "basic_info". intros c' Hc'.
    rewrite Es, Ed, Esec, Ep, Et by lia. cbn [dict_get].
    destruct (String.eqb_spec c' "basic_info"); [contradiction | reflexivity]. }
  destruct (Nat.lt_ge_cases k (List.length tr2)) as [K2|K2].
  { exists "server_info". intros c' Hc'.
    rewrite Eb, Ed, Esec, Ep, Et by lia. cbn [dict_get].
    destruct (String.eqb_spec c' "server_info"); [contradiction|].
    destruct (String.eqb c' "basic_info"); reflexivity. }
  destruct (Nat.lt_ge_cases k (List.length tr3)) as [K3|K3].
  { exists "domain_info". intros c' Hc'.
    rewrite Eb, Es, Esec, Ep, Et by lia. cbn [dict_get].
    destruct (String.eqb_spec c' "domain_info"); [contradiction|].
    destruct (String.eqb c' "basic_info"); [reflexivity|].
    destruct (String.eqb c' "server_info"); reflexivity. }
  destruct (Nat.lt_ge_cases k (List.length tr4)) as [K4|K4].
  { exists "security_info". intros c' Hc'.
    rewrite Eb, Es, Ed, Ep, Et by lia. cbn [dict_get].
    destruct (String.eqb_spec c' "security_info"); [contradiction|].
    destruct (String.eqb c' "basic_info"); [reflexivity|].
    destruct (String.eqb c' "server_info"); [reflexivity|].
    destruct (String.eqb c' "domain_info"); reflexivity. }
  destruct (Nat.lt_ge_cases k (List.length tr5)) as [K5|K5].
  { exists "performance_info". intros c' Hc'.
    rewrite Eb, Es, Ed, Esec, Et by lia. cbn [dict_get].
    destruct (String.eqb_spec c' "performance_info"); [contradiction|].
    destruct (String.eqb c' "basic_info"); [reflexivity|].
    destruct (String.eqb c' "server_info"); [reflexivity|].
    destruct (String.eqb c' "domain_info"); [reflexivity|].
    destruct (String.eqb c' "security_info"); reflexivity. }
  exists "technology_info". intros c' Hc'.
  rewrite Eb, Es, Ed, Esec, Ep by lia. cbn [dict_get].
  destruct (String.eqb_spec c' "technology_info"); [contradiction|].
  destruct (String.eqb c' "basic_info"); [reflexivity|].
  destruct (String.eqb c' "server_info"); [reflexivity|].
  destruct (String.eqb c' "domain_info"); [reflexivity|].
  destruct (String.eqb c' "security_info"); [reflexivity|].
  destruct (String.eqb c' "performance_info"); reflexivity.
Qed.

End Isolation.

Lemma fail_call_fails_only_at (k : nat) (e : exn) (env : Env) :
  fails_only_at k env (fail_call k e env).
Proof.
  unfold fails_only_at.
  split; [reflexivity|]. split; [reflexivity|]. split; [reflexivity|]. split.
  - intros i Hi. apply Nat.eqb_neq in Hi.
    unfold agree_at, fail_call. cbn. rewrite Hi. repeat split.
  - intros u. exists e. unfold fail_call. cbn. now rewrite Nat.eqb_refl.
Qed.

(** The program prints one JSON document and ends with status 0 once
    the constructor has returned. *)
Lemma main_prints_report (env : Env) (prog u : string)
  (self : WebsiteScanner) :
  init env u = Ok self ->
  exists report,
    stdout (main env [prog; u]) = [JsonDocument report] /\
    exit_status (main env [prog; u]) = 0%Z.
Proof.
  intros Hinit. unfold main. rewrite Hinit.
  destruct (scan_cases env self) as [(e & tr & H) | H].
  - rewrite H. eexists. split; reflexivity.
  - destruct H as (parsed & p & status & ip & server & ns & ssl & hs & rt
                   & comp & cach & size & ws & lang & cms & js & an
                   & _ & _ & H & _).
    rewrite H. eexists. split; reflexivity.
Qed.

(** C3.  For a URL that the constructor accepts and whose port reads:
    when every network call raises, the program prints the report of
    success whose categories hold their defaults ([Unknown],
    [Custom/Unknown], [None detected], no security header, TLS not
    enabled, and the URL's own domain, scheme and port) and ends with
    status 0; in any environment it prints one document and ends with
    status 0; and making one call of a successful scan fail leaves the
    scan successful and changes the value of at most one category. *)
Theorem scan_degrades_to_unknown (env : Env) (prog u : string)
  (self : WebsiteScanner) (parsed : ParseResult) (p : option Z) :
  init env u = Ok self ->
  urlparse env u = Ok parsed ->
  port parsed = Ok p ->
  (network_down env ->
   exists message,
     main env [prog; u] =
       {| stdout := [JsonDocument
                       (success_report env
                          (unknown_data self parsed p message))];
          exit_status := 0;
          calls := scan_calls self |}) /\
  (exists report,
      stdout (main env [prog; u]) = [JsonDocument report] /\
      exit_status (main env [prog; u]) = 0%Z) /\
  (forall k e data tr,
      run (scan env self) = (Ok (success_report env data), tr) ->
      exists data',
        run (scan (fail_call k e env) self)
          = (Ok (success_report (fail_call k e env) data'), tr) /\
        exists c,
          forall c', c' <> c -> dict_get c' data' = dict_get c' data).
Proof.
  intros Hinit Hparse Hport.
  assert (Hu : url self = u).
  { unfold init in Hinit. rewrite Hparse in Hinit. now inversion Hinit. }
  split; [|split].
  - intros Hdown. unfold main. rewrite Hinit.
    rewrite <- Hu in Hparse.
    destruct (down_scan env self Hdown parsed p Hparse Hport)
      as (message & H).
    exists message. now rewrite H.
  - exact (main_prints_report env prog u self Hinit).
  - intros k e data tr Hrun.
    exact (scan_isolation env (fail_call k e env) self k
             (fail_call_fails_only_at k e env) data tr Hrun).
Qed.

Lemma scan_degrades_to_unknown_witness :
  exists message,
    main Examples.env_down ["scanner.py"; "https://example.com"] =
      {| stdout :=
           [JsonDocument
              (success_report Examples.env_down
                 (unknown_data Examples.example_com
                    {| scheme := "https"; netloc := "example.com";
                       port := Ok None |}
                    None message))];
         exit_status := 0;
         calls := scan_calls Examples.example_com |}.
Proof.
  refine (proj1 (scan_degrades_to_unknown Examples.env_down "scanner.py"
                   "https://example.com" Examples.example_com
                   {| scheme := "https"; netloc := "example.com";
                      port := Ok None |}
                   None eq_refl eq_refl eq_refl) _).
  repeat split; intros; eexists; reflexivity.
Defined.

(* ================================================================== *)
(** * Further properties of the detectors *)

Section FirstMatch.

Variable content : string.

(** The first matching entry of a table of word lists. *)
Lemma first_match_words (table : list (string * list string)) :
  (forall label,
      first_match true (map (fun lw => (fst lw, alts (snd lw))) table)
        content = Some label <->
      first_found table content label) /\
  (first_match true (map (fun lw => (fst lw, alts (snd lw))) table)
     content = None <->
   forall l ws, In (l, ws) table -> ~ found_ci ws content).
Proof.
  induction table as [|[l0 ws0] table [IHs IHn]].
  - split.
    + intros label. split; [discriminate|].
      intros (before & words & after & H & _). now destruct before.
    + split; [intros _ l ws [] | reflexivity].
  - cbn [map first_match fst snd].
    pose proof (search_alts_found ws0 content) as Hs.
    destruct (search true (alts ws0) content).
    + assert (Hf : found_ci ws0 content) by now apply Hs.
      split.
      * intros label. split.
        -- intros E. inversion E; subst.
           exists [], ws0, table. split; [reflexivity|].
           split; [exact Hf | intros l ws []].
        -- intros (before & words & after & H & Hw & Hb).
           destruct before as [|[l1 ws1] before].
           ++ simpl in H. now inversion H.
           ++ simpl in H. inversion H; subst.
              exfalso. apply (Hb l1 ws1); [now left | exact Hf].
      * split; [discriminate|]. intros H. exfalso.
        apply (H l0 ws0); [now left | exact Hf].
    + assert (Hf : ~ found_ci ws0 content).
      { intros H. apply Hs in H. discriminate H. }
      split.
      * intros label. rewrite IHs. split.
        -- intros (before & words & after & H & Hw & Hb).
           exists ((l0, ws0) :: before), words, after.
           split; [now rewrite H|]. split; [exact Hw|].
           intros l ws [E|Hin]; [inversion E; now subst|].
           exact (Hb l ws Hin).
        -- intros (before & words & after & H & Hw & Hb).
           destruct before as [|[l1 ws1] before].
           ++ simpl in H. inversion H; subst. contradiction.
           ++ simpl in H. inversion H; subst.
              exists before, words, after. split; [reflexivity|].
              split; [exact Hw|]. intros l ws Hin.
              apply (Hb l ws). now right.
      * rewrite IHn. split.
        -- intros H l ws [E|Hin]; [inversion E; now subst|].
           exact (H l ws Hin).
        -- intros H l ws Hin. apply (H l ws). now right.
Qed.

Lemma first_found_label (table : list (string * list string))
  (label : string) :
  first_found table content label -> In label (map fst table).
Proof.
  intros (before & words & after & -> & _).
  rewrite map_app, in_app_iff. right. now left.
Qed.

(** X2.  CMS detection answers with the first CMS of the table, in the
    order WordPress, Drupal, Joomla, Magento, Shopify, one of whose words
    occurs in the content up to case, whatever later entries occur too,
    and with [Custom/Unknown] exactly when no word of the table
    occurs. *)
Theorem detect_cms_first_in_table :
  (forall cms, first_found cms_words content cms -> detect_cms content = cms) /\
  (detect_cms content = "Custom/Unknown" <->
   forall cms words, In (cms, words) cms_words -> ~ found_ci words content) /\
  (detect_cms content = "Custom/Unknown" \/
   first_found cms_words content (detect_cms content)).
Proof.
  destruct (first_match_words cms_words) as [Hs Hn].
  change (map (fun lw => (fst lw, alts (snd lw))) cms_words)
    with cms_patterns in Hs, Hn.
  unfold detect_cms.
  destruct (first_match true cms_patterns content) as [cms0|] eqn:E.
  - assert (H0 : first_found cms_words content cms0) by now apply Hs.
    split; [|split].
    + intros cms H. apply Hs in H. now inversion H.
    + split.
      * intros ->. apply first_found_label in H0. simpl in H0.
        exfalso. intuition discriminate.
      * intros H. apply Hn in H. discriminate H.
    + now right.
  - split; [|split].
    + intros cms H. apply Hs in H. discriminate H.
    + split; [intros _; now apply Hn | reflexivity].
    + now left.
Qed.

End FirstMatch.

Lemma detect_cms_first_in_table_witness :
  detect_cms "a drupal site with a wordpress blog" = "WordPress".
Proof.
  apply (proj1 (detect_cms_first_in_table
                  "a drupal site with a wordpress blog")).
  exists [], ["wp-content"; "wp-includes"; "wordpress"],
    [ ("Drupal", ["drupal"; "sites/default"]);
      ("Joomla", ["joomla"; "option=com_"]);
      ("Magento", ["magento"; "mage/js"]);
      ("Shopify", ["shopify"; "cdn.shopify"]) ].
  split; [reflexivity|]. split; [|intros l ws []].
  exists "wordpress". split; [simpl; auto|].
  exists "a drupal site with a ", "wordpress", " blog".
  split; [reflexivity | now apply spelt_by_run].
Defined.

(** X3.  Analytics detection answers with the first service of the
    table, in the order Google Analytics, Google Tag Manager, Facebook
    Pixel, Hotjar, one of whose words occurs in the content up to case,
    and with [None detected] exactly when no word of the table
    occurs. *)
Theorem detect_analytics_first_in_table (content : string) :
  (forall service,
      first_found analytics_words content service ->
      detect_analytics content = service) /\
  (detect_analytics content = "None detected" <->
   forall service words,
     In (service, words) analytics_words -> ~ found_ci words content) /\
  (detect_analytics content = "None detected" \/
   first_found analytics_words content (detect_analytics content)).
Proof.
  destruct (first_match_words content analytics_words) as [Hs Hn].
  change (map (fun lw => (fst lw, alts (snd lw))) analytics_words)
    with analytics_patterns in Hs, Hn.
  unfold detect_analytics.
  destruct (first_match true analytics_patterns content) as [s0|] eqn:E.
  - assert (H0 : first_found analytics_words content s0) by now apply Hs.
    split; [|split].
    + intros service H. apply Hs in H. now inversion H.
    + split.
      * intros ->. apply first_found_label in H0. simpl in H0.
        exfalso. intuition discriminate.
      * intros H. apply Hn in H. discriminate H.
    + now right.
  - split; [|split].
    + intros service H. apply Hs in H. discriminate H.
    + split; [intros _; now apply Hn | reflexivity].
    + now left.
Qed.

Lemma detect_analytics_first_in_table_witness :
  detect_analytics "fbq('init'); GTAG('js')" = "Google Analytics".
Proof.
  apply (proj1 (detect_analytics_first_in_table "fbq('init'); GTAG('js')")).
  exists [], ["google-analytics"; "gtag"; "ga("],
    [ ("Google Tag Manager", ["googletagmanager"]);
      ("Facebook Pixel", ["facebook.net/tr"; "fbq("]);
      ("Hotjar", ["hotjar"]) ].
  split; [reflexivity|]. split; [|intros l ws []].
  exists "gtag". split; [simpl; auto|].
  exists "fbq('init'); ", "GTAG", "('js')".
  split; [reflexivity | now apply spelt_by_run].
Defined.

(** ** The web server *)

Section Splitting.

Variable sep : ascii.

Abbreviation has_sep s := (substring (String sep EmptyString) s).

Lemma has_sep_cons (a : ascii) (s : string) :
  has_sep (String a s) <-> a = sep \/ has_sep s.
Proof.
  unfold substring. split.
  - intros (pre & post & H). destruct pre as [|b pre].
    + left. simpl in H. now inversion H.
    + right. simpl in H. inversion H. now exists pre, post.
  - intros [-> | (pre & post & ->)].
    + now exists "", s.
    + now exists (String a pre), post.
Qed.

Lemma has_sep_empty : ~ has_sep "".
Proof. intros (pre & post & H). now destruct pre. Qed.

Lemma split_on_nonempty (s : string) : split_on sep s <> [].
Proof.
  destruct s as [|a s]; [discriminate|]. simpl.
  destruct (Ascii.eqb a sep); [discriminate|].
  destruct (split_on sep s); discriminate.
Qed.

(** The first field of a split holds no separator. *)
Lemma split_on_hd_clean (s : string) :
  ~ has_sep (hd EmptyString (split_on sep s)).
Proof.
  induction s as [|a s IH]; [exact has_sep_empty|]. simpl.
  destruct (Ascii.eqb_spec a sep) as [->|Ha]; [exact has_sep_empty|].
  destruct (split_on sep s) as [|h r] eqn:E.
  - simpl. rewrite has_sep_cons. intros [H|H]; [contradiction|].
    now apply has_sep_empty in H.
  - simpl in *. rewrite has_sep_cons. intros [H|H]; contradiction.
Qed.

(** A field without separator, followed by a separator, is the first
    field. *)
Lemma split_on_field (name rest : string) :
  ~ has_sep name ->
  split_on sep (name ++ String sep rest) = name :: split_on sep rest.
Proof.
  induction name as [|a name IH]; intros H.
  - simpl. now rewrite Ascii.eqb_refl.
  - rewrite has_sep_cons in H. simpl.
    destruct (Ascii.eqb_spec a sep) as [->|Ha]; [tauto|].
    rewrite IH by tauto. reflexivity.
Qed.

Lemma split_on_whole (v : string) :
  ~ has_sep v -> split_on sep v = [v].
Proof.
  induction v as [|a v IH]; intros H; [reflexivity|].
  rewrite has_sep_cons in H. simpl.
  destruct (Ascii.eqb_spec a sep) as [->|Ha]; [tauto|].
  rewrite IH by tauto. reflexivity.
Qed.

End Splitting.

(** X1.  The web server is what the [Server] entry holds before its
    first slash: [Unknown] without the entry, the product name for
    [name/version], the whole value when it has no slash; the answer
    never holds a slash. *)
Theorem detect_web_server_product (headers : dict string) :
  (dict_get "Server" headers = None ->
   detect_web_server headers = "Unknown") /\
  (forall name rest,
      dict_get "Server" headers = Some (name ++ "/" ++ rest) ->
      ~ substring "/" name ->
      detect_web_server headers = name) /\
  (forall v,
      dict_get "Server" headers = Some v -> ~ substring "/" v ->
      detect_web_server headers = v) /\
  ~ substring "/" (detect_web_server headers).
Proof.
  unfold detect_web_server, dict_get_default.
  split; [|split; [|split]].
  - now intros ->.
  - intros name rest -> Hn.
    destruct (String.eqb_spec (name ++ "/" ++ rest) "Unknown") as [E|_].
    + exfalso. assert (H : substring "/" "Unknown").
      { rewrite <- E. now exists name, rest. }
      apply contains_iff in H. discriminate H.
    + change (name ++ "/" ++ rest) with (name ++ String "/" rest).
      now rewrite split_on_field.
  - intros v -> Hv.
    destruct (String.eqb_spec v "Unknown") as [->|_]; [reflexivity|].
    now rewrite split_on_whole.
  - destruct (dict_get "Server" headers) as [v|].
    + destruct (String.eqb v "Unknown").
      * intros H. apply contains_iff in H. discriminate H.
      * apply split_on_hd_clean.
    + intros H. apply contains_iff in H. discriminate H.
Qed.

Lemma detect_web_server_product_witness :
  detect_web_server [("Server", "nginx/1.18")] = "nginx".
Proof.
  apply (proj1 (proj2 (detect_web_server_product [("Server", "nginx/1.18")]))
           "nginx" "1.18" eq_refl).
  intros H. apply contains_iff in H. discriminate H.
Defined.

(* ================================================================== *)
(** * Further properties of the probing methods *)

Section BasicInfo.

Variable env : Env.
Variable self : WebsiteScanner.

(** X4.  The port of [basic_info] is the port written in the URL when it
    is not zero; without a port, or with the port 0, it is 443 for the
    scheme [https] and 80 for any other scheme; it is never 0.  The
    status code is that of the response ([None] when the response has
    none), or [Unknown] when the request raises. *)
Theorem basic_info_port_and_status (tr : list call) (parsed : ParseResult)
  (p : option Z) :
  urlparse env (url self) = Ok parsed ->
  port parsed = Ok p ->
  exists status n,
    get_basic_info env self tr =
      (Ok (VDict [ ("url", VStr (url self));
                   ("domain", VStr (domain self));
                   ("status_code", status);
                   ("protocol", VStr (scheme parsed));
                   ("port", VInt n) ]),
       (tr ++ [Urlopen (url self)])%list) /\
    (forall m, p = Some m -> m <> 0%Z -> n = m) /\
    (p = None \/ p = Some 0%Z ->
     n = if String.eqb (scheme parsed) "https" then 443%Z else 80%Z) /\
    (n =? 0)%Z = false /\
    (forall response,
        urlopen env (List.length tr) (url self) = Ok response ->
        status = status_value (getcode response)) /\
    (forall e,
        urlopen env (List.length tr) (url self) = Raise e ->
        status = VStr "Unknown").
Proof.
  intros Hparse Hport.
  rewrite (get_basic_info_eq env self tr parsed Hparse), Hport.
  do 2 eexists. split; [reflexivity|].
  unfold port_or_default. repeat split.
  - intros m -> Hm. apply Z.eqb_neq in Hm. now rewrite Hm.
  - intros [-> | ->]; reflexivity.
  - destruct p as [m|].
    + destruct (Z.eqb_spec m 0) as [->|Hm].
      * now destruct (String.eqb (scheme parsed) "https").
      * now apply Z.eqb_neq.
    + now destruct (String.eqb (scheme parsed) "https").
  - now intros response ->.
  - now intros e ->.
Qed.

(** X5.  A port that [urlparse] refuses to read ends the scan in
    [get_basic_info]: the report is [success: False] with the text of
    the error, and the one request of [get_basic_info] is the only call
    made. *)
Theorem scan_reports_port_error (parsed : ParseResult) (e : exn) :
  urlparse env (url self) = Ok parsed ->
  port parsed = Raise e ->
  run (scan env self) =
    (Ok (VDict [ ("success", VBool false); ("error", VStr (exn_msg e)) ]),
     [Urlopen (url self)]).
Proof.
  intros Hparse Hport. unfold run, scan.
  unfold try_except at 1. unfold bind at 1.
  now rewrite (get_basic_info_eq env self [] parsed Hparse), Hport.
Qed.

(** The calls of a scan, whatever its end, are the first calls of
    [scan_calls]; and a scan returns a report. *)
Lemma scan_returns_prefix :
  exists report n,
    run (scan env self) = (Ok report, firstn n (scan_calls self)) /\
    ((exists e, report = failure_report e) \/
     (exists data, report = success_report env data)).
Proof.
  remember (run (scan env self)) as out eqn:E.
  unfold run, scan in E. unfold try_except at 1 in E. unfold bind at 1 in E.
  destruct (urlparse env (url self)) as [parsed|e0] eqn:Hparse.
  2:{ unfold get_basic_info in E. unfold bind at 1, lift at 1 in E.
      rewrite Hparse in E. unfold ret in E. subst out.
      exists (failure_report e0), 0. split; [reflexivity | eauto]. }
  rewrite (get_basic_info_eq env self [] parsed Hparse) in E.
  destruct (port parsed) as [p|e1] eqn:Hport.
  2:{ unfold ret in E. subst out.
      exists (failure_report e1), 1. split; [reflexivity | eauto]. }
  cbn zeta in E.
  unfold bind at 1 in E.
  match type of E with context [get_server_info env self ?t] =>
    destruct (get_server_info_total env self t) as (ip & server & Hs) end.
  rewrite Hs in E. unfold bind at 1 in E.
  match type of E with context [get_domain_info env self ?t] =>
    destruct (get_domain_info_total env self t) as (ns & Hd) end.
  rewrite Hd in E. unfold bind at 1 in E.
  match type of E with context [get_security_info env self ?t] =>
    destruct (get_security_info_total env self t)
      as (ssl & hs & Hsec & Hkeys & Hallow) end.
  rewrite Hsec in E. unfold bind at 1 in E.
  match type of E with context [get_performance_info env self ?t] =>
    destruct (get_performance_info_eq env self t)
      as (rt & comp & cach & Hp) end.
  rewrite Hp in E.
  match type of E with context [page_size ?c] =>
    destruct (page_size c) as [size|e2] end.
  2:{ unfold ret in E. subst out.
      exists (failure_report e2),
        (if startswith (url self) "https" then 9 else 8).
      split; [|eauto]. unfold scan_calls, failure_report.
      rewrite <- !app_assoc.
      destruct (startswith (url self) "https"); reflexivity. }
  unfold bind at 1 in E.
  match type of E with context [get_technology_info env self ?t] =>
    destruct (get_technology_info_total env self t)
      as (ws & lang & cms & js & an & Ht) end.
  rewrite Ht in E. unfold ret in E. subst out.
  eexists. exists (List.length (scan_calls self)).
  rewrite firstn_all. split; [|right; eexists; reflexivity].
  unfold scan_calls. rewrite <- !app_assoc. reflexivity.
Qed.

(** X6.  [scan] never raises: it returns a report, of success with its
    data or of failure with an error text; and the calls it has made by
    then are an initial part of the sequence request, address lookup,
    request, name-server lookup, TLS connection (for a URL that starts
    with [https]), five requests. *)
Theorem scan_never_raises :
  exists report n,
    run (scan env self) = (Ok report, firstn n (scan_calls self)) /\
    ((exists e,
         report = VDict [ ("success", VBool false);
                          ("error", VStr (exn_msg e)) ]) \/
     (exists data,
         report = VDict [ ("success", VBool true);
                          ("data", VDict data);
                          ("scan_time", VStr (now_isoformat env)) ])).
Proof. exact scan_returns_prefix. Qed.

End BasicInfo.

Lemma basic_info_port_and_status_witness :
  exists status n,
    get_basic_info Examples.env_down Examples.example_com_8443 [] =
      (Ok (VDict [ ("url", VStr "https://example.com:8443/");
                   ("domain", VStr "example.com:8443");
                   ("status_code", status);
                   ("protocol", VStr "https");
                   ("port", VInt n) ]),
       [Urlopen "https://example.com:8443/"]) /\
    n = 8443%Z.
Proof.
  destruct (basic_info_port_and_status Examples.env_down
              Examples.example_com_8443 []
              {| scheme := "https"; netloc := "example.com:8443";
                 port := Ok (Some 8443%Z) |}
              (Some 8443%Z) eq_refl eq_refl)
    as (status & n & H & Hn & _).
  exists status, n. split; [exact H|].
  apply (Hn 8443%Z eq_refl). discriminate.
Defined.

Lemma scan_reports_port_error_witness :
  run (scan Examples.env_down Examples.example_com_99999) =
    (Ok (VDict [ ("success", VBool false);
                 ("error", VStr "Port out of range 0-65535") ]),
     [Urlopen "http://example.com:99999"]).
Proof.
  exact (scan_reports_port_error Examples.env_down
           Examples.example_com_99999
           {| scheme := "http"; netloc := "example.com:99999";
              port := Raise (Exn "ValueError" "Port out of range 0-65535") |}
           (Exn "ValueError" "Port out of range 0-65535")
           eq_refl eq_refl).
Defined.

(** X16.  A scan contacts nothing but the URL, as given, and the
    network location of the URL, as the host of the address lookup, of
    the name-server lookup and of the TLS connection; the TLS
    connection goes to port 443 whatever port the URL names. *)
Theorem scan_contacts_netloc_on_443 (env : Env) (u : string)
  (self : WebsiteScanner) (parsed : ParseResult) :
  init env u = Ok self ->
  urlparse env u = Ok parsed ->
  forall c, In c (snd (run (scan env self))) ->
            expected_call u (netloc parsed) c.
Proof.
  intros Hinit Hparse c Hin.
  unfold init in Hinit. rewrite Hparse in Hinit. inversion Hinit; subst.
  destruct (scan_returns_prefix env
              {| url := u; domain := netloc parsed |})
    as (report & n & H & _).
  rewrite H in Hin. cbn [snd] in Hin.
  assert (Hall : In c (scan_calls {| url := u; domain := netloc parsed |})).
  { rewrite <- (firstn_skipn n). apply in_or_app. now left. }
  clear Hin. rename Hall into Hin.
  unfold scan_calls in Hin. cbn [url domain] in Hin.
  unfold expected_call.
  repeat (rewrite in_app_iff in Hin; simpl in Hin).
  destruct (startswith u "https"); simpl in Hin; intuition.
Qed.

Lemma scan_contacts_netloc_on_443_witness :
  expected_call "https://example.com:8443/" "example.com:8443"
    (TlsConnect "example.com:8443" 443).
Proof.
  apply (scan_contacts_netloc_on_443 Examples.env_down
           "https://example.com:8443/" Examples.example_com_8443
           {| scheme := "https"; netloc := "example.com:8443";
              port := Ok (Some 8443%Z) |}
           eq_refl eq_refl).
  vm_compute. tauto.
Defined.

(** ** Headers *)

Section HeaderLookup.

Variable hs : list (string * string).

Lemma msg_contains_named (name : string) :
  msg_contains name hs = true <-> named_ci name hs.
Proof.
  unfold msg_contains, named_ci. rewrite existsb_exists. split.
  - intros ([n v] & Hin & E). apply String.eqb_eq in E. now exists n, v.
  - intros (n & v & Hin & E). exists (n, v). split; [exact Hin|].
    now apply String.eqb_eq.
Qed.

Lemma msg_get_named (name : string) :
  (exists v, msg_get name hs = Some v) <-> named_ci name hs.
Proof.
  unfold msg_get, named_ci. split.
  - intros [v H].
    destruct (find _ hs) as [[n v0]|] eqn:E; [|discriminate H].
    apply find_some in E. destruct E as [Hin E].
    apply String.eqb_eq in E. now exists n, v0.
  - intros (n & v & Hin & E).
    destruct (find _ hs) as [[n0 v0]|] eqn:F; [now exists v0|].
    exfalso. apply (find_none _ _ F) in Hin. cbn [fst] in Hin.
    apply String.eqb_neq in Hin. contradiction.
Qed.

(** The loop of [dict(msg)], for any way of choosing the values. *)
Lemma dict_loop_get (val : string * string -> string) (k : string)
  (l : list (string * string)) (acc : dict string) (x : string) :
  (forall kv, In kv l -> fst kv = k -> val kv = x) ->
  dict_get k (fold_left (fun d kv => dict_set (fst kv) (val kv) d) l acc) =
  if existsb (fun kv => String.eqb k (fst kv)) l then Some x
  else dict_get k acc.
Proof.
  revert acc. induction l as [|kv l IH] using rev_ind; intros acc Hval.
  - reflexivity.
  - rewrite fold_left_app, existsb_app. cbn [fold_left existsb].
    rewrite dict_get_set, orb_false_r.
    destruct (String.eqb_spec k (fst kv)) as [E|E].
    + rewrite orb_true_r. f_equal. apply Hval; [|now symmetry].
      apply in_or_app. right. now left.
    + rewrite orb_false_r. apply IH. intros kv' Hin.
      apply Hval. apply in_or_app. now left.
Qed.

(** [dict(msg)] has an entry for a name exactly when a line is named so
    letter for letter; its value is that of the first line named so up
    to case. *)
Lemma dict_of_message_get (k : string) :
  dict_get k (dict_of_message hs) =
  if existsb (fun kv => String.eqb k (fst kv)) hs then msg_get k hs
  else None.
Proof.
  unfold dict_of_message.
  destruct (msg_get k hs) as [x|] eqn:G.
  - apply (dict_loop_get _ k hs [] x).
    intros kv Hin <-. unfold msg_get_default. now rewrite G.
  - destruct (existsb (fun kv => String.eqb k (fst kv)) hs) eqn:E.
    + exfalso. apply existsb_exists in E. destruct E as ([n v] & Hin & E).
      apply String.eqb_eq in E. cbn [fst] in E. subst n.
      assert (H : named_ci k hs) by now exists k, v.
      apply msg_get_named in H. destruct H as [x H]. congruence.
    + rewrite (dict_loop_get _ k hs [] ""); [now rewrite E|].
      intros kv Hin Hk. exfalso.
      assert (H : existsb (fun kv => String.eqb k (fst kv)) hs = true).
      { apply existsb_exists. exists kv. split; [exact Hin|].
        now apply String.eqb_eq. }
      congruence.
Qed.

Lemma existsb_named_exactly (k : string) :
  existsb (fun kv => String.eqb k (fst kv)) hs = true <-> named_exactly k hs.
Proof.
  unfold named_exactly. rewrite existsb_exists, in_map_iff. split.
  - intros (kv & Hin & E). apply String.eqb_eq in E. now exists kv.
  - intros (kv & E & Hin). exists kv. split; [exact Hin|].
    now apply String.eqb_eq.
Qed.

End HeaderLookup.

Section HeaderMethods.

Variable env : Env.
Variable self : WebsiteScanner.

(** X11.  From a response, [get_security_headers] records a value
    under a name exactly when the name is one of the six of the
    allow-list, some header line carries that name letter for letter,
    and the value is that of the first header line of that name up to
    case (which may be another line). *)
Theorem security_headers_recorded (tr : list call) (response : Response) :
  urlopen env (List.length tr) (url self) = Ok response ->
  exists recorded,
    get_security_headers env self tr =
      (Ok recorded, (tr ++ [Urlopen (url self)])%list) /\
    forall name v,
      dict_get name recorded = Some v <->
      In name security_header_names /\
      named_exactly name (headers response) /\
      msg_get name (headers response) = Some v.
Proof.
  intros Hresp. unfold get_security_headers. run_monad. rewrite Hresp.
  eexists. split; [reflexivity|]. intros name v.
  rewrite select_security_headers_get, dict_of_message_get.
  rewrite <- existsb_named_exactly.
  destruct (existsb (String.eqb name) security_header_names) eqn:E1.
  - assert (Hin : In name security_header_names).
    { apply existsb_exists in E1. destruct E1 as (n & Hn & E).
      apply String.eqb_eq in E. now subst. }
    destruct (existsb _ (headers response)); intuition discriminate.
  - split; [discriminate|]. intros (Hin & _). exfalso.
    assert (H : existsb (String.eqb name) security_header_names = true).
    { apply existsb_exists. exists name. split; [exact Hin|].
      apply String.eqb_refl. }
    congruence.
Qed.

(** X8.  [check_compression] answers [Enabled] when a header line of
    the response is named [Content-Encoding] up to case, [Disabled] when
    none is, and [Unknown] when the request raises; in each case after
    one request. *)
Theorem check_compression_answers (tr : list call) :
  (forall response,
      urlopen env (List.length tr) (url self) = Ok response ->
      named_ci "Content-Encoding" (headers response) ->
      check_compression env self tr =
        (Ok "Enabled", (tr ++ [Urlopen (url self)])%list)) /\
  (forall response,
      urlopen env (List.length tr) (url self) = Ok response ->
      ~ named_ci "Content-Encoding" (headers response) ->
      check_compression env self tr =
        (Ok "Disabled", (tr ++ [Urlopen (url self)])%list)) /\
  (forall e,
      urlopen env (List.length tr) (url self) = Raise e ->
      check_compression env self tr =
        (Ok "Unknown", (tr ++ [Urlopen (url self)])%list)).
Proof.
  unfold check_compression. run_monad. repeat split.
  - intros response -> H. apply msg_contains_named in H. now rewrite H.
  - intros response -> H.
    destruct (msg_contains "Content-Encoding" (headers response)) eqn:E;
      [|reflexivity].
    apply msg_contains_named in E. contradiction.
  - now intros e ->.
Qed.

(** X9.  [check_caching] answers [Enabled] when a header line of the
    response is named, up to case, [Cache-Control], [Expires], [ETag] or
    [Last-Modified], [Disabled] when none is, and [Unknown] when the
    request raises. *)
Theorem check_caching_answers (tr : list call) :
  (forall response,
      urlopen env (List.length tr) (url self) = Ok response ->
      (exists header,
          In header cache_headers /\ named_ci header (headers response)) ->
      check_caching env self tr =
        (Ok "Enabled", (tr ++ [Urlopen (url self)])%list)) /\
  (forall response,
      urlopen env (List.length tr) (url self) = Ok response ->
      (forall header,
          In header cache_headers -> ~ named_ci header (headers response)) ->
      check_caching env self tr =
        (Ok "Disabled", (tr ++ [Urlopen (url self)])%list)) /\
  (forall e,
      urlopen env (List.length tr) (url self) = Raise e ->
      check_caching env self tr =
        (Ok "Unknown", (tr ++ [Urlopen (url self)])%list)).
Proof.
  unfold check_caching. run_monad. repeat split.
  - intros response -> (header & Hin & H).
    replace (existsb _ cache_headers) with true; [reflexivity|].
    symmetry. apply existsb_exists. exists header. split; [exact Hin|].
    now apply msg_contains_named.
  - intros response -> H.
    destruct (existsb _ cache_headers) eqn:E; [|reflexivity].
    apply existsb_exists in E. destruct E as (header & Hin & E).
    apply msg_contains_named in E. now apply H in E.
  - now intros e ->.
Qed.

(** X12.  The [Server] header is read in two ways.  [get_server_info]
    finds it under any spelling of its name; [get_technology_info]
    looks it up in [dict(response.headers)] and finds it only when a
    line is named [Server] letter for letter: for a response that names
    it otherwise, the first reports the value and the second reports
    [Unknown] as web server. *)
Theorem server_header_read_two_ways (tr tr' : list call)
  (response : Response) (v : string) :
  urlopen env (S (List.length tr)) (url self) = Ok response ->
  urlopen env (List.length tr') (url self) = Ok response ->
  msg_get "Server" (headers response) = Some v ->
  ~ named_exactly "Server" (headers response) ->
  (exists server_info,
      fst (get_server_info env self tr) = Ok server_info /\
      field "server" server_info = Some (VStr v)) /\
  (exists technology_info,
      fst (get_technology_info env self tr') = Ok technology_info /\
      field "web_server" technology_info = Some (VStr "Unknown")).
Proof.
  intros H1 H2 Hget Hexact. split.
  - unfold get_server_info. run_monad.
    destruct (gethostbyname env (List.length tr) (domain self));
      cbn beta iota; rewrite length_snoc, H1; cbn beta iota;
      unfold msg_get_default; rewrite Hget;
      eexists; (split; [reflexivity|]); reflexivity.
  - assert (Hd : dict_get "Server" (dict_of_message (headers response))
                 = None).
    { rewrite dict_of_message_get.
      destruct (existsb _ (headers response)) eqn:E; [|reflexivity].
      apply existsb_named_exactly in E. contradiction. }
    unfold get_technology_info. run_monad. rewrite H2.
    destruct (read response); cbn beta iota; cbn [fst snd];
      eexists; (split; [reflexivity|]).
    + unfold detect_web_server, dict_get_default. now rewrite Hd.
    + reflexivity.
Qed.

(** X18.  When the response arrives but reading its body raises,
    [get_technology_info] drops the headers with the body: every field
    takes its default, the web server too, whatever the [Server] header
    says. *)
Theorem technology_info_on_read_error (tr : list call)
  (response : Response) (e : exn) :
  urlopen env (List.length tr) (url self) = Ok response ->
  read response = Raise e ->
  get_technology_info env self tr =
    (Ok (VDict [ ("web_server", VStr "Unknown");
                 ("programming_language", VStr "Unknown");
                 ("cms", VStr "Custom/Unknown");
                 ("javascript_frameworks", VStr "Unknown");
                 ("analytics", VStr "None detected") ]),
     (tr ++ [Urlopen (url self)])%list).
Proof.
  intros H1 H2. unfold get_technology_info. run_monad.
  now rewrite H1, H2.
Qed.

End HeaderMethods.

(** ** Name servers *)

Section NameServers.

Lemma rstrip_char_clean (c : ascii) (s : string) :
  ~ ends_with c (rstrip_char c s).
Proof.
  induction s as [|a s IH]; intros (pre & H).
  - now destruct pre.
  - simpl in H. destruct (rstrip_char c s) as [|b t] eqn:E.
    + destruct (Ascii.eqb_spec a c) as [->|Ha].
      * now destruct pre.
      * destruct pre as [|x pre]; simpl in H.
        -- inversion H. contradiction.
        -- inversion H. now destruct pre.
    + destruct pre as [|x pre]; simpl in H; [discriminate H|].
      inversion H. apply IH. now exists pre.
Qed.

(** What [rstrip] takes away is made of the stripped character. *)
Lemma rstrip_char_prefix (c : ascii) (s : string) :
  exists n, s = rstrip_char c s ++ string_of_list_ascii (repeat c n).
Proof.
  induction s as [|a s [n IH]].
  - now exists 0.
  - simpl. destruct (rstrip_char c s) as [|b t] eqn:E.
    + destruct (Ascii.eqb_spec a c) as [->|Ha].
      * exists (S n). simpl. now rewrite IH at 1.
      * exists n. simpl. now rewrite IH at 1.
    + exists n. simpl. now rewrite IH at 1.
Qed.

Lemma space_is_no_letter_n (a : ascii) :
  is_space a = true -> lower_char a <> "n"%char.
Proof.
  destruct a as [[] [] [] [] [] [] [] []]; vm_compute; congruence.
Qed.

Lemma split_ws_aux_some (w s : string) : split_ws_aux (Some w) s <> [].
Proof.
  revert w. induction s as [|a s IH]; intros w; simpl; [discriminate|].
  destruct (is_space a); [discriminate | apply IH].
Qed.

Lemma split_ws_aux_letter (cur : option string) (pre post : string)
  (a : ascii) :
  is_space a = false -> split_ws_aux cur (pre ++ String a post) <> [].
Proof.
  intros Ha. revert cur. induction pre as [|b pre IH]; intros cur; simpl.
  - rewrite Ha. destruct cur; apply split_ws_aux_some.
  - destruct (is_space b); destruct cur; try discriminate; apply IH.
Qed.

Lemma lower_split (s x y : string) :
  lower s = x ++ y -> exists s1 s2, s = s1 ++ s2 /\ lower s1 = x /\ lower s2 = y.
Proof.
  revert s. induction x as [|c x IH]; intros s H.
  - now exists "", s.
  - destruct s as [|a s]; [discriminate H|]. simpl in H. inversion H.
    destruct (IH s H2) as (s1 & s2 & -> & <- & <-).
    now exists (String a s1), s2.
Qed.

(** A line that mentions [nameserver] has a word. *)
Lemma mentions_nameserver_words (line : string) :
  mentions_nameserver line = true -> split_ws line <> [].
Proof.
  unfold mentions_nameserver. intros H. apply contains_iff in H.
  destruct H as (pre & post & H).
  apply lower_split in H. destruct H as (s1 & s2 & -> & _ & H).
  change ("nameserver" ++ post) with (String "n" ("ameserver" ++ post)) in H.
  destruct s2 as [|a s2]; [discriminate H|]. simpl in H. inversion H.
  unfold split_ws. apply split_ws_aux_letter.
  destruct (is_space a) eqn:E; [|reflexivity].
  now apply space_is_no_letter_n in E.
Qed.

Lemma last_word_last (line : string) :
  split_ws line <> [] ->
  last_word line = Ok (List.last (split_ws line) EmptyString).
Proof.
  unfold last_word. intros H.
  destruct (exists_last H) as (l & w & ->).
  now rewrite rev_unit, last_last.
Qed.

Lemma collect_nameservers_closed (lines acc : list string) :
  collect_nameservers lines acc =
    Ok (acc ++ map listed_name (filter mentions_nameserver lines))%list.
Proof.
  revert acc. induction lines as [|line lines IH]; intros acc.
  - simpl. now rewrite app_nil_r.
  - cbn [collect_nameservers filter].
    fold (mentions_nameserver line).
    destruct (mentions_nameserver line) eqn:E.
    + rewrite (last_word_last line (mentions_nameserver_words line E)).
      rewrite IH. cbn [map]. unfold listed_name at 2.
      now rewrite <- app_assoc.
    + apply IH.
Qed.

(** X10.  The loop of [get_name_servers] never fails on [line.split()
    [-1]]: a line that mentions [nameserver], in any case, has a last
    word.  The loop lists, in the order of the output, the last word of
    each such line without its trailing dots; no listed name ends with a
    dot, and each is the last word less a run of dots. *)
Theorem collect_nameservers_lists_last_words (lines acc : list string) :
  collect_nameservers lines acc =
    Ok (acc ++ map listed_name (filter mentions_nameserver lines))%list /\
  Forall (fun name => ~ ends_with "." name)
    (map listed_name (filter mentions_nameserver lines)) /\
  Forall (fun line =>
            exists n,
              List.last (split_ws line) EmptyString =
              listed_name line ++ string_of_list_ascii (repeat "."%char n))
    (filter mentions_nameserver lines).
Proof.
  split; [|split].
  - apply collect_nameservers_closed.
  - apply Forall_forall. intros name H. apply in_map_iff in H.
    destruct H as (line & <- & _). apply rstrip_char_clean.
  - apply Forall_forall. intros line _. apply rstrip_char_prefix.
Qed.

End NameServers.

Section NameServerMethod.

Variable env : Env.
Variable self : WebsiteScanner.

(** X20.  [get_name_servers] answers [Unknown] when the lookup raises
    or when no line of its output mentions [nameserver]; otherwise it
    answers the listed names joined by a comma and a space. *)
Theorem get_name_servers_answers (tr : list call) :
  (forall e,
      nslookup env (List.length tr) (domain self) = Raise e ->
      get_name_servers env self tr =
        (Ok "Unknown", (tr ++ [Nslookup (domain self)])%list)) /\
  (forall output,
      nslookup env (List.length tr) (domain self) = Ok output ->
      filter mentions_nameserver (split_on "010" output) = [] ->
      get_name_servers env self tr =
        (Ok "Unknown", (tr ++ [Nslookup (domain self)])%list)) /\
  (forall output,
      nslookup env (List.length tr) (domain self) = Ok output ->
      filter mentions_nameserver (split_on "010" output) <> [] ->
      get_name_servers env self tr =
        (Ok (join ", "
               (map listed_name
                  (filter mentions_nameserver (split_on "010" output)))),
         (tr ++ [Nslookup (domain self)])%list)).
Proof.
  unfold get_name_servers. run_monad. repeat split.
  - now intros e ->.
  - intros output -> H.
    rewrite (collect_nameservers_closed _ []), H.
    reflexivity.
  - intros output -> H.
    rewrite (collect_nameservers_closed _ []).
    destruct (filter mentions_nameserver (split_on "010" output));
      [contradiction | reflexivity].
Qed.

End NameServerMethod.

(** ** The certificate *)

Section Certificate.

Variable env : Env.
Variable self : WebsiteScanner.

(** X13.  A certificate whose [issuer] is laid out as the [ssl] module
    documents it, a tuple of tuples, is answered like a failed
    handshake: the probe calls [.get] on the first tuple, the
    [AttributeError] is caught, and the answer is [enabled = False] with
    its text. *)
Theorem get_ssl_info_on_tuple_issuer (tr : list call)
  (cert : dict value) (rdn : list value) (others : list value) :
  startswith (url self) "https" = true ->
  getpeercert env (List.length tr) (domain self) 443 = Ok (VDict cert) ->
  dict_get "issuer" cert = Some (VTuple (VTuple rdn :: others)) ->
  get_ssl_info env self tr =
    (Ok (VDict [ ("enabled", VBool false);
                 ("message",
                   VStr "SSL error: 'tuple' object has no attribute 'get'")
               ]),
     (tr ++ [TlsConnect (domain self) 443])%list).
Proof.
  intros Hs Hc Hi. unfold get_ssl_info. rewrite Hs. cbn [negb]. run_monad.
  rewrite Hc. unfold common_name, value_get, dict_get_default.
  now rewrite Hi.
Qed.

(** X14.  A certificate dictionary without [issuer] and [subject] is
    answered [enabled = True] with both names [Unknown]; the validity
    dates are the [notBefore] and [notAfter] entries, [Unknown] where
    one is missing. *)
Theorem get_ssl_info_without_names (tr : list call) (cert : dict value) :
  startswith (url self) "https" = true ->
  getpeercert env (List.length tr) (domain self) 443 = Ok (VDict cert) ->
  dict_get "issuer" cert = None ->
  dict_get "subject" cert = None ->
  get_ssl_info env self tr =
    (Ok (VDict [ ("enabled", VBool true);
                 ("issuer", VStr "Unknown");
                 ("valid_from",
                   dict_get_default "notBefore" (VStr "Unknown") cert);
                 ("valid_to",
                   dict_get_default "notAfter" (VStr "Unknown") cert);
                 ("subject", VStr "Unknown") ]),
     (tr ++ [TlsConnect (domain self) 443])%list).
Proof.
  intros Hs Hc Hi Hsub. unfold get_ssl_info. rewrite Hs. cbn [negb].
  run_monad. rewrite Hc.
  unfold common_name, value_get, dict_get_default. rewrite Hi, Hsub.
  reflexivity.
Qed.

End Certificate.

(** ** The length of the page *)

Section ContentLength.



Variable env : Env.
Variable self : WebsiteScanner.


End ContentLength.

(** ** Fields that never vary *)

Section Stubs.

Variable env : Env.
Variable self : WebsiteScanner.

(** X17.  In every report of success the registrar, the creation and
    expiry dates and the DNSSEC state of the domain, and the location,
    city and provider of the server, are [Unknown], whatever the network
    answered: nothing in the scanner fills them. *)
Theorem stub_fields_are_unknown (report : value) (tr : list call) :
  run (scan env self) = (Ok report, tr) ->
  field "success" report = Some (VBool true) ->
  forall section key,
    In (section, key)
       [ ("domain_info", "registrar"); ("domain_info", "creation_date");
         ("domain_info", "expiry_date"); ("domain_info", "dnssec");
         ("server_info", "location"); ("server_info", "city");
         ("server_info", "isp") ] ->
    path ["data"; section; key] report = Some (VStr "Unknown").
Proof.
  intros Hrun Hok section key Hin.
  destruct (scan_cases env self) as [(e & tr' & H) | H].
  - rewrite H in Hrun. inversion Hrun; subst. discriminate Hok.
  - destruct H as (parsed & p & status & ip & server & ns & ssl & hs & rt
                   & comp & cach & size & ws & lang & cms & js & an
                   & _ & _ & H & _).
    rewrite H in Hrun. inversion Hrun; subst. clear Hrun Hok H.
    simpl in Hin.
    destruct Hin as [E|[E|[E|[E|[E|[E|[E|[]]]]]]]]; inversion E; subst;
      reflexivity.
Qed.

End Stubs.

(** ** The program *)

Section Program.

Variable env : Env.

(** X7.  The program needs exactly one argument after its name: with
    any other number it prints the usage line, ends with status 1 and
    makes no call; with one argument that [urlparse] refuses, the
    constructor raises before anything is printed or called, and the
    status is 1 as well. *)
Theorem main_without_a_target (argv : list string) :
  (List.length argv <> 2 ->
   main env argv = {| stdout := [Usage]; exit_status := 1; calls := [] |}) /\
  (forall prog u e,
      argv = [prog; u] ->
      urlparse env u = Raise e ->
      main env argv = {| stdout := []; exit_status := 1; calls := [] |}).
Proof.
  split.
  - intros H. unfold main.
    destruct argv as [|a [|b [|c rest]]]; try reflexivity.
    now elim H.
  - intros prog u e -> H. unfold main, init. now rewrite H.
Qed.

End Program.

(** ** The three requests of the performance section *)

Section PerformanceRequests.

Variable env : Env.
Variable self : WebsiteScanner.

(** X19.  [get_performance_info] puts together three requests: the
    response time and the page size come from its own, the compression
    and caching answers from the requests of the two checks that follow.
    When its own request raises, the response time and the page size are
    [Unknown] whatever the checks find; when it succeeds, the response
    time is the elapsed time with two decimals and [ms]; and when the
    page size cannot be computed the error leaves the method after the
    three requests have been made. *)
Theorem performance_info_from_three_requests (tr t1 t2 : list call)
  (compression caching : string) :
  check_compression env self (tr ++ [Urlopen (url self)])%list
    = (Ok compression, t1) ->
  check_caching env self t1 = (Ok caching, t2) ->
  (forall e,
      urlopen env (List.length tr) (url self) = Raise e ->
      get_performance_info env self tr =
        (Ok (VDict [ ("response_time", VStr "Unknown");
                     ("compression", VStr compression);
                     ("caching", VStr caching);
                     ("page_size", VStr "Unknown") ]), t2)) /\
  (forall response size,
      urlopen env (List.length tr) (url self) = Ok response ->
      page_size (msg_get_default "Content-Length" "Unknown"
                   (headers response)) = Ok size ->
      get_performance_info env self tr =
        (Ok (VDict [ ("response_time",
                       VStr (format_2f (elapsed_ms env (List.length tr))
                               ++ "ms"));
                     ("compression", VStr compression);
                     ("caching", VStr caching);
                     ("page_size", VStr size) ]), t2)) /\
  (forall response e,
      urlopen env (List.length tr) (url self) = Ok response ->
      page_size (msg_get_default "Content-Length" "Unknown"
                   (headers response)) = Raise e ->
      get_performance_info env self tr = (Raise e, t2)).
Proof.
  intros Hc Hk. unfold get_performance_info.
  unfold bind, try_except, position, ret, lift, do_urlopen, perform.
  repeat split.
  - intros e ->. cbn beta iota. cbn [fst snd]. now rewrite Hc, Hk.
  - intros response size -> Hsize. cbn beta iota. cbn [fst snd].
    now rewrite Hc, Hk, Hsize.
  - intros response e -> Hsize. cbn beta iota. cbn [fst snd].
    now rewrite Hc, Hk, Hsize.
Qed.

End PerformanceRequests.

(** ** Instances *)

Lemma performance_info_from_three_requests_witness :
  get_performance_info
    (Examples.env_serving Examples.page_lowercase
       (Raise Examples.unreachable))
    Examples.example_com [] =
  (Ok (VDict [ ("response_time", VStr "125.00ms");
               ("compression", VStr "Enabled");
               ("caching", VStr "Disabled");
               ("page_size", VStr "Unknown") ]),
   [ Urlopen "https://example.com"; Urlopen "https://example.com";
     Urlopen "https://example.com" ]).
Proof.
  exact (proj1 (proj2
           (performance_info_from_three_requests
              (Examples.env_serving Examples.page_lowercase
                 (Raise Examples.unreachable))
              Examples.example_com [] _ _ "Enabled" "Disabled"
              eq_refl eq_refl))
           Examples.page_lowercase "Unknown" eq_refl eq_refl).
Defined.

Lemma main_without_a_target_witness :
  main Examples.env_down ["scanner.py"] =
    {| stdout := [Usage]; exit_status := 1; calls := [] |}.
Proof.
  apply (proj1 (main_without_a_target Examples.env_down ["scanner.py"])).
  discriminate.
Defined.

Lemma check_compression_answers_witness :
  check_compression
    (Examples.env_serving Examples.page_lowercase
       (Raise Examples.unreachable))
    Examples.example_com [] =
  (Ok "Enabled", [Urlopen "https://example.com"]).
Proof.
  apply (proj1 (check_compression_answers
                  (Examples.env_serving Examples.page_lowercase
                     (Raise Examples.unreachable))
                  Examples.example_com [])
           Examples.page_lowercase eq_refl).
  exists "content-encoding", "gzip". split; [simpl; auto | reflexivity].
Defined.

Lemma check_caching_answers_witness :
  check_caching
    (Examples.env_serving Examples.page (Raise Examples.unreachable))
    Examples.example_com [] =
  (Ok "Disabled", [Urlopen "https://example.com"]).
Proof.
  apply (proj1 (proj2 (check_caching_answers
                         (Examples.env_serving Examples.page
                            (Raise Examples.unreachable))
                         Examples.example_com []))
           Examples.page eq_refl).
  intros header Hin H. apply msg_contains_named in H.
  simpl in Hin. destruct Hin as [<-|[<-|[<-|[<-|[]]]]]; discriminate H.
Defined.

Lemma security_headers_recorded_witness :
  exists recorded,
    get_security_headers
      (Examples.env_serving Examples.page (Raise Examples.unreachable))
      Examples.example_com [] =
      (Ok recorded, [Urlopen "https://example.com"]) /\
    dict_get "X-Frame-Options" recorded = Some "DENY".
Proof.
  destruct (security_headers_recorded
              (Examples.env_serving Examples.page
                 (Raise Examples.unreachable))
              Examples.example_com [] Examples.page eq_refl)
    as (recorded & H & Hiff).
  exists recorded. split; [exact H|]. apply Hiff.
  split; [simpl; auto 10|].
  split; [unfold named_exactly; simpl; auto 10 | reflexivity].
Defined.

Lemma server_header_read_two_ways_witness :
  (exists server_info,
      fst (get_server_info
             (Examples.env_serving Examples.page_lowercase
                (Raise Examples.unreachable))
             Examples.example_com []) = Ok server_info /\
      field "server" server_info = Some (VStr "nginx/1.18")) /\
  (exists technology_info,
      fst (get_technology_info
             (Examples.env_serving Examples.page_lowercase
                (Raise Examples.unreachable))
             Examples.example_com []) = Ok technology_info /\
      field "web_server" technology_info = Some (VStr "Unknown")).
Proof.
  apply (server_header_read_two_ways
           (Examples.env_serving Examples.page_lowercase
              (Raise Examples.unreachable))
           Examples.example_com [] [] Examples.page_lowercase "nginx/1.18"
           eq_refl eq_refl eq_refl).
  intros H. apply existsb_named_exactly in H. discriminate H.
Defined.

Lemma technology_info_on_read_error_witness :
  get_technology_info
    (Examples.env_serving Examples.page_unreadable
       (Raise Examples.unreachable))
    Examples.example_com [] =
  (Ok (VDict [ ("web_server", VStr "Unknown");
               ("programming_language", VStr "Unknown");
               ("cms", VStr "Custom/Unknown");
               ("javascript_frameworks", VStr "Unknown");
               ("analytics", VStr "None detected") ]),
   [Urlopen "https://example.com"]).
Proof.
  exact (technology_info_on_read_error
           (Examples.env_serving Examples.page_unreadable
              (Raise Examples.unreachable))
           Examples.example_com [] Examples.page_unreadable _
           eq_refl eq_refl).
Defined.

Lemma get_name_servers_answers_witness :
  get_name_servers
    (Examples.env_serving Examples.page (Raise Examples.unreachable))
    Examples.example_com [] =
  (Ok "a.iana-servers.net", [Nslookup "example.com"]).
Proof.
  apply (proj2 (proj2 (get_name_servers_answers
                         (Examples.env_serving Examples.page
                            (Raise Examples.unreachable))
                         Examples.example_com []))
           "example.com nameserver = a.iana-servers.net." eq_refl).
  discriminate.
Defined.

Lemma get_ssl_info_on_tuple_issuer_witness :
  get_ssl_info
    (Examples.env_serving Examples.page (Ok Examples.cert_ssl_layout))
    Examples.example_com [] =
  (Ok (VDict [ ("enabled", VBool false);
               ("message",
                 VStr "SSL error: 'tuple' object has no attribute 'get'") ]),
   [TlsConnect "example.com" 443]).
Proof.
  exact (get_ssl_info_on_tuple_issuer
           (Examples.env_serving Examples.page
              (Ok Examples.cert_ssl_layout))
           Examples.example_com [] _ _ _ eq_refl eq_refl eq_refl).
Defined.

Lemma get_ssl_info_without_names_witness :
  get_ssl_info
    (Examples.env_serving Examples.page (Ok Examples.cert_empty))
    Examples.example_com [] =
  (Ok (VDict [ ("enabled", VBool true);
               ("issuer", VStr "Unknown");
               ("valid_from", VStr "Unknown");
               ("valid_to", VStr "Unknown");
               ("subject", VStr "Unknown") ]),
   [TlsConnect "example.com" 443]).
Proof.
  exact (get_ssl_info_without_names
           (Examples.env_serving Examples.page (Ok Examples.cert_empty))
           Examples.example_com [] [] eq_refl eq_refl eq_refl eq_refl).
Defined.


Lemma stub_fields_are_unknown_witness :
  exists report,
    fst (run (scan (Examples.env_serving Examples.page
                      (Ok Examples.cert_plain))
                Examples.example_com)) = Ok report /\
    path ["data"; "domain_info"; "registrar"] report
      = Some (VStr "Unknown").
Proof.
  eexists. split; [reflexivity|].
  refine (stub_fields_are_unknown
            (Examples.env_serving Examples.page (Ok Examples.cert_plain))
            Examples.example_com _ _ eq_refl eq_refl
            "domain_info" "registrar" _).
  simpl. auto.
Defined.

(** ** When a scan succeeds *)

Section Success.

Variable env : Env.
Variable self : WebsiteScanner.

(** The position, among the calls of a scan, of the request of
    [get_performance_info] itself. *)
Abbreviation own_request :=
  (if startswith (url self) "https" then 6 else 5).

(** X21.  A scan reports success exactly when the URL parses, its port
    reads, and the page size can be computed from the [Content-Length]
    of the response to the request of [get_performance_info] (the
    seventh call of the scan for a URL that starts with [https], the
    sixth otherwise): no answer to any other call, and no failure of any
    call, can make a scan fail. *)
Theorem scan_succeeds_iff :
  (exists data tr, run (scan env self) = (Ok (success_report env data), tr))
  <->
  (exists parsed p size,
      urlparse env (url self) = Ok parsed /\
      port parsed = Ok p /\
      page_size
        match urlopen env own_request (url self) with
        | Ok response =>
            msg_get_default "Content-Length" "Unknown" (headers response)
        | Raise _ => "Unknown"
        end = Ok size).
Proof.
  remember (run (scan env self)) as out eqn:E.
  unfold run, scan in E. unfold try_except at 1 in E. unfold bind at 1 in E.
  destruct (urlparse env (url self)) as [parsed|e0] eqn:Hparse.
  2:{ unfold get_basic_info in E. unfold bind at 1, lift at 1 in E.
      rewrite Hparse in E. unfold ret in E. subst out. split.
      - intros (data & tr & H). inversion H.
      - intros (parsed & p & size & H & _). discriminate H. }
  rewrite (get_basic_info_eq env self [] parsed Hparse) in E.
  destruct (port parsed) as [p|e1] eqn:Hport.
  2:{ unfold ret in E. subst out. split.
      - intros (data & tr & H). inversion H.
      - intros (parsed' & p & size & H & H' & _).
        inversion H; subst. congruence. }
  cbn zeta in E.
  unfold bind at 1 in E.
  match type of E with context [get_server_info env self ?t] =>
    destruct (get_server_info_total env self t) as (ip & server & Hs) end.
  rewrite Hs in E. unfold bind at 1 in E.
  match type of E with context [get_domain_info env self ?t] =>
    destruct (get_domain_info_total env self t) as (ns & Hd) end.
  rewrite Hd in E. unfold bind at 1 in E.
  match type of E with context [get_security_info env self ?t] =>
    destruct (get_security_info_total env self t)
      as (ssl & hs & Hsec & Hkeys & Hallow) end.
  rewrite Hsec in E. unfold bind at 1 in E.
  match type of E with context [get_performance_info env self ?t] =>
    destruct (get_performance_info_eq env self t)
      as (rt & comp & cach & Hp) end.
  rewrite Hp in E.
  match type of E with context [urlopen env (List.length ?t) _] =>
    assert (Hlen : List.length t = own_request)
  end.
  { rewrite !length_app. destruct (startswith (url self) "https");
      reflexivity. }
  rewrite Hlen in E.
  destruct (page_size _) as [size|e2] eqn:Hsize.
  2:{ unfold ret in E. subst out. split.
      - intros (data & tr & H). inversion H.
      - intros (parsed' & p' & size & _ & _ & H). discriminate H. }
  unfold bind at 1 in E.
  match type of E with context [get_technology_info env self ?t] =>
    destruct (get_technology_info_total env self t)
      as (ws & lang & cms & js & an & Ht) end.
  rewrite Ht in E. unfold ret in E. subst out. split.
  - intros _. now exists parsed, p, size.
  - intros _. do 2 eexists. reflexivity.
Qed.

End Success.

Lemma scan_succeeds_iff_witness :
  exists data tr,
    run (scan Examples.env_down Examples.example_com)
      = (Ok (success_report Examples.env_down data), tr).
Proof.
  apply (proj2 (scan_succeeds_iff Examples.env_down Examples.example_com)).
  exists {| scheme := "https"; netloc := "example.com"; port := Ok None |},
    None, "Unknown".
  repeat split.
Defined.

(* ================================================================== *)
(** * The keys of a report *)

Section SelectedKeys.

Variable headers : dict string.




End SelectedKeys.

Section ReportKeys.

Variable env : Env.
Variable self : WebsiteScanner.







End ReportKeys.


